(** * snmpsim: the SNMP snapshot data recorder (commands/cmd2rec.py)

    A shallow embedding of the walk callback [cbFun], of the record
    formatter mix-in [SnmprecRecordMixIn.formatValue], of the closing
    summary of [main] and of its preparations before the walk, followed by
    the properties of the walk controller.

    Conventions of the embedding.
    - Python [int] is [Z] (unbounded); an OID is the tuple of its
      sub-identifiers, [list Z].
    - The module runs under Python 2 and under Python 3, and [a / b] on two
      integers is what the running interpreter makes of it: the floor of the
      quotient under Python 2; under Python 3 the double nearest to the
      quotient, kept as the rational number it stands for, or
      [OverflowError] when the quotient is beyond the doubles.  A zero
      divisor raises [ZeroDivisionError] under both.
    - A Python exception is an explicit [Raise] result; the mutable
      dictionary [cbCtx] is a record threaded through the calls; logging,
      output, sleeping and the requests handed to the SNMP engine are
      appended to a trace of events. *)

From Stdlib Require Import String DecimalString ZArith QArith List Bool Lia.
Import ListNotations.

Local Open Scope Z_scope.

Set Implicit Arguments.

(** ** Exceptions *)

(** Exceptions of [snmpsim.error] that the record formatter uses as
    signals, and anything else a formatter may raise. *)
Inductive FormatExn : Type :=
| MoreDataNotification (period : option Q)
| NoDataNotification
| SnmpsimError (msg : string)
| ForeignError (msg : string).

(** Exceptions that leave [cbFun]. *)
Inductive Exn : Type :=
| IndexError
| ZeroDivisionError
| OverflowError
| AttributeError
| FormatterFailure (msg : string).

Inductive Raises (E A : Type) : Type :=
| Return (a : A)
| Raise (e : E).

Arguments Return {E A} a.
Arguments Raise {E A} e.

Definition bind {E A B} (m : Raises E A) (k : A -> Raises E B) : Raises E B :=
  match m with
  | Return a => k a
  | Raise e => Raise e
  end.

Notation "x <- m ;; k" := (bind m (fun x => k))
  (at level 61, m at next level, right associativity).

(** ** Object identifiers and Python sequence operations *)

Definition OID : Type := list Z.

(** [t[-k]] for [k >= 1]: [IndexError] when the tuple has fewer than [k]
    items. *)
Definition getitem_neg (t : OID) (k : nat) : Raises Exn Z :=
  if (length t <? k)%nat then Raise IndexError
  else match nth_error t (length t - k) with
       | Some x => Return x
       | None => Raise IndexError
       end.

(** [t[:-k]]: every item but the last [k]; empty when there are fewer. *)
Definition slice_to_neg (t : OID) (k : nat) : OID :=
  firstn (length t - k) t.

(** Python's ordering of tuples, which [ObjectIdentifier] comparisons
    delegate to: component-wise, a proper prefix being smaller. *)
Fixpoint tuple_lt (a b : OID) : bool :=
  match a, b with
  | [], [] => false
  | [], _ :: _ => true
  | _ :: _, [] => false
  | x :: a', y :: b' => if x =? y then tuple_lt a' b' else x <? y
  end.

Definition tuple_ge (a b : OID) : bool := negb (tuple_lt a b).

(** ** Division

    The module has no [from __future__ import division], so [/] on two
    integers depends on the interpreter that runs it. *)

Inductive Interpreter : Type := Python2 | Python3.

(** Python 2: [int.__div__], the floor of the quotient (an integer). *)
Definition floor_div (a b : Z) : Raises Exn Q :=
  if b =? 0 then Raise ZeroDivisionError
  else Return (inject_Z (a / b)).

(** The integer nearest to [p / d], for [0 < d]; a tie goes to the even
    one. *)
Definition round_half_even (p d : Z) : Z :=
  let q := p / d in
  let r := p mod d in
  if 2 * r <? d then q
  else if d <? 2 * r then q + 1
  else if Z.even q then q else q + 1.

(** The double (IEEE 754 binary64) nearest to [p / d], for [0 <= p] and
    [0 < d], ties to even.  Doubles are multiples of [2 ^ -1074]; those at
    or above [2 ^ -1022] carry 53 significant bits, so that the spacing of
    the doubles around a quotient whose multiple of [2 ^ 1074] has [k + 1]
    bits is [2 ^ (k - 52)] of these units, and 1 below that.  A result that
    rounds to [2 ^ 1024] or more is beyond the doubles. *)
Definition nearest_double (p d : Z) : Raises Exn Q :=
  let units := p * 2 ^ 1074 in
  let spacing := 2 ^ Z.max 0 (Z.log2 (units / d) - 52) in
  let n := round_half_even units (d * spacing) in
  if 2 ^ 2098 <=? n * spacing then Raise OverflowError
  else Return (n * spacing # Z.to_pos (2 ^ 1074)).

(** Python 3: [int.__truediv__], the correctly rounded quotient. *)
Definition true_div (a b : Z) : Raises Exn Q :=
  if b =? 0 then Raise ZeroDivisionError
  else
    magnitude <- nearest_double (Z.abs a) (Z.abs b) ;;
    Return (if Z.sgn a * Z.sgn b <? 0 then (- magnitude)%Q else magnitude).

(** [a / b] *)
Definition div (interpreter : Interpreter) (a b : Z) : Raises Exn Q :=
  match interpreter with
  | Python2 => floor_div a b
  | Python3 => true_div a b
  end.

Definition Qgt_bool (x y : Q) : bool := negb (Qle_bool x y).

(** ** The retry heuristic (cbFun, "fuzzy logic of walking a broken OID") *)

Definition fuzzyNextOID (interpreter : Interpreter)
    (continueOnErrors retries : Z) (nextOID : OID) : Raises Exn OID :=
  if (length nextOID <? 4)%nat then Return nextOID
  else
    ratio <- div interpreter ((continueOnErrors - retries) * 10)
                 continueOnErrors ;;
    if Qgt_bool ratio (inject_Z 5) then
      x <- getitem_neg nextOID 2 ;;
      Return (slice_to_neg nextOID 2 ++ [x + 1])
    else
      y <- getitem_neg nextOID 1 ;;
      if negb (y =? 0) then
        Return (slice_to_neg nextOID 1 ++ [y + 1])
      else
        x <- getitem_neg nextOID 2 ;;
        Return (slice_to_neg nextOID 2 ++ [x + 1; 0]).

(** ** The retry advancer as the specification words it

    [advance] follows section 4.1 of the specification; it is compared with
    [fuzzyNextOID] below. *)

Definition consumedRatio (retryBudget retriesRemaining : Z) : Q :=
  (inject_Z ((retryBudget - retriesRemaining) * 10) / inject_Z retryBudget)%Q.

Definition advance (lastIdentifier : OID) (retriesRemaining retryBudget : Z)
  : OID :=
  if (length lastIdentifier <? 4)%nat then lastIdentifier
  else
    match rev lastIdentifier with
    | last :: secondToLast :: front =>
        if Qgt_bool (consumedRatio retryBudget retriesRemaining) (inject_Z 5)
        then rev front ++ [secondToLast + 1]
        else if negb (last =? 0)
             then rev front ++ [secondToLast; last + 1]
             else rev front ++ [secondToLast + 1; 0]
    | _ => lastIdentifier
    end.

(** The same advancer with the ratio test as each interpreter decides it.
    Under Python 2 the quotient is floored, and exceeds 5 when it reaches 6:
    at least six tenths of the budget are spent.  Under Python 3 it is
    rounded to a double, and exceeds 5 when the exact quotient is nearer to
    the double after 5, which is [5 + 2 ^ -50], than to 5. *)
Definition ratioExceeds5 (interpreter : Interpreter)
    (retryBudget retriesRemaining : Z) : bool :=
  match interpreter with
  | Python2 => 5 * retriesRemaining <=? 2 * retryBudget
  | Python3 =>
      (5 * 2 ^ 51 + 1) * retryBudget
      <? (retryBudget - retriesRemaining) * 10 * 2 ^ 51
  end.

Definition advance_as_run (interpreter : Interpreter) (lastIdentifier : OID)
    (retriesRemaining retryBudget : Z) : OID :=
  if (length lastIdentifier <? 4)%nat then lastIdentifier
  else
    match rev lastIdentifier with
    | last :: secondToLast :: front =>
        if ratioExceeds5 interpreter retryBudget retriesRemaining
        then rev front ++ [secondToLast + 1]
        else if negb (last =? 0)
             then rev front ++ [secondToLast; last + 1]
             else rev front ++ [secondToLast + 1; 0]
    | _ => lastIdentifier
    end.

(** ** SNMP values

    A value is a pyasn1 object: its Python class and its payload.  The tag
    set is that of the class; [NamedInteger] stands for an [Integer32]
    subclass carrying an enumeration, [Bits] and [Gauge32] share the tag set
    of [OctetString] and [Unsigned32]. *)

Inductive TagClass : Type := Universal | Application | ContextSpecific.

Definition TagSet : Type := (TagClass * Z)%type.

Definition TagClass_eqb (a b : TagClass) : bool :=
  match a, b with
  | Universal, Universal
  | Application, Application
  | ContextSpecific, ContextSpecific => true
  | _, _ => false
  end.

Definition TagSet_eqb (a b : TagSet) : bool :=
  TagClass_eqb (fst a) (fst b) && (snd a =? snd b).

Inductive PyClass : Type :=
| Integer32 | NamedInteger | Unsigned32 | Gauge32 | OctetString | Bits
| Null | ObjectIdentifier | IpAddress | Counter32 | TimeTicks | Opaque
| Counter64 | NoSuchObject | NoSuchInstance | EndOfMibView.

Definition class_tagSet (c : PyClass) : TagSet :=
  match c with
  | Integer32 | NamedInteger => (Universal, 2)
  | OctetString | Bits => (Universal, 4)
  | Null => (Universal, 5)
  | ObjectIdentifier => (Universal, 6)
  | IpAddress => (Application, 0)
  | Counter32 => (Application, 1)
  | Unsigned32 | Gauge32 => (Application, 2)
  | TimeTicks => (Application, 3)
  | Opaque => (Application, 4)
  | Counter64 => (Application, 6)
  | NoSuchObject => (ContextSpecific, 0)
  | NoSuchInstance => (ContextSpecific, 1)
  | EndOfMibView => (ContextSpecific, 2)
  end.

Inductive Payload : Type :=
| PInt (n : Z)
| POctets (s : string)
| POid (o : OID)
| PEmpty.

Record Value : Type := mkValue { pyClass : PyClass; payload : Payload }.

Definition tagSet (v : Value) : TagSet := class_tagSet (pyClass v).

(** [value.tagSet in (NoSuchObject.tagSet, NoSuchInstance.tagSet,
    EndOfMibView.tagSet)] *)
Definition sentinel_tagSet (t : TagSet) : bool :=
  TagSet_eqb t (class_tagSet NoSuchObject)
  || TagSet_eqb t (class_tagSet NoSuchInstance)
  || TagSet_eqb t (class_tagSet EndOfMibView).

(** "remove value enumeration": the three conversions, in source order. *)
Definition removeEnumeration (value : Value) : Value :=
  let value :=
    if TagSet_eqb (tagSet value) (class_tagSet Integer32)
    then mkValue Integer32 (payload value) else value in
  let value :=
    if TagSet_eqb (tagSet value) (class_tagSet Unsigned32)
    then mkValue Unsigned32 (payload value) else value in
  if TagSet_eqb (tagSet value) (class_tagSet Bits)
  then mkValue OctetString (payload value) else value.

(** A variable binding as the engine hands it over; the value may be
    Python's [None]. *)
Definition VarBind : Type := (OID * option Value)%type.

(** ** The callback's arguments *)

Record Response : Type := mkResponse {
  errorIndication : option string;
  errorStatus : Z;
  errorIndex : Z;
  varBindTable : list (list VarBind);
  clock : Q   (* what time.time() answers at the end of the callback *)
}.

(** ** The walk state [cbCtx] *)

Record CbCtx : Type := mkCbCtx {
  total : Z;
  count : Z;
  errors : Z;
  iteration : Z;
  reqTime : Q;
  retries : Z;
  lastOID : OID
}.

(** ** The keyword arguments handed to the formatter.

    The key 'variationModule' holds the closure variable of that name,
    which the embedding passes next to the context. *)

Record Context : Type := mkContext {
  origOid : OID;
  origValue : Value;
  ctx_count : Z;
  ctx_total : Z;
  ctx_iteration : Z;
  ctx_reqTime : Q;
  ctx_startOID : OID;
  ctx_stopOID : option OID;
  ctx_stopFlag : bool;
  ctx_hextag : option string;
  ctx_hexvalue : option string
}.

Definition Triple : Type := (string * string * string)%type.

(** A variation module: a script with private state [M] (its
    [moduleContext]); only its 'record' handler runs during the walk. *)
Record VariationModule (M : Type) : Type := mkVariationModule {
  record : string -> string -> string -> Context -> M ->
           M * Raises FormatExn Triple
}.

(** An entry of [RECORD_TYPES]. *)
Record RecordType (M : Type) : Type := mkRecordType {
  format : OID -> Value -> Context -> option (VariationModule M) -> M ->
           M * Raises FormatExn string
}.

(** ** Events *)

Inductive LogRecord : Type :=
| SnmpEngineError (indication : string)
| RemoteSnmpError (indication : option string) (status : Z)
| FailedOID (oid : OID)
| RetryingWithOID (oid : OID) (retriesLeft : Z)
| DumpedWaiting (dumped : Z) (period : Q)
| FormatterError (msg : string)
| OIDsDumped (iterationNo dumped : Z)
| Summary (dumped failures : Z).

Inductive Event : Type :=
| LogError (r : LogRecord)
| LogInfo (r : LogRecord)
| SendVarBinds (bulk : bool) (target : OID)
| Sleep (period : Q)
| OutputWrite (line : string)
| FormatCall (oid : OID) (value : Value) (context : Context)
             (result : Raises FormatExn string).

Record World (M : Type) : Type := mkWorld {
  cbCtx : CbCtx;
  moduleContext : M;
  trace : list Event
}.

Section WorldUpdates.
Variable M : Type.

Definition emit (w : World M) (e : Event) : World M :=
  mkWorld (cbCtx w) (moduleContext w) (trace w ++ [e]).

Definition with_ctx (w : World M) (c : CbCtx) : World M :=
  mkWorld c (moduleContext w) (trace w).

Definition with_module (w : World M) (m : M) : World M :=
  mkWorld (cbCtx w) m (trace w).
End WorldUpdates.

Definition set_errors (c : CbCtx) (n : Z) : CbCtx :=
  mkCbCtx (total c) (count c) n (iteration c) (reqTime c) (retries c)
          (lastOID c).

Definition set_retries (c : CbCtx) (n : Z) : CbCtx :=
  mkCbCtx (total c) (count c) (errors c) (iteration c) (reqTime c) n
          (lastOID c).

Definition set_lastOID (c : CbCtx) (o : OID) : CbCtx :=
  mkCbCtx (total c) (count c) (errors c) (iteration c) (reqTime c)
          (retries c) o.

Definition set_count (c : CbCtx) (n : Z) : CbCtx :=
  mkCbCtx (total c) n (errors c) (iteration c) (reqTime c) (retries c)
          (lastOID c).

Definition set_total (c : CbCtx) (n : Z) : CbCtx :=
  mkCbCtx n (count c) (errors c) (iteration c) (reqTime c) (retries c)
          (lastOID c).

Definition set_iteration (c : CbCtx) (n : Z) : CbCtx :=
  mkCbCtx (total c) (count c) (errors c) n (reqTime c) (retries c)
          (lastOID c).

Definition set_reqTime (c : CbCtx) (t : Q) : CbCtx :=
  mkCbCtx (total c) (count c) (errors c) (iteration c) t (retries c)
          (lastOID c).

(** ** The snmprec record types (SnmprecRecordMixIn) *)

Section SnmprecRecord.
Variable M : Type.

(** [snmprec.SnmprecRecord.formatValue(self, oid, value, nohex=...)] of
    snmpsim.record, a text conversion defined outside this module: a
    parameter of the embedding (its compressed sibling likewise). *)
Variable base_formatValue : OID -> Value -> bool -> Triple.

(** The grammar's [build], joining OID, tag and value into a line. *)
Variable build : string -> string -> string -> string.

Definition set_hex (c : Context) (tag val : string) : Context :=
  mkContext (origOid c) (origValue c) (ctx_count c) (ctx_total c)
            (ctx_iteration c) (ctx_reqTime c) (ctx_startOID c)
            (ctx_stopOID c) (ctx_stopFlag c) (Some tag) (Some val).

Definition formatValue (oid : OID) (value : Value) (context : Context)
    (variationModule : option (VariationModule M)) (m : M)
  : M * Raises FormatExn Triple :=
  let '(textOid, textTag, textValue) := base_formatValue oid value false in
  match variationModule with
  | Some module =>
      let '(_, plainTag, plainValue) := base_formatValue oid value true in
      let '(context, textTag, textValue) :=
        if negb (String.eqb plainTag textTag)
        then (set_hex context textTag textValue, textTag, textValue)
        else (context, plainTag, plainValue) in
      record module textOid textTag textValue context m
  | None =>
      if ctx_stopFlag context then (m, Raise NoDataNotification)
      else (m, Return (textOid, textTag, textValue))
  end.

(** Modelled from the spec: the [format] method that the snmprec classes
    inherit from snmpsim.record (not part of this module's source); it
    formats the binding with the class's own [formatValue] and builds the
    output line from the resulting triple. *)
Definition SnmprecRecord_format (oid : OID) (value : Value)
    (context : Context) (variationModule : option (VariationModule M))
    (m : M) : M * Raises FormatExn string :=
  match formatValue oid value context variationModule m with
  | (m', Return (textOid, textTag, textValue)) =>
      (m', Return (build textOid textTag textValue))
  | (m', Raise e) => (m', Raise e)
  end.

Definition SnmprecRecord : RecordType M :=
  mkRecordType SnmprecRecord_format.
End SnmprecRecord.

(** ** The SNMP worker [cbFun] *)

Section Recorder.
Variable M : Type.

(** The interpreter that runs the module. *)
Variable interpreter : Interpreter.

(** Closure variables of [main]. *)
Variable getBulkFlag : bool.
Variable continueOnErrors : Z.
Variable startOID : OID.
Variable stopOID : option OID.
Variable variationModule : option (VariationModule M).
Variable dataFileHandler : RecordType M.

(** Truth value of [stopOID]: set, and not the empty OID. *)
Definition stopOID_truthy : bool :=
  match stopOID with
  | Some (_ :: _) => true
  | _ => false
  end.

Definition oid_ge_stopOID (oid : OID) : bool :=
  match stopOID with
  | Some stop => tuple_ge oid stop
  | None => false
  end.

(** [varBindTable[-1][0][0]] *)
Definition last_row_first_oid (tbl : list (list VarBind))
  : Raises Exn OID :=
  match rev tbl with
  | [] => Raise IndexError
  | [] :: _ => Raise IndexError
  | ((oid, _) :: _) :: _ => Return oid
  end.

(** The "EOM" test at the head of the loop body. *)
Definition eom (oid : OID) (value : option Value) (stopFlag : bool) : bool :=
  if stopOID_truthy && oid_ge_stopOID oid then true
  else if match value with
          | None => true
          | Some v => sentinel_tagSet (tagSet v)
          end
       then true
       else stopFlag.

Definition build_context (c : CbCtx) (oid : OID) (value : Value)
    (stopFlag : bool) : Context :=
  mkContext oid value (count c) (total c) (iteration c) (reqTime c)
            startOID stopOID stopFlag None None.

Definition LoopState : Type := (World M * bool)%type.

(** The body of the loop over variable bindings.  [Some e] next to the
    resulting state says that the body raised [e]. *)
Definition walkVarBind (vb : VarBind) (acc : LoopState)
  : LoopState * option Exn :=
  let '(w, stopFlag) := acc in
  let '(oid, value) := vb in
  let stopFlag := eom oid value stopFlag in
  match value with
  | None => ((w, stopFlag), Some AttributeError)
  | Some value =>
      let value := removeEnumeration value in
      let context := build_context (cbCtx w) oid value stopFlag in
      let '(m, result) :=
        format dataFileHandler oid value context variationModule
               (moduleContext w) in
      let w := emit (with_module w m) (FormatCall oid value context result) in
      match result with
      | Raise (MoreDataNotification period) =>
          let w := with_ctx w (set_count (cbCtx w) 0) in
          let w :=
            with_ctx w (set_iteration (cbCtx w) (iteration (cbCtx w) + 1)) in
          let w :=
            match period with
            | Some p =>
                emit (emit w (LogInfo (DumpedWaiting (total (cbCtx w)) p)))
                     (Sleep p)
            | None => w
            end in
          let w := emit w (SendVarBinds getBulkFlag startOID) in
          ((w, true), None)
      | Raise NoDataNotification => ((w, stopFlag), None)
      | Raise (SnmpsimError msg) =>
          ((emit w (LogError (FormatterError msg)), stopFlag), None)
      | Raise (ForeignError msg) =>
          ((w, stopFlag), Some (FormatterFailure msg))
      | Return line =>
          let w := emit w (OutputWrite line) in
          let w := with_ctx w (set_count (cbCtx w) (count (cbCtx w) + 1)) in
          let w := with_ctx w (set_total (cbCtx w) (total (cbCtx w) + 1)) in
          let w :=
            if count (cbCtx w) mod 100 =? 0
            then emit w (LogInfo (OIDsDumped (iteration (cbCtx w))
                                             (count (cbCtx w))))
            else w in
          ((w, stopFlag), None)
      end
  end.

Fixpoint walkRow (varBindRow : list VarBind) (acc : LoopState)
  : LoopState * option Exn :=
  match varBindRow with
  | [] => (acc, None)
  | vb :: rest =>
      match walkVarBind vb acc with
      | (acc', None) => walkRow rest acc'
      | raised => raised
      end
  end.

Fixpoint walkTable (tbl : list (list VarBind)) (acc : LoopState)
  : LoopState * option Exn :=
  match tbl with
  | [] => (acc, None)
  | varBindRow :: rest =>
      match walkRow varBindRow acc with
      | (acc', None) => walkTable rest acc'
      | raised => raised
      end
  end.

(** The branch taken for a remote error, or for an engine error while
    retries are left. *)
Definition errorPath (w : World M) (rsp : Response)
  : World M * Raises Exn (option bool) :=
  let w :=
    emit w (LogError (RemoteSnmpError (errorIndication rsp)
                                      (errorStatus rsp))) in
  if negb (retries (cbCtx w) =? 0) then
    let '(nextOID, w) :=
      match last_row_first_oid (varBindTable rsp) with
      | Return oid => (oid, emit w (LogError (FailedOID oid)))
      | Raise _ => (lastOID (cbCtx w), w)
      end in
    match
      fuzzyNextOID interpreter continueOnErrors (retries (cbCtx w)) nextOID
    with
    | Raise e => (w, Raise e)
    | Return nextOID =>
        let w := with_ctx w (set_retries (cbCtx w) (retries (cbCtx w) - 1)) in
        let w := with_ctx w (set_lastOID (cbCtx w) nextOID) in
        let w :=
          emit w (LogInfo (RetryingWithOID nextOID (retries (cbCtx w)))) in
        let w := emit w (SendVarBinds getBulkFlag nextOID) in
        let w := with_ctx w (set_errors (cbCtx w) (errors (cbCtx w) + 1)) in
        (w, Return None)
    end
  else
    (with_ctx w (set_errors (cbCtx w) (errors (cbCtx w) + 1)), Return None).

(** The branch taken for a clean response. *)
Definition successPath (w : World M) (rsp : Response)
  : World M * Raises Exn (option bool) :=
  let w :=
    if negb (continueOnErrors =? retries (cbCtx w))
    then with_ctx w (set_retries (cbCtx w) (retries (cbCtx w) + 1))
    else w in
  let w :=
    match last_row_first_oid (varBindTable rsp) with
    | Return oid => with_ctx w (set_lastOID (cbCtx w) oid)
    | Raise _ => w
    end in
  match walkTable (varBindTable rsp) (w, false) with
  | ((w, _), Some e) => (w, Raise e)
  | ((w, stopFlag), None) =>
      let w := with_ctx w (set_reqTime (cbCtx w) (clock rsp)) in
      (w, Return (Some (negb stopFlag)))
  end.

(** [errorStatus and errorStatus != 2 or errorIndication] *)
Definition is_failure (rsp : Response) : bool :=
  (negb (errorStatus rsp =? 0) && negb (errorStatus rsp =? 2))
  || match errorIndication rsp with Some _ => true | None => false end.

(** The callback.  It answers [None] (Python's, [Return None] here) on
    the error branches and [not stopFlag] after a clean response. *)
Definition cbFun (w : World M) (rsp : Response)
  : World M * Raises Exn (option bool) :=
  match errorIndication rsp, retries (cbCtx w) =? 0 with
  | Some indication, true =>
      let w := with_ctx w (set_errors (cbCtx w) (errors (cbCtx w) + 1)) in
      let w := emit w (LogError (SnmpEngineError indication)) in
      (w, Return None)
  | _, _ =>
      if is_failure rsp then errorPath w rsp else successPath w rsp
  end.

(** ** [main] around the callback *)

(** The dictionary [cbCtx] as [main] creates it. *)
Definition initial_cbCtx (now : Q) : CbCtx :=
  mkCbCtx 0 0 0 0 now continueOnErrors startOID.

(** The state once [main] has handed the first request to the engine. *)
Definition initial_world (m : M) (now : Q) : World M :=
  mkWorld (initial_cbCtx now) m [SendVarBinds getBulkFlag startOID].

(** Any sequence of invocations of the callback on the shared [cbCtx]. *)
Definition invocations (w : World M) (rsps : list Response) : World M :=
  fold_left (fun w rsp => fst (cbFun w rsp)) rsps w.

Fixpoint requests (t : list Event) : nat :=
  match t with
  | [] => 0
  | SendVarBinds _ _ :: t' => S (requests t')
  | _ :: t' => requests t'
  end.

(** The dispatcher loop, as far as the walk depends on it: every request
    handed to the engine ends in one invocation of the callback, the
    engine follows a response with the next request of the same walk when
    the callback answers true, and the loop returns when no request is
    pending, when the agent stays silent, or when the callback raises. *)
Fixpoint runDispatcher (pending : nat) (w : World M)
    (rsps : list Response) {struct rsps} : World M :=
  match rsps, pending with
  | rsp :: rest, S pending' =>
      match cbFun w rsp with
      | (w', Return answer) =>
          let issued := (requests (trace w') - requests (trace w))%nat in
          let continued :=
            match answer with Some true => 1%nat | _ => 0%nat end in
          runDispatcher (pending' + issued + continued) w' rest
      | (w', Raise _) => w'
      end
  | _, _ => w
  end.

(** The [finally] block of [main]: the closing summary. *)
Definition main_finally (w : World M) : World M :=
  let w :=
    with_ctx w (set_total (cbCtx w) (total (cbCtx w) + count (cbCtx w))) in
  emit w (LogInfo (Summary (total (cbCtx w)) (errors (cbCtx w)))).

Definition main (m : M) (now : Q) (rsps : list Response) : World M :=
  main_finally (runDispatcher 1 (initial_world m now) rsps).
End Recorder.

(** ** Observations on a trace *)

Fixpoint written (t : list Event) : list string :=
  match t with
  | [] => []
  | OutputWrite line :: t' => line :: written t'
  | _ :: t' => written t'
  end.

Fixpoint polled (t : list Event) : list OID :=
  match t with
  | [] => []
  | SendVarBinds _ target :: t' => target :: polled t'
  | _ :: t' => polled t'
  end.

(** One call of the formatter as the trace records it: the [stopFlag] it
    was handed, the binding, and whether it raised [MoreDataNotification]. *)
Record FormatView : Type := mkFormatView {
  seen_stopFlag : bool;
  seen_oid : OID;
  seen_value : Value;
  seen_moreData : bool
}.

Fixpoint format_calls (t : list Event) : list FormatView :=
  match t with
  | [] => []
  | FormatCall oid value context result :: t' =>
      mkFormatView (ctx_stopFlag context) oid value
        match result with
        | Raise (MoreDataNotification _) => true
        | _ => false
        end
      :: format_calls t'
  | _ :: t' => format_calls t'
  end.

(** The lines that the formatter calls of a trace returned. *)
Fixpoint returned (t : list Event) : list string :=
  match t with
  | [] => []
  | FormatCall _ _ _ (Return line) :: t' => line :: returned t'
  | _ :: t' => returned t'
  end.

(** The events that the step from [w] to [w'] appended. *)
Definition new_events {M : Type} (w w' : World M) : list Event :=
  skipn (length (trace w)) (trace w').

(** The EOM test of one binding taken alone: at or past a configured stop
    OID, or a sentinel value. *)
Definition own_stop (stopOID : option OID) (oid : OID) (value : Value) : bool :=
  (stopOID_truthy stopOID && oid_ge_stopOID stopOID oid)
  || sentinel_tagSet (tagSet value).

(** ** Predicates used in the statements *)

Section Predicates.
Variable M : Type.
Variable base_formatValue : OID -> Value -> bool -> Triple.
Variable build : string -> string -> string -> string.
Variable getBulkFlag : bool.
Variable continueOnErrors : Z.
Variable startOID : OID.
Variable stopOID : option OID.

(** The loops touch only [count], [total] and [iteration] of [cbCtx]. *)
Definition keeps_retry_state (s s' : LoopState M) (_ : option Exn) : Prop :=
  retries (cbCtx (fst s')) = retries (cbCtx (fst s))
  /\ errors (cbCtx (fst s')) = errors (cbCtx (fst s))
  /\ lastOID (cbCtx (fst s')) = lastOID (cbCtx (fst s))
  /\ reqTime (cbCtx (fst s')) = reqTime (cbCtx (fst s)).

(** The loops raise nothing but [AttributeError] (a binding without a
    value) and what the formatter lets through. *)
Definition raises_no_arith (_ s' : LoopState M) (r : option Exn) : Prop :=
  r <> Some ZeroDivisionError /\ r <> Some IndexError.

(** The invariant, for any integer given as --continue-on-errors. *)
Definition retry_invariant (c : CbCtx) : Prop :=
  retries c <= continueOnErrors /\ (0 <= continueOnErrors -> 0 <= retries c).

(** The events the loops over a response can append: formatter calls,
    output, progress and formatter-error logs, the pause and the restart
    request of a more-data signal. *)
Definition loop_event (e : Event) : Prop :=
  match e with
  | LogError (FormatterError _) => True
  | LogInfo (DumpedWaiting _ _) => True
  | LogInfo (OIDsDumped _ _) => True
  | SendVarBinds bulk target => bulk = getBulkFlag /\ target = startOID
  | Sleep _ => True
  | OutputWrite _ => True
  | FormatCall _ _ _ _ => True
  | _ => False
  end.

Definition appends_loop_events (s s' : LoopState M) (_ : option Exn) : Prop :=
  exists evs,
    trace (fst s') = trace (fst s) ++ evs /\ Forall loop_event evs.

(** What the loops write is what the formatter returned, line by line. *)
Definition writes_returned (s s' : LoopState M) (_ : option Exn) : Prop :=
  exists evs,
    trace (fst s') = trace (fst s) ++ evs /\ written evs = returned evs.

(** The EOM test of the binding a formatter call was made for. *)
Definition met (v : FormatView) : bool :=
  own_stop stopOID (seen_oid v) (seen_value v).

(** The flag each call sees is its own EOM test or the flag carried into
it; a call carries on the flag it saw, or true after MoreData. *)
Fixpoint flags_follow (carried : bool) (views : list FormatView) : Prop :=
  match views with
  | [] => True
  | v :: rest =>
      seen_stopFlag v = met v || carried
      /\ flags_follow (seen_stopFlag v || seen_moreData v) rest
  end.

(** The flag left after a run of formatter calls. *)
Definition carry (carried : bool) (views : list FormatView) : bool :=
  fold_left (fun _ v => seen_stopFlag v || seen_moreData v) views carried.

Definition flags_rel (s s' : LoopState M) (r : option Exn) : Prop :=
  exists evs,
    trace (fst s') = trace (fst s) ++ evs
    /\ flags_follow (snd s) (format_calls evs)
    /\ (r = None -> snd s' = carry (snd s) (format_calls evs)).

(** The line the snmprec types write for a binding. *)
Definition snmprec_line (oid : OID) (v : Value) : string :=
  let '(textOid, textTag, textValue) :=
    base_formatValue oid (removeEnumeration v) false in
  build textOid textTag textValue.

(** A binding with a value that does not meet the stop test, and one with a
value that does. *)
Definition data_binding (vb : VarBind) : bool :=
  match vb with
  | (oid, Some v) => negb (own_stop stopOID oid v)
  | (_, None) => false
  end.

Definition stop_binding (vb : VarBind) : bool :=
  match vb with
  | (oid, Some v) => own_stop stopOID oid v
  | (_, None) => false
  end.

Definition line_of (vb : VarBind) : string :=
  match vb with
  | (oid, Some v) => snmprec_line oid v
  | (_, None) => EmptyString
  end.

Definition bindings (rsp : Response) : list VarBind :=
  concat (varBindTable rsp).

(** [w'] comes from [w] by writing [lines], each counted once in [count] and
in [total], with no request to the engine and no error. *)
Definition recorded (lines : list string) (w w' : World M) : Prop :=
  exists evs,
    trace w' = trace w ++ evs
    /\ written evs = lines
    /\ requests evs = 0%nat
    /\ count (cbCtx w') = count (cbCtx w) + Z.of_nat (length lines)
    /\ total (cbCtx w') = total (cbCtx w) + Z.of_nat (length lines)
    /\ errors (cbCtx w') = errors (cbCtx w)
    /\ retries (cbCtx w') = retries (cbCtx w).

Definition data_response (rsp : Response) : Prop :=
  is_failure rsp = false /\ forallb data_binding (bindings rsp) = true.
End Predicates.

(** ** Sample collaborators for the examples

    A plain text formatter in the snmprec layout [oid|tag|value], and a
    variation module that asks for one more pass on its first call and
    records every later binding. *)

Definition show_Z (n : Z) : string :=
  DecimalString.NilZero.string_of_int (Z.to_int n).

Definition sample_tag (c : PyClass) : string :=
  show_Z (snd (class_tagSet c)
          + match fst (class_tagSet c) with
            | Universal => 0
            | Application => 64
            | ContextSpecific => 128
            end).

Definition sample_text (p : Payload) : string :=
  match p with
  | PInt n => show_Z n
  | POctets s => s
  | POid o => String.concat "." (map show_Z o)
  | PEmpty => EmptyString
  end.

Definition sample_formatValue (oid : OID) (value : Value) (nohex : bool)
  : Triple :=
  (String.concat "." (map show_Z oid), sample_tag (pyClass value),
   sample_text (payload value)).

Definition sample_build (textOid textTag textValue : string) : string :=
  (textOid ++ "|" ++ textTag ++ "|" ++ textValue)%string.

Definition restart_once : VariationModule nat :=
  mkVariationModule
    (fun textOid textTag textValue _ calls =>
       match calls with
       | O => (1%nat, Raise (MoreDataNotification (Some (inject_Z 2))))
       | S _ => (S calls, Return (textOid, textTag, textValue))
       end).

Definition int_binding (oid : OID) (n : Z) : VarBind :=
  (oid, Some (mkValue Integer32 (PInt n))).

Definition clean_response (tbl : list (list VarBind)) : Response :=
  mkResponse None 0 0 tbl 1.

Definition timeout_response : Response :=
  mkResponse (Some "requestTimedOut"%string) 0 0 [] 1.

Definition sample_start : OID := [1; 3; 6; 1; 2; 1].

Definition sample_stop : OID := [1; 3; 6; 1; 2; 2].

Definition sample_recorder (M : Type) : RecordType M :=
  SnmprecRecord M sample_formatValue sample_build.

(** The callback of a run without variation module, stopping at
    [sample_stop], with retry budget [budget]. *)
Definition sample_cbFun (budget : Z) :=
  cbFun Python3 false budget sample_start (Some sample_stop) None
        (sample_recorder unit).

(** Scenario 1 of the specification as a GETNEXT walk: five bindings under
    1.3.6.1.2.1, one per response, then end-of-MIB at the stop OID. *)
Definition scenario1_data : list Response :=
  map (fun n => clean_response [[int_binding [1; 3; 6; 1; 2; 1; 1; n; 0] n]])
      [1; 2; 3; 4; 5].

Definition scenario1_sentinel : VarBind :=
  (sample_stop, Some (mkValue EndOfMibView PEmpty)).

Definition scenario1_main : World unit :=
  main Python3 false 0 sample_start (Some sample_stop) None (sample_recorder
      unit)
       tt 0 (scenario1_data ++ [clean_response [[scenario1_sentinel]]]).

(** The callback of a GETBULK run with the module [restart_once]. *)
Definition sample_cbFun_restart :=
  cbFun Python3 true 0 sample_start (Some sample_stop) (Some restart_once)
        (sample_recorder nat).

(** ** Bookkeeping read off a trace *)

(** The formatter calls of a trace that raised [MoreDataNotification]. *)
Definition moreData_calls (t : list Event) : nat :=
  length (filter seen_moreData (format_calls t)).

(** The failed responses (engine error, or a status other than 0 and 2)
    among those handed to the callback. *)
Definition failures (rsps : list Response) : nat :=
  length (filter is_failure rsps).

(** Under Python 3 a negative budget lets [retries] sink without bound,
    and after some [2 ^ 1000] failures the quotient of the ratio test is
    beyond the doubles.  The runs in range: Python 2, a budget that is not
    negative, or fewer invocations than that. *)
Definition within_doubles (interpreter : Interpreter) (continueOnErrors : Z)
    (invocationsSoFar : nat) : Prop :=
  interpreter = Python2 \/ 0 <= continueOnErrors
  \/ 10 * Z.of_nat invocationsSoFar < 2 ^ 1000.

(** A request, if [e] is one, is a GETBULK exactly when [bulk] says so. *)
Definition request_mode (bulk : bool) (e : Event) : Prop :=
  match e with
  | SendVarBinds b _ => b = bulk
  | _ => True
  end.

(** [main]: "if getBulkFlag and not snmpVersion: getBulkFlag = False"
    ([snmpVersion] 0 is SNMPv1, 1 is v2c, 3 is v3). *)
Definition getBulkFlag_in_effect (getBulkFlag : bool) (snmpVersion : Z)
  : bool :=
  if getBulkFlag && (snmpVersion =? 0) then false else getBulkFlag.

(** What one pass of the loops does to the counters, in terms of the events
    it appended: [total] grows with every line written, [iteration] with
    every MoreData, [count] is reset by MoreData and grows with the lines
    written after it. *)
Definition books {M : Type} (w w' : World M) : Prop :=
  exists evs,
    trace w' = trace w ++ evs
    /\ total (cbCtx w') = total (cbCtx w) + Z.of_nat (length (written evs))
    /\ iteration (cbCtx w')
       = iteration (cbCtx w) + Z.of_nat (moreData_calls evs)
    /\ (0 <= count (cbCtx w) ->
        0 <= count (cbCtx w')
        <= count (cbCtx w) + Z.of_nat (length (written evs)))
    /\ (moreData_calls evs = 0%nat ->
        count (cbCtx w')
        = count (cbCtx w) + Z.of_nat (length (written evs))).

(** ** [main] before the walk: what stops it *)

(** What [main] writes to stderr (or logs) when it gives up; the usage text
    that follows each message is left out. *)
Inductive Complaint : Type :=
| MissingV3User
| MissingV3AuthKey
| MissingV3PrivKey
| BadV3AuthProtocol (name : string)
| BadV3PrivProtocol (name : string)
| UnknownSnmpVersion (value : string)
| ModuleExecutionFailure (path exc : string)
| ModuleNotFound (name : string).

(** [main] either goes on, returns an exit status after a complaint, or
    lets a [KeyError] escape. *)
Inductive MainStop : Type :=
| ReturnStatus (status : Z) (complaint : Complaint)
| KeyError (key : string).

(** A dictionary with string keys, in source order. *)
Fixpoint dict_getitem {V : Type} (d : list (string * V)) (key : string)
  : Raises MainStop V :=
  match d with
  | [] => Raise (KeyError key)
  | (k, v) :: d' => if String.eqb k key then Return v else dict_getitem d' key
  end.

Definition dict_contains {V : Type} (d : list (string * V)) (key : string)
  : bool :=
  existsb (fun kv => String.eqb (fst kv) key) d.

(** ** [main]: the SNMPv3 parameters

    The protocol identifiers of pysnmp's [config] module, which are pairwise
    different OIDs. *)
Inductive AuthProtocol : Type :=
| usmHMACMD5AuthProtocol
| usmHMACSHAAuthProtocol
| usmHMAC128SHA224AuthProtocol
| usmHMAC192SHA256AuthProtocol
| usmHMAC256SHA384AuthProtocol
| usmHMAC384SHA512AuthProtocol
| usmNoAuthProtocol.

Inductive PrivProtocol : Type :=
| usmDESPrivProtocol
| usm3DESEDEPrivProtocol
| usmAesCfb128Protocol
| usmAesCfb192Protocol
| usmAesBlumenthalCfb192Protocol
| usmAesCfb256Protocol
| usmAesBlumenthalCfb256Protocol
| usmNoPrivProtocol.

Definition AUTH_PROTOCOLS : list (string * AuthProtocol) :=
  [("MD5", usmHMACMD5AuthProtocol);
   ("SHA", usmHMACSHAAuthProtocol);
   ("SHA224", usmHMAC128SHA224AuthProtocol);
   ("SHA256", usmHMAC192SHA256AuthProtocol);
   ("SHA384", usmHMAC256SHA384AuthProtocol);
   ("SHA512", usmHMAC384SHA512AuthProtocol);
   ("NONE", usmNoAuthProtocol)]%string.

Definition PRIV_PROTOCOLS : list (string * PrivProtocol) :=
  [("DES", usmDESPrivProtocol);
   ("3DES", usm3DESEDEPrivProtocol);
   ("AES", usmAesCfb128Protocol);
   ("AES128", usmAesCfb128Protocol);
   ("AES192", usmAesCfb192Protocol);
   ("AES192BLMT", usmAesBlumenthalCfb192Protocol);
   ("AES256", usmAesCfb256Protocol);
   ("AES256BLMT", usmAesBlumenthalCfb256Protocol);
   ("NONE", usmNoPrivProtocol)]%string.

Definition is_usmNoAuthProtocol (a : AuthProtocol) : bool :=
  match a with usmNoAuthProtocol => true | _ => false end.

Definition is_usmNoPrivProtocol (b : PrivProtocol) : bool :=
  match b with usmNoPrivProtocol => true | _ => false end.

(** The local variables of [main] that the SNMPv3 checks read and write. *)
Record V3Params : Type := mkV3Params {
  snmpVersion : Z;
  v3User : option string;
  v3AuthKey : option string;
  v3PrivKey : option string;
  v3AuthProto : string;
  v3PrivProto : string
}.

(** Their values before the options are read. *)
Definition default_V3Params : V3Params :=
  mkV3Params 1 None None None "NONE" "NONE".

Definition set_v3AuthProto (p : V3Params) (name : string) : V3Params :=
  mkV3Params (snmpVersion p) (v3User p) (v3AuthKey p) (v3PrivKey p) name
             (v3PrivProto p).

Definition set_v3PrivProto (p : V3Params) (name : string) : V3Params :=
  mkV3Params (snmpVersion p) (v3User p) (v3AuthKey p) (v3PrivKey p)
             (v3AuthProto p) name.

(** Truth value of a key: neither [None] nor the empty string. *)
Definition set_snmpVersion (p : V3Params) (version : Z) : V3Params :=
  mkV3Params version (v3User p) (v3AuthKey p) (v3PrivKey p) (v3AuthProto p)
             (v3PrivProto p).

Definition set_v3User (p : V3Params) (value : string) : V3Params :=
  mkV3Params (snmpVersion p) (Some value) (v3AuthKey p) (v3PrivKey p)
             (v3AuthProto p) (v3PrivProto p).

Definition set_v3AuthKey (p : V3Params) (value : string) : V3Params :=
  mkV3Params (snmpVersion p) (v3User p) (Some value) (v3PrivKey p)
             (v3AuthProto p) (v3PrivProto p).

Definition set_v3PrivKey (p : V3Params) (value : string) : V3Params :=
  mkV3Params (snmpVersion p) (v3User p) (v3AuthKey p) (Some value)
             (v3AuthProto p) (v3PrivProto p).

Definition truthy (key : option string) : bool :=
  match key with
  | Some (String _ _) => true
  | _ => false
  end.

Definition is_None {A : Type} (x : option A) : bool :=
  match x with None => true | Some _ => false end.

Section V3Options.
(** [str.upper], as the interpreter has it. *)
Variable upper : string -> string.

(** The branches of the option loop for --v3-auth-proto and
    --v3-priv-proto. *)
Definition opt_v3_auth_proto (value : string) (p : V3Params)
  : Raises MainStop V3Params :=
  let name := upper value in
  if negb (dict_contains AUTH_PROTOCOLS name)
  then Raise (ReturnStatus 1 (BadV3AuthProtocol name))
  else Return (set_v3AuthProto p name).

Definition opt_v3_priv_proto (value : string) (p : V3Params)
  : Raises MainStop V3Params :=
  let name := upper value in
  if negb (dict_contains PRIV_PROTOCOLS name)
  then Raise (ReturnStatus 1 (BadV3PrivProtocol name))
  else Return (set_v3PrivProto p name).

(** One turn of the loop "for opt in opts", as far as it reads and writes
    these variables: the branches for the other options leave them alone. *)
Definition v3_option (opt : string * string) (p : V3Params)
  : Raises MainStop V3Params :=
  let (name, value) := opt in
  if (name =? "--v1")%string then Return (set_snmpVersion p 0)
  else if (name =? "--v2c")%string then Return (set_snmpVersion p 1)
  else if (name =? "--v3")%string then Return (set_snmpVersion p 3)
  else if (name =? "--protocol-version")%string then
    if ((value =? "1") || (value =? "v1"))%string
    then Return (set_snmpVersion p 0)
    else if ((value =? "2") || (value =? "2c") || (value =? "v2c"))%string
    then Return (set_snmpVersion p 1)
    else if ((value =? "3") || (value =? "v3"))%string
    then Return (set_snmpVersion p 3)
    else Raise (ReturnStatus 1 (UnknownSnmpVersion value))
  else if (name =? "--v3-user")%string then Return (set_v3User p value)
  else if (name =? "--v3-auth-key")%string
  then Return (set_v3AuthKey p value)
  else if (name =? "--v3-auth-proto")%string then opt_v3_auth_proto value p
  else if (name =? "--v3-priv-key")%string
  then Return (set_v3PrivKey p value)
  else if (name =? "--v3-priv-proto")%string then opt_v3_priv_proto value p
  else Return p.

Fixpoint v3_options (opts : list (string * string)) (p : V3Params)
  : Raises MainStop V3Params :=
  match opts with
  | [] => Return p
  | opt :: opts' => p' <- v3_option opt p ;; v3_options opts' p'
  end.
End V3Options.

(** The checks under "if snmpVersion == 3:" after the option loop (the
    [else] branch touches the context variables only). *)
Definition check_v3 (p : V3Params) : Raises MainStop V3Params :=
  if snmpVersion p =? 3 then
    if is_None (v3User p) then Raise (ReturnStatus 1 MissingV3User)
    else if truthy (v3PrivKey p) && negb (truthy (v3AuthKey p))
    then Raise (ReturnStatus 1 MissingV3AuthKey)
    else
      a <- dict_getitem AUTH_PROTOCOLS (v3AuthProto p) ;;
      p <- (if is_usmNoAuthProtocol a then
              Return (if negb (is_None (v3AuthKey p))
                      then set_v3AuthProto p "MD5" else p)
            else if is_None (v3AuthKey p)
                 then Raise (ReturnStatus 1 MissingV3AuthKey)
                 else Return p) ;;
      b <- dict_getitem PRIV_PROTOCOLS (v3PrivProto p) ;;
      if is_usmNoPrivProtocol b then
        Return (if negb (is_None (v3PrivKey p))
                then set_v3PrivProto p "DES" else p)
      else if is_None (v3PrivKey p)
           then Raise (ReturnStatus 1 MissingV3PrivKey)
           else Return p
  else Return p.

(** The security level chosen under "SNMP configuration". *)
Definition secLevel (p : V3Params) : string :=
  if snmpVersion p =? 3 then
    if is_None (v3PrivKey p) && is_None (v3AuthKey p) then "noAuthNoPriv"
    else if is_None (v3PrivKey p) then "authNoPriv"
    else "authPriv"
  else "noAuthNoPriv".

(** Both protocol names are keys of their tables. *)
Definition valid_names (p : V3Params) : Prop :=
  dict_contains AUTH_PROTOCOLS (v3AuthProto p) = true
  /\ dict_contains PRIV_PROTOCOLS (v3PrivProto p) = true.

(** ** [main]: the name of the output file *)

(** [str.endswith]: some tail of [s] is [suffix]. *)
Fixpoint endswith (s suffix : string) : bool :=
  if String.eqb s suffix then true
  else match s with
       | EmptyString => false
       | String _ s' => endswith s' suffix
       end.

(** The file [main] opens for the records, [None] standing for standard
    output; [ext] is the [ext] attribute of the chosen record type and "."
    is [os.path.extsep]. *)
Definition output_file_name (outputFile : option string) (ext : string)
  : option string :=
  if truthy outputFile then
    match outputFile with
    | Some name =>
        let ext := ("." ++ ext)%string in
        Some (if negb (endswith name ext) then (name ++ ext)%string else name)
    | None => None
    end
  else None.

(** ** [main]: finding the variation module *)

Section ModuleSearch.
(** The file system and the interpreter: [os.path.exists], [os.path.join]
    and the execution of a module file, which gives the module's namespace
    or raises. *)
Variable path_exists : string -> bool.
Variable path_join : string -> string -> string.
Variable Namespace : Type.
Variable exec_file : string -> Raises string Namespace.

(** The option --variation-modules-dir: [confdir.variation.insert(0, dir)]. *)
Definition opt_variation_modules_dir (dir : string) (variation : list string)
  : list string :=
  dir :: variation.

(** The loop "for variationModulesDir in confdir.variation" with its
    [else]: the path and namespace of the module, or the exit status. *)
Fixpoint load_variation_module (variationModuleName : string)
    (variation : list string) : Raises MainStop (string * Namespace) :=
  match variation with
  | [] => Raise (ReturnStatus 1 (ModuleNotFound variationModuleName))
  | variationModulesDir :: rest =>
      if negb (path_exists variationModulesDir)
      then load_variation_module variationModuleName rest
      else
        let mod_ := path_join variationModulesDir
                              (variationModuleName ++ ".py")%string in
        if negb (path_exists mod_)
        then load_variation_module variationModuleName rest
        else match exec_file mod_ with
             | Raise exc =>
                 Raise (ReturnStatus 1 (ModuleExecutionFailure mod_ exc))
             | Return ctx => Return (mod_, ctx)
             end
  end.
End ModuleSearch.

(** * Properties *)

(** ** Python sequence operations on a tuple with two trailing items *)

Lemma two_trailing_items (t : OID) :
  (2 <= length t)%nat -> exists front a b, t = front ++ [a; b].
Proof.
  intros Hlen.
  destruct (rev t) as [|b [|a r]] eqn:Hrev.
  - apply (f_equal (@length Z)) in Hrev. rewrite length_rev in Hrev.
    simpl in Hrev. lia.
  - apply (f_equal (@length Z)) in Hrev. rewrite length_rev in Hrev.
    simpl in Hrev. lia.
  - exists (rev r), a, b.
    rewrite <- (rev_involutive t), Hrev. simpl.
    rewrite <- app_assoc. reflexivity.
Qed.

Lemma getitem_last (front : OID) (a b : Z) :
  getitem_neg (front ++ [a; b]) 1 = Return b.
Proof.
  unfold getitem_neg. rewrite length_app. simpl.
  destruct (Nat.ltb_spec (length front + 2) 1) as [H|_]; [lia|].
  replace (length front + 2 - 1)%nat with (length front + 1)%nat by lia.
  rewrite nth_error_app2 by lia.
  replace (length front + 1 - length front)%nat with 1%nat by lia.
  reflexivity.
Qed.

Lemma getitem_second_to_last (front : OID) (a b : Z) :
  getitem_neg (front ++ [a; b]) 2 = Return a.
Proof.
  unfold getitem_neg. rewrite length_app. simpl.
  destruct (Nat.ltb_spec (length front + 2) 2) as [H|_]; [lia|].
  replace (length front + 2 - 2)%nat with (length front) by lia.
  rewrite nth_error_app2 by lia.
  rewrite Nat.sub_diag. reflexivity.
Qed.

Lemma slice_drop_last (front : OID) (a b : Z) :
  slice_to_neg (front ++ [a; b]) 1 = front ++ [a].
Proof.
  unfold slice_to_neg. rewrite length_app. simpl.
  replace (length front + 2 - 1)%nat with (length front + 1)%nat by lia.
  rewrite firstn_app.
  rewrite firstn_all2 by lia.
  replace (length front + 1 - length front)%nat with 1%nat by lia.
  reflexivity.
Qed.

Lemma slice_drop_two (front : OID) (a b : Z) :
  slice_to_neg (front ++ [a; b]) 2 = front.
Proof.
  unfold slice_to_neg. rewrite length_app. simpl.
  replace (length front + 2 - 2)%nat with (length front) by lia.
  rewrite firstn_app, Nat.sub_diag, firstn_all. simpl.
  apply app_nil_r.
Qed.

Lemma rev_two_trailing (front : OID) (a b : Z) :
  rev (front ++ [a; b]) = b :: a :: rev front.
Proof. rewrite rev_app_distr. reflexivity. Qed.

(** ** Division *)

(** Known doubles: a third, a tenth, and the two sides of the largest. *)
Example nearest_double_examples :
  (exists f,
      nearest_double 1 3 = Return f
      /\ (f == 6004799503160661 # 18014398509481984)%Q)
  /\ (exists f,
         nearest_double 1 10 = Return f
         /\ (f == 3602879701896397 # 36028797018963968)%Q)
  /\ (exists f,
         nearest_double (2 ^ 1024 - 2 ^ 970 - 1) 1 = Return f
         /\ (f == inject_Z (2 ^ 1024 - 2 ^ 971))%Q)
  /\ nearest_double (2 ^ 1024 - 2 ^ 970) 1 = Raise OverflowError.
Proof.
  split; [|split; [|split]];
    try (eexists; split; [vm_compute; reflexivity|]);
    vm_compute; reflexivity.
Qed.

(** Rounding is off by at most a half. *)
Lemma round_half_even_near (p d : Z) :
  0 < d ->
  2 * round_half_even p d * d - d <= 2 * p <= 2 * round_half_even p d * d + d.
Proof.
  intros Hd. unfold round_half_even.
  pose proof (Z.div_mod p d ltac:(lia)) as Hp.
  pose proof (Z.mod_pos_bound p d Hd) as Hr.
  set (q := p / d) in *. set (r := p mod d) in *.
  destruct (Z.ltb_spec (2 * r) d); [nia|].
  destruct (Z.ltb_spec d (2 * r)); [nia|].
  destruct (Z.even q); nia.
Qed.

(** Where rounding falls with respect to an even integer: a tie at
    [k + 1/2] goes down to [k]. *)
Lemma round_half_even_le_even (p d k : Z) :
  0 < d -> Z.even k = true ->
  (round_half_even p d <= k <-> 2 * p <= (2 * k + 1) * d).
Proof.
  intros Hd Hk. unfold round_half_even.
  pose proof (Z.div_mod p d ltac:(lia)) as Hp.
  pose proof (Z.mod_pos_bound p d Hd) as Hr.
  set (q := p / d) in *. set (r := p mod d) in *.
  destruct (Z.ltb_spec (2 * r) d); [nia|].
  destruct (Z.ltb_spec d (2 * r)); [nia|].
  assert (Hrd : 2 * r = d) by lia.
  destruct (Z.even q) eqn:Hq.
  - nia.
  - assert (q <> k) by (intros ->; congruence). nia.
Qed.

(** The spacing of the doubles around [x] units. *)
Lemma spacing_bounds (x k : Z) :
  0 <= x < 2 ^ k -> 53 <= k ->
  1 <= 2 ^ Z.max 0 (Z.log2 x - 52) <= 2 ^ (k - 53).
Proof.
  intros Hx Hk.
  assert (Hlog : Z.log2 x <= k - 1).
  { destruct (Z.eq_dec x 0) as [->|Hnz]; [cbn; lia|].
    assert (Z.log2 x < k) by (apply Z.log2_lt_pow2; lia). lia. }
  split.
  - apply (Z.pow_le_mono_r 2 0); lia.
  - apply Z.pow_le_mono_r; lia.
Qed.

(** A quotient below [2 ^ 1000] is within the doubles. *)
Lemma nearest_double_fits (p d : Z) :
  0 <= p -> 0 < d -> p < 2 ^ 1000 * d ->
  exists n s,
    nearest_double p d = Return (n * s # Z.to_pos (2 ^ 1074))
    /\ 1 <= s
    /\ s = 2 ^ Z.max 0 (Z.log2 (p * 2 ^ 1074 / d) - 52)
    /\ n = round_half_even (p * 2 ^ 1074) (d * s).
Proof.
  intros Hp Hd Hlt. unfold nearest_double.
  set (K := 2 ^ 1074) in *.
  assert (HK : K = 2 ^ 1074) by reflexivity.
  set (x := p * K / d).
  assert (Hx : 0 <= x < 2 ^ 2074).
  { split.
    - apply Z.div_pos; lia.
    - apply Z.div_lt_upper_bound; [exact Hd|].
      replace (2 ^ 2074) with (2 ^ 1000 * K)
        by (rewrite HK, <- Z.pow_add_r by lia; reflexivity).
      nia. }
  pose proof (@spacing_bounds x 2074 Hx ltac:(lia)) as Hs.
  set (s := 2 ^ Z.max 0 (Z.log2 x - 52)) in *.
  pose proof (@round_half_even_near (p * K) (d * s) ltac:(nia)) as Hn.
  set (n := round_half_even (p * K) (d * s)) in *.
  assert (Hfit : n * s < 2 ^ 2098).
  { assert (H1 : 2 * (n * s) * d <= (2 * (2 ^ 1000 * K) + s) * d) by nia.
    apply Z.mul_le_mono_pos_r in H1; [|exact Hd].
    change (2 ^ (2074 - 53)) with (2 ^ 2021) in Hs.
    assert (H2 : 2 ^ 1000 * K = 2 ^ 2074)
      by (rewrite HK, <- Z.pow_add_r by lia; reflexivity).
    assert (H3 : 2 ^ 2098 = 2 ^ 24 * 2 ^ 2074)
      by (rewrite <- Z.pow_add_r by lia; reflexivity).
    assert (H4 : 2 ^ 2074 = 2 ^ 53 * 2 ^ 2021)
      by (rewrite <- Z.pow_add_r by lia; reflexivity).
    assert (0 < 2 ^ 2021) by (apply Z.pow_pos_nonneg; lia).
    change (2 ^ 24) with 16777216 in H3.
    change (2 ^ 53) with 9007199254740992 in H4.
    lia. }
  destruct (Z.leb_spec (2 ^ 2098) (n * s)) as [Hov|_]; [lia|].
  exists n, s. split; [reflexivity|]. split; [lia|]. split; reflexivity.
Qed.

Lemma Qgt_bool_double (m : Z) :
  Qgt_bool (m # Z.to_pos (2 ^ 1074)) (inject_Z 5) = (5 * 2 ^ 1074 <? m).
Proof.
  unfold Qgt_bool, Qle_bool. cbn [Qnum Qden inject_Z].
  rewrite Z2Pos.id by (apply Z.pow_pos_nonneg; lia).
  rewrite Z.mul_1_r.
  destruct (Z.leb_spec m (5 * 2 ^ 1074)), (Z.ltb_spec (5 * 2 ^ 1074) m);
    (reflexivity || lia).
Qed.

(** For a quotient between 0 and 10, the nearest double exceeds 5 exactly
    when the quotient exceeds the midpoint between 5 and the double after
    it, [5 + 2 ^ -51]. *)
Lemma nearest_double_exceeds_5 (p d : Z) :
  0 <= p -> 0 < d -> p <= 10 * d ->
  exists f,
    nearest_double p d = Return f
    /\ Qgt_bool f (inject_Z 5) = ((5 * 2 ^ 51 + 1) * d <? p * 2 ^ 51).
Proof.
  intros Hp Hd Hle.
  assert (H1000 : 10 < 2 ^ 1000).
  { apply (Z.lt_le_trans _ (2 ^ 4)); [reflexivity|].
    apply Z.pow_le_mono_r; lia. }
  destruct (@nearest_double_fits p d Hp Hd ltac:(nia))
    as (n & s & -> & Hs1 & Hs & Hn).
  eexists. split; [reflexivity|]. rewrite Qgt_bool_double.
  set (K := 2 ^ 1074) in *.
  assert (HK : K = 2 ^ 1074) by reflexivity.
  assert (HKpos : 0 < K) by (apply Z.pow_pos_nonneg; lia).
  pose proof (@round_half_even_near (p * K) (d * s) ltac:(nia)) as Hnear.
  rewrite <- Hn in Hnear.
  set (x := p * K / d) in *.
  assert (Hxlo : forall j, j * d <= p -> j * K <= x).
  { intros j Hj. apply Z.div_le_lower_bound; [exact Hd | nia]. }
  assert (Hxhi : forall j, p < j * d -> x < j * K).
  { intros j Hj. apply Z.div_lt_upper_bound; [exact Hd | nia]. }
  assert (Hx0 : 0 <= x) by (apply Z.div_pos; lia).
  assert (HK4 : 4 * K = 2 ^ 1076)
    by (rewrite HK; change 4 with (2 ^ 2);
        rewrite <- Z.pow_add_r by lia; reflexivity).
  assert (HK8 : 8 * K = 2 ^ 1077)
    by (rewrite HK; change 8 with (2 ^ 3);
        rewrite <- Z.pow_add_r by lia; reflexivity).
  assert (HK16 : 16 * K = 2 ^ 1078)
    by (rewrite HK; change 16 with (2 ^ 4);
        rewrite <- Z.pow_add_r by lia; reflexivity).
  assert (HS : K = 2 ^ 50 * 2 ^ 1024)
    by (rewrite HK, <- Z.pow_add_r by lia; reflexivity).
  assert (HS1 : 0 < 2 ^ 1024) by (apply Z.pow_pos_nonneg; lia).
  change (2 ^ 50) with 1125899906842624 in HS.
  change (2 ^ 51) with 2251799813685248.
  (* twice the rounded value, against the quotient *)
  assert (Hup : 2 * (n * s) <= 2 * (p * K / d) + s + 2 * s \/ True) by auto.
  clear Hup.
  assert (Hlo2 : forall j, j * d <= p -> 2 * j * K - s <= 2 * (n * s)).
  { intros j Hj.
    assert (H : (2 * j * K - s) * d <= 2 * (n * s) * d) by nia.
    apply Z.mul_le_mono_pos_r in H; assumption. }
  assert (Hhi2 : forall j, p <= j * d -> 2 * (n * s) <= 2 * j * K + s).
  { intros j Hj.
    assert (H : 2 * (n * s) * d <= (2 * j * K + s) * d) by nia.
    apply Z.mul_le_mono_pos_r in H; assumption. }
  destruct (Z.lt_ge_cases p (4 * d)) as [Hlt4|Hge4].
  - (* below 4: the double is below 5 *)
    assert (Hsb : s <= 2 ^ 1023).
    { pose proof (@spacing_bounds x 1076 ltac:(split; [lia|];
                    rewrite <- HK4; apply Hxhi; lia) ltac:(lia)) as Hb.
      rewrite <- Hs in Hb. exact (proj2 Hb). }
    assert (H23 : 2 ^ 1024 = 2 * 2 ^ 1023)
      by (change 2 with (2 ^ 1) at 2;
          rewrite <- Z.pow_add_r by lia; reflexivity).
    specialize (Hhi2 4 ltac:(lia)).
    destruct (Z.ltb_spec (5 * K) (n * s)), (Z.ltb_spec ((5 * 2251799813685248 +
        1) * d) (p * 2251799813685248));
      (reflexivity || lia).
  - destruct (Z.lt_ge_cases p (8 * d)) as [Hlt8|Hge8].
    + (* between 4 and 8: the spacing is 2 ^ -50, and 5 sits on an even
         multiple *)
      assert (Hlog : Z.log2 x = 1076).
      { apply Z.log2_unique; [lia|].
        change (Z.succ 1076) with 1077. rewrite <- HK4, <- HK8.
        split; [apply Hxlo | apply Hxhi]; lia. }
      rewrite Hlog in Hs. change (Z.max 0 (1076 - 52)) with 1024 in Hs.
      assert (Hds : 0 < d * s) by nia.
      pose proof (@round_half_even_le_even (p * K) (d * s)
                    (5 * 1125899906842624) Hds eq_refl) as Hiff.
      rewrite <- Hn in Hiff.
      assert (E1 : 2 * (p * K) = p * 2251799813685248 * s).
      { rewrite HS, <- Hs. lia. }
      assert (E2 : (2 * (5 * 1125899906842624) + 1) * (d * s)
                   = (5 * 2251799813685248 + 1) * d * s) by lia.
      assert (E3 : 5 * K = 5 * 1125899906842624 * s)
        by (rewrite HS, <- Hs; lia).
      rewrite E1, E2 in Hiff. rewrite E3.
      rewrite <- (Z.mul_le_mono_pos_r _ _ s) in Hiff by lia.
      destruct (Z.ltb_spec (5 * 1125899906842624 * s) (n * s)) as [Ha|Ha],
               (Z.ltb_spec ((5 * 2251799813685248 + 1) * d) (p *
                   2251799813685248))
                 as [Hb|Hb];
        try reflexivity; exfalso.
      * apply Hiff in Hb.
        apply (Z.mul_le_mono_nonneg_r _ _ s) in Hb; lia.
      * apply Z.mul_le_mono_pos_r in Ha; [|lia].
        apply Hiff in Ha. lia.
    + (* 8 and above: the double is above 5 *)
      assert (Hsb : s <= 2 ^ 1025).
      { pose proof (@spacing_bounds x 1078 ltac:(split; [lia|];
                      rewrite <- HK16; apply Hxhi; lia) ltac:(lia)) as Hb.
        rewrite <- Hs in Hb. exact (proj2 Hb). }
      assert (H25 : 2 ^ 1025 = 2 * 2 ^ 1024)
        by (change 2 with (2 ^ 1) at 2;
            rewrite <- Z.pow_add_r by lia; reflexivity).
      specialize (Hlo2 8 ltac:(lia)).
      destruct (Z.ltb_spec (5 * K) (n * s)),
               (Z.ltb_spec ((5 * 2251799813685248 + 1) * d) (p *
                   2251799813685248));
        (reflexivity || lia).
Qed.

Lemma floor_div_exceeds_5 (c r : Z) :
  0 < c ->
  floor_div ((c - r) * 10) c = Return (inject_Z ((c - r) * 10 / c))
  /\ Qgt_bool (inject_Z ((c - r) * 10 / c)) (inject_Z 5)
     = (5 * r <=? 2 * c).
Proof.
  intros Hc. unfold floor_div.
  destruct (Z.eqb_spec c 0); [lia|]. split; [reflexivity|].
  unfold Qgt_bool, Qle_bool. cbn [Qnum Qden inject_Z]. rewrite !Z.mul_1_r.
  pose proof (Z.div_mod ((c - r) * 10) c ltac:(lia)) as Hdm.
  pose proof (Z.mod_pos_bound ((c - r) * 10) c Hc) as Hm.
  destruct (Z.leb_spec ((c - r) * 10 / c) 5), (Z.leb_spec (5 * r) (2 * c));
    cbn [negb]; (reflexivity || nia).
Qed.

(** With a positive budget and [retries] within it, the ratio test comes
    out as [ratioExceeds5] says, under either interpreter. *)
Lemma div_ratio (interpreter : Interpreter) (c r : Z) :
  0 < c -> 0 <= r <= c ->
  exists ratio,
    div interpreter ((c - r) * 10) c = Return ratio
    /\ Qgt_bool ratio (inject_Z 5) = ratioExceeds5 interpreter c r.
Proof.
  intros Hc Hr. destruct interpreter; cbn [div ratioExceeds5].
  - eexists. apply floor_div_exceeds_5. exact Hc.
  - unfold true_div. destruct (Z.eqb_spec c 0); [lia|].
    rewrite (Z.abs_eq c), (Z.abs_eq ((c - r) * 10)) by lia.
    destruct (@nearest_double_exceeds_5 ((c - r) * 10) c)
      as (f & -> & Hf); [lia | lia | lia |].
    cbn [bind].
    assert (Hsgn : (Z.sgn ((c - r) * 10) * Z.sgn c <? 0) = false).
    { apply Z.ltb_ge. rewrite (Z.sgn_pos c) by lia.
      pose proof (Z.sgn_nonneg ((c - r) * 10)). lia. }
    rewrite Hsgn. eexists. split; [reflexivity | exact Hf].
Qed.

Lemma div_raises (interpreter : Interpreter) (a b : Z) (e : Exn) :
  div interpreter a b = Raise e ->
  (e = ZeroDivisionError /\ b = 0)
  \/ (e = OverflowError /\ interpreter = Python3 /\ b <> 0).
Proof.
  destruct interpreter; cbn [div]; unfold floor_div, true_div.
  - destruct (Z.eqb_spec b 0); [|discriminate].
    intros [= <-]. auto.
  - destruct (Z.eqb_spec b 0); [intros [= <-]; auto|].
    unfold nearest_double.
    destruct (_ <=? _); cbn [bind]; [|discriminate].
    intros [= <-]. auto.
Qed.

Lemma div_returns (interpreter : Interpreter) (a b : Z) :
  b <> 0 -> interpreter = Python2 \/ Z.abs a < 2 ^ 1000 * Z.abs b ->
  exists ratio, div interpreter a b = Return ratio.
Proof.
  intros Hb Hfit.
  destruct interpreter; cbn [div]; unfold floor_div, true_div;
    destruct (Z.eqb_spec b 0) as [Hz|Hnz]; try contradiction; [eauto|].
  destruct Hfit as [Hi|Hfit]; [discriminate|].
  destruct (@nearest_double_fits (Z.abs a) (Z.abs b))
    as (m & s & -> & _); [lia | lia | exact Hfit |].
  cbn [bind]. eauto.
Qed.

(** Below a budget of [5 * 2 ^ 51] rounding to a double does not show: the
    ratio exceeds 5 exactly when more than half of the budget is spent. *)
Lemma ratioExceeds5_exact (c r : Z) :
  0 < c < 5 * 2 ^ 51 -> ratioExceeds5 Python3 c r = (2 * r <? c).
Proof.
  intros Hc. cbn [ratioExceeds5].
  change (2 ^ 51) with 2251799813685248 in *.
  destruct (Z.ltb_spec ((5 * 2251799813685248 + 1) * c)
                       ((c - r) * 10 * 2251799813685248)),
           (Z.ltb_spec (2 * r) c); (reflexivity || lia).
Qed.

(** ** The consumed ratio *)

(** With a positive budget the exact ratio exceeds 5 exactly when more than
    half of the budget is spent. *)
Lemma ratio_gt_5 (c r : Z) :
  0 < c -> Qgt_bool (consumedRatio c r) (inject_Z 5) = (2 * r <? c).
Proof.
  intros Hc. unfold Qgt_bool, consumedRatio.
  assert (Hq : (0 < inject_Z c)%Q).
  { change 0%Q with (inject_Z 0). rewrite <- Zlt_Qlt. exact Hc. }
  destruct (Z.ltb_spec (2 * r) c) as [Hlt | Hge].
  - apply negb_true_iff.
    destruct (Qle_bool (inject_Z ((c - r) * 10) / inject_Z c) (inject_Z 5))
      eqn:Hle; [|reflexivity].
    exfalso. apply Qle_bool_iff in Hle.
    assert (Hz : (inject_Z 5 * inject_Z c < inject_Z ((c - r) * 10))%Q).
    { rewrite <- inject_Z_mult. rewrite <- Zlt_Qlt. lia. }
    exact (Qlt_not_le _ _ (Qlt_shift_div_l _ _ _ Hq Hz) Hle).
  - apply negb_false_iff. apply Qle_bool_iff.
    apply Qle_shift_div_r; [exact Hq|].
    rewrite <- inject_Z_mult. rewrite <- Zle_Qle. lia.
Qed.

(** ** The retry advancer *)

Lemma fuzzyNextOID_short (interpreter : Interpreter) (c r : Z) (oid : OID) :
  (length oid < 4)%nat -> fuzzyNextOID interpreter c r oid = Return oid.
Proof.
  intros Hlen. unfold fuzzyNextOID.
  destruct (Nat.ltb_spec (length oid) 4) as [_|H]; [reflexivity | lia].
Qed.

(** What the source computes on an OID of four or more sub-identifiers,
    written on its two trailing items. *)
Lemma fuzzyNextOID_long (interpreter : Interpreter) (c r : Z) (front : OID)
    (a b : Z) :
  (4 <= length (front ++ [a; b]))%nat ->
  fuzzyNextOID interpreter c r (front ++ [a; b]) =
  (ratio <- div interpreter ((c - r) * 10) c ;;
   Return (if Qgt_bool ratio (inject_Z 5) then front ++ [a + 1]
           else if negb (b =? 0) then front ++ [a; b + 1]
                else front ++ [a + 1; 0])).
Proof.
  intros Hlen. unfold fuzzyNextOID.
  destruct (Nat.ltb_spec (length (front ++ [a; b])) 4) as [H|_]; [lia|].
  destruct (div interpreter ((c - r) * 10) c) as [ratio|e]; cbn [bind];
    [|reflexivity].
  rewrite getitem_last, getitem_second_to_last. cbn [bind].
  rewrite slice_drop_last, slice_drop_two.
  destruct (Qgt_bool ratio (inject_Z 5)); [reflexivity|].
  destruct (negb (b =? 0)).
  - rewrite <- app_assoc. reflexivity.
  - reflexivity.
Qed.

Lemma advance_long (c r : Z) (front : OID) (a b : Z) :
  (4 <= length (front ++ [a; b]))%nat -> 0 < c ->
  advance (front ++ [a; b]) r c =
  if 2 * r <? c then front ++ [a + 1]
  else if negb (b =? 0) then front ++ [a; b + 1]
       else front ++ [a + 1; 0].
Proof.
  intros Hlen Hc. unfold advance.
  destruct (Nat.ltb_spec (length (front ++ [a; b])) 4) as [H|_]; [lia|].
  rewrite rev_two_trailing, rev_involutive.
  rewrite ratio_gt_5 by exact Hc. reflexivity.
Qed.

Lemma advance_as_run_long (interpreter : Interpreter) (c r : Z)
    (front : OID) (a b : Z) :
  (4 <= length (front ++ [a; b]))%nat ->
  advance_as_run interpreter (front ++ [a; b]) r c =
  if ratioExceeds5 interpreter c r then front ++ [a + 1]
  else if negb (b =? 0) then front ++ [a; b + 1]
       else front ++ [a + 1; 0].
Proof.
  intros Hlen. unfold advance_as_run.
  destruct (Nat.ltb_spec (length (front ++ [a; b])) 4) as [H|_]; [lia|].
  rewrite rev_two_trailing, rev_involutive. reflexivity.
Qed.

Lemma fuzzyNextOID_returns (interpreter : Interpreter) (c r : Z)
    (oid : OID) :
  (exists ratio, div interpreter ((c - r) * 10) c = Return ratio) ->
  exists next, fuzzyNextOID interpreter c r oid = Return next.
Proof.
  intros [ratio Hdiv].
  destruct (Nat.ltb_spec (length oid) 4) as [Hlen|Hlen].
  - rewrite fuzzyNextOID_short by exact Hlen. eauto.
  - destruct (two_trailing_items oid) as (front & a & b & ->); [lia|].
    rewrite fuzzyNextOID_long, Hdiv by exact Hlen. cbn [bind]. eauto.
Qed.

(** The heuristic raises nothing but what the division raises. *)
Lemma fuzzyNextOID_raises (interpreter : Interpreter) (c r : Z) (oid : OID)
    (e : Exn) :
  fuzzyNextOID interpreter c r oid = Raise e ->
  (e = ZeroDivisionError /\ c = 0)
  \/ (e = OverflowError /\ interpreter = Python3 /\ c <> 0).
Proof.
  destruct (Nat.ltb_spec (length oid) 4) as [Hlen|Hlen].
  - rewrite fuzzyNextOID_short by exact Hlen. discriminate.
  - destruct (two_trailing_items oid) as (front & a & b & ->); [lia|].
    rewrite fuzzyNextOID_long by exact Hlen.
    destruct (div interpreter ((c - r) * 10) c) as [ratio|e'] eqn:Hdiv;
      cbn [bind]; [discriminate|].
    intros [= <-]. exact (div_raises _ _ _ Hdiv).
Qed.

(** C1 (as the code has it). On an identifier of four or more components,
    with a positive retry budget and [0 < retriesRemaining <= retryBudget],
    the source's retry heuristic returns (without raising) the identifier
    that [advance_as_run] describes: last component dropped and the new
    last one incremented when the ratio, as the running interpreter computes
    it, exceeds 5 -- under Python 2 when [5 * retriesRemaining <= 2 *
    retryBudget], under Python 3 when the exact ratio exceeds [5 + 2 ^ -51]
    --, else last component incremented when it is nonzero, else
    second-to-last incremented and a 0 appended.  Under Python 3 with a
    budget below [5 * 2 ^ 51] that is the identifier the specified [advance]
    describes.  A shorter identifier is returned unchanged. *)
Theorem fuzzyNextOID_refines_advance (interpreter : Interpreter)
    (retryBudget retriesRemaining : Z) (oid : OID) :
  ((4 <= length oid)%nat -> 0 < retryBudget ->
   0 < retriesRemaining <= retryBudget ->
   fuzzyNextOID interpreter retryBudget retriesRemaining oid
   = Return (advance_as_run interpreter oid retriesRemaining retryBudget)
   /\ (interpreter = Python3 -> retryBudget < 5 * 2 ^ 51 ->
       advance_as_run interpreter oid retriesRemaining retryBudget
       = advance oid retriesRemaining retryBudget))
  /\ ((length oid < 4)%nat ->
      fuzzyNextOID interpreter retryBudget retriesRemaining oid = Return oid
      /\ advance_as_run interpreter oid retriesRemaining retryBudget = oid).
Proof.
  split.
  - intros Hlen Hc Hr.
    destruct (two_trailing_items oid) as (front & a & b & ->); [lia|].
    destruct (@div_ratio interpreter retryBudget retriesRemaining Hc)
      as (ratio & Hdiv & Hgt); [lia|].
    rewrite fuzzyNextOID_long, Hdiv by exact Hlen. cbn [bind].
    rewrite Hgt, advance_as_run_long by exact Hlen.
    split; [reflexivity|].
    intros -> Hsmall.
    rewrite advance_long, ratioExceeds5_exact by (assumption || lia).
    reflexivity.
  - intros Hlen. split; [apply fuzzyNextOID_short; exact Hlen|].
    unfold advance_as_run.
    destruct (Nat.ltb_spec (length oid) 4) as [_|H]; [reflexivity | lia].
Qed.

Lemma fuzzyNextOID_refines_advance_witness :
  fuzzyNextOID Python3 3 1 [1; 3; 6; 1; 2; 1; 7; 0]
  = Return [1; 3; 6; 1; 2; 1; 8]
  /\ fuzzyNextOID Python2 9 4 [1; 3; 6; 1; 2; 1; 7; 4]
     = Return [1; 3; 6; 1; 2; 1; 7; 5]
  /\ fuzzyNextOID Python2 10 4 [1; 3; 6; 1; 2; 1; 7; 4]
     = Return [1; 3; 6; 1; 2; 1; 8]
  /\ fuzzyNextOID Python3 3 3 [1; 3; 6; 1; 2; 1; 7; 0]
     = Return [1; 3; 6; 1; 2; 1; 8; 0]
  /\ fuzzyNextOID Python3 3 1 [1; 3; 6] = Return [1; 3; 6].
Proof.
  split; [|split; [|split; [|split]]].
  - rewrite (proj1 (proj1 (fuzzyNextOID_refines_advance Python3 3 1
                              [1; 3; 6; 1; 2; 1; 7; 0])
                      ltac:(simpl; lia) ltac:(lia) ltac:(lia))).
    reflexivity.
  - rewrite (proj1 (proj1 (fuzzyNextOID_refines_advance Python2 9 4
                              [1; 3; 6; 1; 2; 1; 7; 4])
                      ltac:(simpl; lia) ltac:(lia) ltac:(lia))).
    reflexivity.
  - rewrite (proj1 (proj1 (fuzzyNextOID_refines_advance Python2 10 4
                              [1; 3; 6; 1; 2; 1; 7; 4])
                      ltac:(simpl; lia) ltac:(lia) ltac:(lia))).
    reflexivity.
  - rewrite (proj1 (proj1 (fuzzyNextOID_refines_advance Python3 3 3
                              [1; 3; 6; 1; 2; 1; 7; 0])
                      ltac:(simpl; lia) ltac:(lia) ltac:(lia))).
    reflexivity.
  - apply (proj2 (fuzzyNextOID_refines_advance Python3 3 1 [1; 3; 6])).
    simpl. lia.
Defined.

(** C1, the claim as stated fails: the ratio is not compared as a number
    but as the interpreter's [/] leaves it.  Under Python 2, with a budget
    of 9 and 4 retries left, [50 / 9] is 5, which does not exceed 5, and the
    last component is incremented although more than half of the budget is
    spent; under Python 3, with a budget of [2 ^ 54 + 1] and [2 ^ 53]
    retries left, the quotient rounds to the double 5.0 and the same
    happens.  The specified [advance] drops the last component in both. *)
Lemma interpreter_division_delays_coarse_skip :
  fuzzyNextOID Python2 9 4 [1; 3; 6; 1; 2; 1; 7; 4]
  = Return [1; 3; 6; 1; 2; 1; 7; 5]
  /\ advance [1; 3; 6; 1; 2; 1; 7; 4] 4 9 = [1; 3; 6; 1; 2; 1; 8]
  /\ fuzzyNextOID Python3 (2 ^ 54 + 1) (2 ^ 53) [1; 3; 6; 1; 2; 1; 7; 4]
     = Return [1; 3; 6; 1; 2; 1; 7; 5]
  /\ advance [1; 3; 6; 1; 2; 1; 7; 4] (2 ^ 53) (2 ^ 54 + 1)
     = [1; 3; 6; 1; 2; 1; 8].
Proof. vm_compute. repeat split. Qed.

(** ** Tuple ordering *)

Lemma tuple_lt_app (p a b : OID) : tuple_lt (p ++ a) (p ++ b) = tuple_lt a b.
Proof.
  induction p as [|x p IH]; [reflexivity|].
  simpl. rewrite Z.eqb_refl. exact IH.
Qed.

Lemma tuple_lt_irrefl (a : OID) : tuple_lt a a = false.
Proof.
  induction a as [|x a IH]; [reflexivity|].
  simpl. rewrite Z.eqb_refl. exact IH.
Qed.

(** C2. On an identifier of four or more components and
    [0 < retriesRemaining <= retryBudget], the retry heuristic returns an
    identifier strictly greater than its input in the component-wise
    (tuple) order, under either interpreter; only an identifier shorter than
    four components is returned as it is, hence not strictly greater. *)
Theorem fuzzyNextOID_strictly_forward (interpreter : Interpreter)
    (retryBudget retriesRemaining : Z) (oid : OID) :
  ((4 <= length oid)%nat -> 0 < retriesRemaining <= retryBudget ->
   exists next,
     fuzzyNextOID interpreter retryBudget retriesRemaining oid = Return next
     /\ tuple_lt oid next = true)
  /\ ((length oid < 4)%nat ->
      fuzzyNextOID interpreter retryBudget retriesRemaining oid = Return oid
      /\ tuple_lt oid oid = false).
Proof.
  split.
  - intros Hlen Hr.
    destruct (two_trailing_items oid) as (front & a & b & ->); [lia|].
    destruct (@div_ratio interpreter retryBudget retriesRemaining)
      as (ratio & Hdiv & _); [lia | lia |].
    rewrite fuzzyNextOID_long, Hdiv by exact Hlen. cbn [bind].
    eexists. split; [reflexivity|].
    destruct (Qgt_bool ratio (inject_Z 5));
      [|destruct (negb (b =? 0))];
      rewrite tuple_lt_app; simpl.
    + destruct (Z.eqb_spec a (a + 1)); [lia | apply Z.ltb_lt; lia].
    + rewrite Z.eqb_refl.
      destruct (Z.eqb_spec b (b + 1)); [lia | apply Z.ltb_lt; lia].
    + destruct (Z.eqb_spec a (a + 1)); [lia | apply Z.ltb_lt; lia].
  - intros Hlen. split; [apply fuzzyNextOID_short; exact Hlen|].
    apply tuple_lt_irrefl.
Qed.

Lemma fuzzyNextOID_strictly_forward_witness :
  exists next,
    fuzzyNextOID Python3 4 1 [1; 3; 6; 1; 4; 1; 9; 9; 0] = Return next
    /\ tuple_lt [1; 3; 6; 1; 4; 1; 9; 9; 0] next = true.
Proof.
  apply (proj1 (fuzzyNextOID_strictly_forward Python3 4 1
                  [1; 3; 6; 1; 4; 1; 9; 9; 0]));
    [simpl; lia | lia].
Defined.

(** ** Traces *)

Lemma new_events_app {M : Type} (w w' : World M) (evs : list Event) :
  trace w' = trace w ++ evs -> new_events w w' = evs.
Proof.
  intros H. unfold new_events. rewrite H.
  rewrite skipn_app, skipn_all, Nat.sub_diag. reflexivity.
Qed.

Lemma written_app (a b : list Event) :
  written (a ++ b) = written a ++ written b.
Proof.
  induction a as [|e a IH]; [reflexivity|].
  destruct e; simpl; rewrite IH; reflexivity.
Qed.

Lemma polled_app (a b : list Event) : polled (a ++ b) = polled a ++ polled b.
Proof.
  induction a as [|e a IH]; [reflexivity|].
  destruct e; simpl; rewrite IH; reflexivity.
Qed.

Lemma requests_app (a b : list Event) :
  requests (a ++ b) = (requests a + requests b)%nat.
Proof.
  induction a as [|e a IH]; [reflexivity|].
  destruct e; simpl; rewrite IH; reflexivity.
Qed.

Lemma format_calls_app (a b : list Event) :
  format_calls (a ++ b) = format_calls a ++ format_calls b.
Proof.
  induction a as [|e a IH]; [reflexivity|].
  destruct e; simpl; rewrite IH; reflexivity.
Qed.

Lemma requests_polled (t : list Event) : requests t = length (polled t).
Proof.
  induction t as [|e t IH]; [reflexivity|].
  destruct e; simpl; rewrite ?IH; reflexivity.
Qed.

Lemma returned_app (a b : list Event) :
  returned (a ++ b) = returned a ++ returned b.
Proof.
  induction a as [|e a IH]; [reflexivity|].
  destruct e as [r|r|bulk o|p|line|oid v c [line|e]]; simpl; rewrite IH;
    reflexivity.
Qed.

Lemma moreData_calls_app (a b : list Event) :
  moreData_calls (a ++ b) = (moreData_calls a + moreData_calls b)%nat.
Proof.
  unfold moreData_calls.
  rewrite format_calls_app, filter_app, length_app. reflexivity.
Qed.

Lemma books_nothing {M : Type} (w : World M) : books w w.
Proof.
  exists []. rewrite app_nil_r. cbn. repeat split; lia.
Qed.

Lemma books_then {M : Type} (w1 w2 w3 : World M) :
  books w1 w2 -> books w2 w3 -> books w1 w3.
Proof.
  intros (e1 & T1 & A1 & I1 & C1 & D1) (e2 & T2 & A2 & I2 & C2 & D2).
  exists (e1 ++ e2).
  rewrite T2, T1, app_assoc, written_app, moreData_calls_app, length_app.
  rewrite !Nat2Z.inj_add.
  split; [reflexivity|]. split; [lia|]. split; [lia|]. split.
  - intros H0. specialize (C1 H0). specialize (C2 (proj1 C1)). lia.
  - intros Hmd.
    assert (moreData_calls e1 = 0%nat /\ moreData_calls e2 = 0%nat)
      as [H1 H2] by lia.
    rewrite (D2 H2), (D1 H1). lia.
Qed.

(** A step that appends no formatter call and no output, and leaves the
three counters alone. *)
Lemma books_quiet {M : Type} (w w' : World M) (evs : list Event) :
  trace w' = trace w ++ evs -> written evs = [] -> format_calls evs = [] ->
  total (cbCtx w') = total (cbCtx w) ->
  iteration (cbCtx w') = iteration (cbCtx w) ->
  count (cbCtx w') = count (cbCtx w) ->
  books w w'.
Proof.
  intros Ht Hw Hf Htot Hit Hc. exists evs.
  unfold moreData_calls. rewrite Hw, Hf. cbn.
  repeat split; try assumption; lia.
Qed.

(** ** Values *)

Lemma tagSet_removeEnumeration (v : Value) :
  tagSet (removeEnumeration v) = tagSet v.
Proof. destruct v as [[] p]; reflexivity. Qed.

(** ** The loops of the callback *)

Section RecorderFacts.
Variable M : Type.
Variable interpreter : Interpreter.
Variable getBulkFlag : bool.
Variable continueOnErrors : Z.
Variable startOID : OID.
Variable stopOID : option OID.
Variable variationModule : option (VariationModule M).
Variable dataFileHandler : RecordType M.

Local Abbreviation body :=
  (walkVarBind getBulkFlag startOID stopOID variationModule dataFileHandler).
Local Abbreviation over_row :=
  (walkRow getBulkFlag startOID stopOID variationModule dataFileHandler).
Local Abbreviation over_table :=
  (walkTable getBulkFlag startOID stopOID variationModule dataFileHandler).
Local Abbreviation callback :=
  (cbFun interpreter getBulkFlag continueOnErrors startOID stopOID
      variationModule
         dataFileHandler).
Local Abbreviation clean :=
  (successPath getBulkFlag continueOnErrors startOID stopOID variationModule
               dataFileHandler).

Lemma eom_own_stop (oid : OID) (v : Value) (stopFlag : bool) :
  eom stopOID oid (Some v) stopFlag = own_stop stopOID oid v || stopFlag.
Proof.
  unfold eom, own_stop.
  destruct (stopOID_truthy stopOID && oid_ge_stopOID stopOID oid);
    [reflexivity|].
  destruct (sentinel_tagSet (tagSet v)); reflexivity.
Qed.

(** A relation between the loop state before and after, and the exception
    raised if any, holds of both loops once it holds of the loop body, of
    doing nothing, and is closed under sequencing. *)
Section LoopRule.
Variable R : LoopState M -> LoopState M -> option Exn -> Prop.
Hypothesis R_skip : forall s, R s s None.
Hypothesis R_seq :
  forall s1 s2 s3 r, R s1 s2 None -> R s2 s3 r -> R s1 s3 r.
Hypothesis R_body :
  forall vb s, R s (fst (body vb s)) (snd (body vb s)).

Lemma walkRow_rule (varBindRow : list VarBind) (s : LoopState M) :
  R s (fst (over_row varBindRow s)) (snd (over_row varBindRow s)).
Proof.
  revert s. induction varBindRow as [|vb rest IH]; intros s; simpl.
  - apply R_skip.
  - pose proof (R_body vb s) as Hb.
    destruct (body vb s) as [s' [e|]]; simpl in *.
    + exact Hb.
    + eapply R_seq; [exact Hb | apply IH].
Qed.

Lemma walkTable_rule (tbl : list (list VarBind)) (s : LoopState M) :
  R s (fst (over_table tbl s)) (snd (over_table tbl s)).
Proof.
  revert s. induction tbl as [|varBindRow rest IH]; intros s; simpl.
  - apply R_skip.
  - pose proof (walkRow_rule varBindRow s) as Hb.
    destruct (over_row varBindRow s) as [s' [e|]]; simpl in *.
    + exact Hb.
    + eapply R_seq; [exact Hb | apply IH].
Qed.
End LoopRule.

(** The loop over the table does what one loop over all its bindings
would. *)
Lemma walkRow_app (a b : list VarBind) (s : LoopState M) :
  over_row (a ++ b) s
  = match over_row a s with
    | (s', None) => over_row b s'
    | raised => raised
    end.
Proof.
  revert s. induction a as [|vb a IH]; intros s; cbn [app walkRow].
  - reflexivity.
  - destruct (body vb s) as [s' [e|]]; [reflexivity | apply IH].
Qed.

Lemma walkTable_concat (tbl : list (list VarBind)) (s : LoopState M) :
  over_table tbl s = over_row (concat tbl) s.
Proof.
  revert s. induction tbl as [|varBindRow tbl IH]; intros s;
    cbn [concat walkTable]; [reflexivity|].
  rewrite walkRow_app.
  destruct (over_row varBindRow s) as [s' [e|]]; [reflexivity | apply IH].
Qed.

Lemma body_keeps_retry_state (vb : VarBind) (s : LoopState M) :
  keeps_retry_state s (fst (body vb s)) (snd (body vb s)).
Proof.
  destruct s as [w stopFlag], vb as [oid [v|]]; unfold keeps_retry_state;
    simpl; [|auto].
  destruct (format dataFileHandler _ _ _ _ _) as [m [line|[[p|]| |msg|msg]]];
    simpl; auto.
  destruct (_ =? 0); simpl; auto.
Qed.

Lemma walkTable_keeps_retry_state (tbl : list (list VarBind))
    (s : LoopState M) :
  keeps_retry_state s (fst (over_table tbl s)) (snd (over_table tbl s)).
Proof.
  apply walkTable_rule.
  - unfold keeps_retry_state; auto.
  - unfold keeps_retry_state. intros s1 s2 s3 r (A & B & C & D) (E & F & G & H).
    repeat split; congruence.
  - apply body_keeps_retry_state.
Qed.

Lemma walkTable_raises_no_arith (tbl : list (list VarBind))
    (s : LoopState M) :
  raises_no_arith s (fst (over_table tbl s)) (snd (over_table tbl s)).
Proof.
  apply walkTable_rule.
  - unfold raises_no_arith; split; discriminate.
  - unfold raises_no_arith; auto.
  - intros [oid [v|]] [w stopFlag]; unfold raises_no_arith; simpl;
      [|split; discriminate].
    destruct (format dataFileHandler _ _ _ _ _) as [m [line|[[p|]| |msg|msg]]];
      simpl; split; discriminate.
Qed.

(** ** The retry counter *)

(** How one invocation moves [cbCtx['retries']]: not at all, down by one on
the error branch while it is nonzero, or up by one after a clean response
while it differs from the budget. *)
Lemma errorPath_retries (w : World M) (rsp : Response) :
  let w' := fst (errorPath interpreter getBulkFlag continueOnErrors w rsp) in
  retries (cbCtx w') = retries (cbCtx w)
  \/ (retries (cbCtx w) <> 0
      /\ retries (cbCtx w') = retries (cbCtx w) - 1).
Proof.
  unfold errorPath. cbn [emit cbCtx].
  destruct (Z.eqb_spec (retries (cbCtx w)) 0) as [Hz|Hnz]; cbn [negb].
  - left. reflexivity.
  - destruct (last_row_first_oid (varBindTable rsp)) as [oid|e];
      cbn [emit cbCtx];
      destruct (fuzzyNextOID _ _ _) as [next|e']; cbn; auto.
Qed.

Lemma successPath_retries (w : World M) (rsp : Response) :
  let w' := fst (clean w rsp) in
  (continueOnErrors = retries (cbCtx w)
   /\ retries (cbCtx w') = retries (cbCtx w))
  \/ (continueOnErrors <> retries (cbCtx w)
      /\ retries (cbCtx w') = retries (cbCtx w) + 1).
Proof.
  unfold successPath.
  set (w1 := if negb (continueOnErrors =? retries (cbCtx w)) then _ else w).
  set (w2 := match last_row_first_oid (varBindTable rsp) with
             | Return _ => _ | Raise _ => w1 end).
  assert (H2 : retries (cbCtx w2) = retries (cbCtx w1)).
  { unfold w2. destruct (last_row_first_oid (varBindTable rsp)); reflexivity. }
  pose proof (walkTable_keeps_retry_state (varBindTable rsp) (w2, false))
    as (Hk & _).
  destruct (over_table (varBindTable rsp) (w2, false)) as [[w3 flag] [e|]];
    cbn [fst snd cbCtx with_ctx set_reqTime retries] in *;
    rewrite Hk, H2; unfold w1;
    destruct (Z.eqb_spec continueOnErrors (retries (cbCtx w)));
    cbn; auto.
Qed.

Lemma cbFun_retries (w : World M) (rsp : Response) :
  let w' := fst (callback w rsp) in
  retries (cbCtx w') = retries (cbCtx w)
  \/ (is_failure rsp = true /\ retries (cbCtx w) <> 0
      /\ retries (cbCtx w') = retries (cbCtx w) - 1)
  \/ (is_failure rsp = false /\ continueOnErrors <> retries (cbCtx w)
      /\ retries (cbCtx w') = retries (cbCtx w) + 1).
Proof.
  unfold cbFun.
  assert (Hgen :
    let w' := fst (if is_failure rsp
                   then errorPath interpreter getBulkFlag continueOnErrors w rsp
                   else clean w rsp) in
    retries (cbCtx w') = retries (cbCtx w)
    \/ (is_failure rsp = true /\ retries (cbCtx w) <> 0
        /\ retries (cbCtx w') = retries (cbCtx w) - 1)
    \/ (is_failure rsp = false /\ continueOnErrors <> retries (cbCtx w)
        /\ retries (cbCtx w') = retries (cbCtx w) + 1)).
  { destruct (is_failure rsp) eqn:Hf.
    - destruct (errorPath_retries w rsp) as [H|[H1 H2]]; cbn zeta in *; auto.
    - destruct (successPath_retries w rsp) as [[H1 H2]|[H1 H2]];
        cbn zeta in *; auto. }
  destruct (errorIndication rsp) as [indication|]; [|exact Hgen].
  destruct (retries (cbCtx w) =? 0); [|exact Hgen].
  left. reflexivity.
Qed.

Lemma cbFun_retry_invariant (w : World M) (rsp : Response) :
  retry_invariant continueOnErrors (cbCtx w) ->
  retry_invariant continueOnErrors (cbCtx (fst (callback w rsp))).
Proof.
  unfold retry_invariant. intros [Hle Hnn].
  destruct (cbFun_retries w rsp) as [H|[(_ & H1 & H)|(_ & H1 & H)]];
    cbn zeta in H; rewrite H; split; lia.
Qed.

Lemma invocations_snoc (w : World M) (rsps : list Response) (rsp : Response) :
  invocations interpreter getBulkFlag continueOnErrors startOID stopOID
      variationModule
              dataFileHandler w (rsps ++ [rsp])
  = fst (callback
           (invocations interpreter getBulkFlag continueOnErrors startOID
               stopOID
                        variationModule dataFileHandler w rsps) rsp).
Proof. unfold invocations. rewrite fold_left_app. reflexivity. Qed.

Lemma invocations_retry_invariant (m : M) (now : Q) (rsps : list Response) :
  retry_invariant continueOnErrors
    (cbCtx (invocations interpreter getBulkFlag continueOnErrors startOID
        stopOID
                        variationModule dataFileHandler
                        (initial_world getBulkFlag continueOnErrors startOID
                                       m now) rsps)).
Proof.
  induction rsps as [|rsp rsps IH] using rev_ind.
  - unfold retry_invariant. cbn. lia.
  - rewrite invocations_snoc. apply cbFun_retry_invariant. exact IH.
Qed.

Lemma budget_nonzero_when_retrying (c : CbCtx) :
  retry_invariant continueOnErrors c -> retries c <> 0 -> continueOnErrors <> 0.
Proof. unfold retry_invariant. intros [Hle Hnn] Hr Hc. apply Hr. lia. Qed.

(** An invocation lowers [retries] by one at most. *)
Lemma invocations_retries_floor (w : World M) (rsps : list Response) :
  retries (cbCtx w) - Z.of_nat (length rsps)
  <= retries (cbCtx (invocations interpreter getBulkFlag continueOnErrors
                                 startOID stopOID variationModule
                                 dataFileHandler w rsps)).
Proof.
  induction rsps as [|rsp rsps IH] using rev_ind; [cbn; lia|].
  rewrite invocations_snoc, length_app, Nat2Z.inj_add. cbn [length].
  match goal with
  | |- context [callback ?w0 rsp] =>
      destruct (cbFun_retries w0 rsp) as [H|[(_ & _ & H)|(_ & _ & H)]];
      cbn zeta in H; rewrite H
  end; lia.
Qed.

(** Where the ratio test is evaluated in range, the division returns. *)
Lemma retrying_divides (c : CbCtx) (n : nat) :
  retry_invariant continueOnErrors c -> retries c <> 0 ->
  continueOnErrors - Z.of_nat n <= retries c ->
  within_doubles interpreter continueOnErrors n ->
  exists ratio,
    div interpreter ((continueOnErrors - retries c) * 10) continueOnErrors
    = Return ratio.
Proof.
  intros Hinv Hnz Hfloor Hrange.
  pose proof (budget_nonzero_when_retrying Hinv Hnz) as Hc.
  destruct Hinv as [Hle Hnn].
  apply div_returns; [exact Hc|].
  destruct Hrange as [Hi|Hrange]; [left; exact Hi | right].
  assert (H10 : 10 < 2 ^ 1000).
  { apply (Z.lt_le_trans _ (2 ^ 4)); [reflexivity|].
    apply Z.pow_le_mono_r; lia. }
  set (P := 2 ^ 1000) in *.
  destruct (Z.le_gt_cases 0 continueOnErrors) as [Hpos|Hneg].
  - specialize (Hnn Hpos).
    rewrite (Z.abs_eq continueOnErrors), Z.abs_eq by lia. nia.
  - destruct Hrange as [Hpos|Hn]; [lia|].
    rewrite (Z.abs_neq continueOnErrors), Z.abs_eq by lia. nia.
Qed.

Lemma errorPath_returns (w : World M) (rsp : Response) :
  (retries (cbCtx w) <> 0 ->
   exists ratio,
     div interpreter ((continueOnErrors - retries (cbCtx w)) * 10)
         continueOnErrors = Return ratio) ->
  snd (errorPath interpreter getBulkFlag continueOnErrors w rsp)
  = Return None.
Proof.
  intros Hdiv. unfold errorPath. cbn [emit cbCtx].
  destruct (Z.eqb_spec (retries (cbCtx w)) 0) as [Hz|Hnz]; cbn [negb];
    [reflexivity|].
  specialize (Hdiv Hnz).
  destruct (last_row_first_oid (varBindTable rsp)) as [oid|e];
    cbn [emit cbCtx].
  - destruct (@fuzzyNextOID_returns interpreter continueOnErrors
                (retries (cbCtx w)) oid Hdiv) as [next ->].
    reflexivity.
  - destruct (@fuzzyNextOID_returns interpreter continueOnErrors
                (retries (cbCtx w)) (lastOID (cbCtx w)) Hdiv) as [next ->].
    reflexivity.
Qed.

(** What the error branch can raise: nothing but the [OverflowError] of
    Python 3's division. *)
Lemma errorPath_raises (w : World M) (rsp : Response) (e : Exn) :
  retry_invariant continueOnErrors (cbCtx w) ->
  snd (errorPath interpreter getBulkFlag continueOnErrors w rsp) = Raise e ->
  e = OverflowError /\ interpreter = Python3 /\ retries (cbCtx w) <> 0.
Proof.
  intros Hinv. unfold errorPath. cbn [emit cbCtx].
  destruct (Z.eqb_spec (retries (cbCtx w)) 0) as [Hz|Hnz]; cbn [negb];
    [discriminate|].
  pose proof (budget_nonzero_when_retrying Hinv Hnz) as Hc.
  destruct (last_row_first_oid (varBindTable rsp)) as [oid|e0];
    cbn [emit cbCtx];
    destruct (fuzzyNextOID _ _ _ _) as [next|e'] eqn:Hnext; cbn [snd];
    try discriminate;
    intros [= <-];
    destruct (fuzzyNextOID_raises _ _ _ _ Hnext) as [[_ Hz]|(-> & Hi & _)];
    (contradiction || auto).
Qed.

Lemma successPath_raises_no_arith (w : World M) (rsp : Response) :
  snd (clean w rsp) <> Raise ZeroDivisionError.
Proof.
  unfold successPath.
  match goal with
  | |- context [over_table ?t ?s] =>
      pose proof (walkTable_raises_no_arith t s) as [H _];
      destruct (over_table t s) as [[w' flag] [e|]]
  end; cbn in *; congruence.
Qed.

(** C6 (as the code has it). Along every sequence of invocations of the
callback, started from the [cbCtx] that [main] creates, [retries] never
exceeds the budget [continueOnErrors], and it stays within
[0, continueOnErrors] when that budget is not negative; an invocation lowers
it only on a failed response (engine error or bad status), only when it is
nonzero -- positive, for a budget that is not negative -- and by one; a
clean response raises it by at most one and never above the budget.  With a
negative budget, which [main] accepts, [retries] is negative throughout. *)
Theorem retries_within_budget (m : M) (now : Q) (rsps : list Response)
    (rsp : Response) :
  let w := invocations interpreter getBulkFlag continueOnErrors startOID
                       stopOID variationModule dataFileHandler
                       (initial_world getBulkFlag continueOnErrors startOID
                                      m now) rsps in
  let w' := fst (callback w rsp) in
  (retries (cbCtx w) <= continueOnErrors
   /\ retries (cbCtx w') <= continueOnErrors)
  /\ (0 <= continueOnErrors ->
      0 <= retries (cbCtx w) <= continueOnErrors
      /\ 0 <= retries (cbCtx w') <= continueOnErrors)
  /\ (continueOnErrors < 0 ->
      retries (cbCtx w) < 0 /\ retries (cbCtx w') < 0)
  /\ (retries (cbCtx w') < retries (cbCtx w) ->
      is_failure rsp = true /\ retries (cbCtx w) <> 0
      /\ (0 <= continueOnErrors -> 0 < retries (cbCtx w))
      /\ retries (cbCtx w') = retries (cbCtx w) - 1)
  /\ (is_failure rsp = false ->
      retries (cbCtx w) <= retries (cbCtx w') <= retries (cbCtx w) + 1).
Proof.
  intros w w'.
  pose proof (invocations_retry_invariant m now rsps) as Hinv.
  fold w in Hinv.
  pose proof (@cbFun_retry_invariant w rsp Hinv) as Hinv'. fold w' in Hinv'.
  pose proof (cbFun_retries w rsp) as Hstep. cbn zeta in Hstep.
  fold w' in Hstep.
  unfold retry_invariant in Hinv, Hinv'.
  destruct Hinv as [Hle Hnn], Hinv' as [Hle' Hnn'].
  split; [lia|]. split; [lia|]. split; [lia|]. split.
  - intros Hlt.
    destruct Hstep as [H|[(Hf & H1 & H)|(Hf & H1 & H)]]; [lia| |lia].
    split; [exact Hf|]. split; [exact H1|]. split; [lia | exact H].
  - intros Hclean.
    destruct Hstep as [H|[(Hf & H1 & H)|(Hf & H1 & H)]]; [lia| |lia].
    congruence.
Qed.

(** C9 (as the code has it). The consumed-ratio expression divides by
[continueOnErrors], and no invocation of the callback, after any sequence of
earlier ones, raises [ZeroDivisionError]: the expression sits in the branch
guarded by a nonzero [retries], [retries] never exceeds the budget and is
not negative unless the budget is, and so the budget is nonzero there -- at
least 1 for a budget that is not negative, and negative otherwise.  In range
of the doubles the division and the heuristic return. *)
Theorem consumed_ratio_division_is_safe (m : M) (now : Q)
    (rsps : list Response) (rsp : Response) :
  let w := invocations interpreter getBulkFlag continueOnErrors startOID
                       stopOID variationModule dataFileHandler
                       (initial_world getBulkFlag continueOnErrors startOID
                                      m now) rsps in
  snd (callback w rsp) <> Raise ZeroDivisionError
  /\ (retries (cbCtx w) <> 0 ->
      retries (cbCtx w) <= continueOnErrors
      /\ continueOnErrors <> 0
      /\ (0 <= continueOnErrors -> 1 <= continueOnErrors)
      /\ (continueOnErrors < 0 -> retries (cbCtx w) < 0)
      /\ div interpreter ((continueOnErrors - retries (cbCtx w)) * 10)
             continueOnErrors <> Raise ZeroDivisionError
      /\ (forall oid,
            fuzzyNextOID interpreter continueOnErrors (retries (cbCtx w)) oid
            <> Raise ZeroDivisionError)
      /\ (within_doubles interpreter continueOnErrors (length rsps) ->
          exists ratio,
            div interpreter ((continueOnErrors - retries (cbCtx w)) * 10)
                continueOnErrors = Return ratio
            /\ forall oid, exists next,
                 fuzzyNextOID interpreter continueOnErrors
                              (retries (cbCtx w)) oid
                 = Return next)).
Proof.
  intros w.
  pose proof (invocations_retry_invariant m now rsps) as Hinv.
  fold w in Hinv.
  split.
  - unfold cbFun.
    assert (Hgen : snd (if is_failure rsp
                        then errorPath interpreter getBulkFlag
                                       continueOnErrors w rsp
                        else clean w rsp) <> Raise ZeroDivisionError).
    { destruct (is_failure rsp).
      - intros Hraise.
        destruct (errorPath_raises w rsp Hinv Hraise) as [H _].
        discriminate H.
      - apply successPath_raises_no_arith. }
    destruct (errorIndication rsp) as [indication|]; [|exact Hgen].
    destruct (retries (cbCtx w) =? 0); [cbn; discriminate | exact Hgen].
  - intros Hnz.
    pose proof (budget_nonzero_when_retrying Hinv Hnz) as Hc.
    pose proof Hinv as [Hle Hnn].
    split; [exact Hle|]. split; [exact Hc|]. split; [lia|].
    split; [lia|]. split; [|split].
    + intros Hraise.
      destruct (div_raises _ _ _ Hraise) as [[_ Hz]|[H _]];
        [contradiction | discriminate H].
    + intros oid Hraise.
      destruct (fuzzyNextOID_raises _ _ _ _ Hraise) as [[_ Hz]|[H _]];
        [contradiction | discriminate H].
    + intros Hrange.
      destruct (@retrying_divides (cbCtx w) (length rsps) Hinv Hnz)
        as [ratio Hdiv]; [|exact Hrange|].
      * pose proof (invocations_retries_floor
                      (initial_world getBulkFlag continueOnErrors startOID
                                     m now) rsps) as Hfloor.
        cbn [initial_world initial_cbCtx cbCtx retries] in Hfloor.
        exact Hfloor.
      * exists ratio. split; [exact Hdiv|].
        intros oid. apply fuzzyNextOID_returns. eauto.
Qed.

(** ** What the loops append to the trace *)

Lemma walkTable_appends_loop_events (tbl : list (list VarBind))
    (s : LoopState M) :
  appends_loop_events getBulkFlag startOID s (fst (over_table tbl s))
                      (snd (over_table tbl s)).
Proof.
  apply walkTable_rule; unfold appends_loop_events.
  - intros s0. exists []. rewrite app_nil_r. auto.
  - intros s1 s2 s3 r (e1 & H1 & F1) (e2 & H2 & F2).
    exists (e1 ++ e2). rewrite H2, H1, app_assoc. split; [reflexivity|].
    apply Forall_app. auto.
  - intros [oid [v|]] [w stopFlag]; cbn [walkVarBind fst snd];
      [|exists []; rewrite app_nil_r; auto].
    destruct (format dataFileHandler _ _ _ _ _) as [m [line|[[p|]| |msg|msg]]];
      cbn [fst snd emit with_ctx with_module trace cbCtx].
    + destruct (_ =? 0); cbn [fst snd emit with_ctx with_module trace cbCtx];
        repeat rewrite <- app_assoc; eexists; (split; [reflexivity|]);
        repeat constructor.
    + repeat rewrite <- app_assoc; eexists; (split; [reflexivity|]);
        repeat constructor.
    + repeat rewrite <- app_assoc; eexists; (split; [reflexivity|]);
        repeat constructor.
    + eexists; (split; [reflexivity|]); repeat constructor.
    + repeat rewrite <- app_assoc; eexists; (split; [reflexivity|]);
        repeat constructor.
    + eexists; (split; [reflexivity|]); repeat constructor.
Qed.

Lemma successPath_appends_loop_events (w : World M) (rsp : Response) :
  exists evs,
    trace (fst (clean w rsp)) = trace w ++ evs
    /\ Forall (loop_event getBulkFlag startOID) evs.
Proof.
  unfold successPath.
  match goal with
  | |- context [over_table ?t ?s] =>
      pose proof (walkTable_appends_loop_events t s) as (evs & Ht & Hf);
      destruct (over_table t s) as [[w' flag] [e|]]
  end; cbn [fst snd trace with_ctx] in *; exists evs; (split; [|exact Hf]);
    rewrite Ht;
    destruct (negb (continueOnErrors =? retries (cbCtx w)));
    destruct (last_row_first_oid (varBindTable rsp)); reflexivity.
Qed.

Lemma successPath_keeps_errors (w : World M) (rsp : Response) :
  errors (cbCtx (fst (clean w rsp))) = errors (cbCtx w).
Proof.
  unfold successPath.
  match goal with
  | |- context [over_table ?t ?s] =>
      pose proof (walkTable_keeps_retry_state t s) as (_ & He & _);
      destruct (over_table t s) as [[w' flag] [e|]]
  end; cbn [fst snd cbCtx with_ctx set_reqTime errors] in *; rewrite He;
    destruct (negb (continueOnErrors =? retries (cbCtx w)));
    destruct (last_row_first_oid (varBindTable rsp)); reflexivity.
Qed.

(** ** Classification of a response *)

(** C3 (as the code has it). A failed response that arrives while
[retries] is zero adds one to [errors] and logs one error, changes nothing
else, hands no request to the engine and answers [None]: the resume chain
ends, and the dispatcher returns when it was the only pending request. *)
Theorem exhausted_budget_ends_chain (w : World M) (rsp : Response) :
  is_failure rsp = true -> retries (cbCtx w) = 0 ->
  callback w rsp
  = (mkWorld (set_errors (cbCtx w) (errors (cbCtx w) + 1)) (moduleContext w)
             (trace w ++
              [LogError match errorIndication rsp with
                        | Some indication => SnmpEngineError indication
                        | None => RemoteSnmpError None (errorStatus rsp)
                        end]),
     Return None)
  /\ polled (new_events w (fst (callback w rsp))) = []
  /\ forall rest,
       runDispatcher interpreter getBulkFlag continueOnErrors startOID stopOID
                     variationModule dataFileHandler 1 w (rsp :: rest)
       = fst (callback w rsp).
Proof.
  intros Hf Hz.
  assert (Heq : callback w rsp
    = (mkWorld (set_errors (cbCtx w) (errors (cbCtx w) + 1)) (moduleContext w)
               (trace w ++
                [LogError match errorIndication rsp with
                          | Some indication => SnmpEngineError indication
                          | None => RemoteSnmpError None (errorStatus rsp)
                          end]),
       Return None)).
  { unfold cbFun. rewrite Hz, Hf. cbn [Z.eqb].
    destruct (errorIndication rsp) as [indication|] eqn:Hind; [reflexivity|].
    unfold errorPath. cbn [emit cbCtx]. rewrite Hz, Hind. reflexivity. }
  split; [exact Heq|]. split.
  - rewrite Heq. cbn [fst].
    erewrite new_events_app by reflexivity. reflexivity.
  - intros rest. cbn [runDispatcher]. rewrite Heq. cbn [fst trace].
    rewrite requests_app. cbn [requests].
    replace (requests (trace w) + 0 - requests (trace w))%nat
      with 0%nat by lia.
    destruct rest; reflexivity.
Qed.

(** C7. A response with error status 2 and no error indication takes the
clean branch: the callback does on it exactly what it does on the same
bindings with status 0, [errors] is unchanged, [retries] does not go down,
and the only requests handed to the engine are more-data restarts from the
start OID (no retry from a computed OID). *)
Theorem noSuchName_is_clean (w : World M) (rsp : Response) :
  errorIndication rsp = None -> errorStatus rsp = 2 ->
  callback w rsp = clean w rsp
  /\ callback w rsp
     = callback w (mkResponse None 0 (errorIndex rsp) (varBindTable rsp)
                              (clock rsp))
  /\ errors (cbCtx (fst (callback w rsp))) = errors (cbCtx w)
  /\ retries (cbCtx w) <= retries (cbCtx (fst (callback w rsp)))
  /\ Forall (loop_event getBulkFlag startOID)
            (new_events w (fst (callback w rsp))).
Proof.
  intros Hind Hst.
  assert (Heq : callback w rsp = clean w rsp).
  { unfold cbFun, is_failure. rewrite Hind, Hst. reflexivity. }
  split; [exact Heq|]. split; [|split; [|split]].
  - rewrite Heq. unfold cbFun, is_failure. cbn. reflexivity.
  - rewrite Heq. apply successPath_keeps_errors.
  - rewrite Heq.
    destruct (successPath_retries w rsp) as [[_ H]|[_ H]]; cbn zeta in H;
      rewrite H; lia.
  - rewrite Heq.
    destruct (successPath_appends_loop_events w rsp) as (evs & Ht & Hfa).
    erewrite new_events_app by exact Ht. exact Hfa.
Qed.

Lemma cbFun_clean (w : World M) (rsp : Response) :
  is_failure rsp = false -> callback w rsp = clean w rsp.
Proof.
  intros Hf. unfold cbFun. rewrite Hf.
  unfold is_failure in Hf. apply orb_false_iff in Hf as [_ Hind].
  destruct (errorIndication rsp); [discriminate | reflexivity].
Qed.

(** ** The stop flag across the bindings of one response *)

Lemma flags_follow_app (carried : bool) (a b : list FormatView) :
  flags_follow stopOID carried (a ++ b)
  <-> flags_follow stopOID carried a
      /\ flags_follow stopOID (carry carried a) b.
Proof.
  revert carried. induction a as [|v a IH]; intros carried; cbn.
  - tauto.
  - rewrite IH. tauto.
Qed.

Lemma body_flags_rel (vb : VarBind) (s : LoopState M) :
  flags_rel stopOID s (fst (body vb s)) (snd (body vb s)).
Proof.
  destruct vb as [oid [v|]], s as [w stopFlag]; unfold flags_rel;
    cbn [walkVarBind fst snd].
  2:{ exists []. rewrite app_nil_r. cbn. split; [reflexivity|].
      split; [exact I | discriminate]. }
  assert (Hmet : eom stopOID oid (Some v) stopFlag
                 = own_stop stopOID oid (removeEnumeration v) || stopFlag).
  { rewrite eom_own_stop. unfold own_stop.
    rewrite tagSet_removeEnumeration. reflexivity. }
  destruct (format dataFileHandler _ _ _ _ _) as [m [line|[[p|]| |msg|msg]]];
    cbn [fst snd emit with_ctx with_module trace cbCtx].
  1: destruct (_ =? 0); cbn [fst snd emit with_ctx with_module trace cbCtx].
  all: repeat rewrite <- app_assoc; eexists; (split; [reflexivity|]);
    cbn [app format_calls flags_follow carry fold_left met seen_oid seen_value
         seen_stopFlag seen_moreData ctx_stopFlag build_context];
    rewrite ?orb_false_r, ?orb_true_r; auto.
Qed.

Lemma walkTable_flags_rel (tbl : list (list VarBind)) (s : LoopState M) :
  flags_rel stopOID s (fst (over_table tbl s)) (snd (over_table tbl s)).
Proof.
  apply walkTable_rule; unfold flags_rel.
  - intros s0. exists []. rewrite app_nil_r. cbn. auto.
  - intros s1 s2 s3 r (e1 & H1 & F1 & C1) (e2 & H2 & F2 & C2).
    exists (e1 ++ e2). rewrite H2, H1, app_assoc. split; [reflexivity|].
    rewrite format_calls_app. rewrite C1 in F2, C2 by reflexivity.
    split.
    + apply flags_follow_app. auto.
    + intros Hr. unfold carry in *. rewrite fold_left_app. auto.
  - apply body_flags_rel.
Qed.

Lemma flags_follow_iff (carried : bool) (pre post : list FormatView)
    (v : FormatView) :
  flags_follow stopOID carried (pre ++ v :: post) ->
  (seen_stopFlag v = true
   <-> carried = true \/ met stopOID v = true
       \/ exists u,
            In u pre /\ (met stopOID u = true \/ seen_moreData u = true)).
Proof.
  revert carried. induction pre as [|u pre IH]; intros carried; cbn.
  - intros [Hv _]. rewrite Hv, orb_true_iff.
    split; [intros [H|H]; auto|].
    intros [H|[H|(u & [] & _)]]; auto.
  - intros [Hu Hrest]. rewrite (IH _ Hrest). rewrite Hu.
    rewrite !orb_true_iff. split.
    + intros [[[H|H]|H]|[H|(x & Hx & Hm)]]; eauto 8.
    + intros [H|[H|(x & [<-|Hx] & Hm)]]; eauto 8.
      destruct Hm; auto.
Qed.

Lemma flags_follow_set (views : list FormatView) :
  flags_follow stopOID true views ->
  Forall (fun u => seen_stopFlag u = true) views.
Proof.
  induction views as [|v views IH]; cbn; [constructor|].
  intros [Hv Hrest]. rewrite orb_true_r in Hv. rewrite Hv in Hrest.
  constructor; auto.
Qed.

Lemma walkTable_flag_stays (tbl : list (list VarBind)) (s : LoopState M) :
  snd s = true -> snd (fst (over_table tbl s)) = true.
Proof.
  refine (walkTable_rule (fun s s' _ => snd s = true -> snd s' = true)
                         _ _ _ tbl s); auto.
  intros [oid [v|]] [w stopFlag]; cbn [walkVarBind fst snd]; intros ->.
  - assert (He : eom stopOID oid (Some v) true = true)
      by (rewrite eom_own_stop; apply orb_true_r).
    rewrite He.
    destruct (format dataFileHandler _ _ _ _ _) as [m [line|[[p|]| |msg|msg]]];
      reflexivity.
  - unfold eom. destruct (_ && _); reflexivity.
Qed.

Lemma flags_follow_carry_set (views : list FormatView) :
  flags_follow stopOID true views -> carry true views = true.
Proof.
  unfold carry. induction views as [|v views IH]; cbn; [reflexivity|].
  intros [Hv Hrest]. rewrite orb_true_r in Hv. rewrite Hv in *.
  exact (IH Hrest).
Qed.

Lemma flags_follow_carry (carried : bool) (views : list FormatView)
    (u : FormatView) :
  flags_follow stopOID carried views -> In u views ->
  seen_stopFlag u = true \/ seen_moreData u = true ->
  carry carried views = true.
Proof.
  revert carried. induction views as [|v views IH]; intros carried;
    cbn [flags_follow In]; [intros _ []|].
  intros [Hv Hrest] [<-|Hin] Hu.
  - assert (Hc : seen_stopFlag v || seen_moreData v = true)
      by (apply orb_true_iff; exact Hu).
    unfold carry. cbn [fold_left]. rewrite Hc in *.
    exact (flags_follow_carry_set _ Hrest).
  - unfold carry. cbn [fold_left]. exact (IH _ Hrest Hin Hu).
Qed.

Lemma body_views (vb : VarBind) (s : LoopState M) :
  snd (body vb s) = None ->
  exists evs,
    trace (fst (fst (body vb s))) = trace (fst s) ++ evs
    /\ map seen_oid (format_calls evs) = [fst vb].
Proof.
  destruct vb as [oid [v|]], s as [w stopFlag]; cbn [walkVarBind fst snd];
    [|discriminate].
  destruct (format dataFileHandler _ _ _ _ _) as [m [line|[[p|]| |msg|msg]]];
    cbn [fst snd emit with_ctx with_module trace cbCtx].
  1: destruct (_ =? 0); cbn [fst snd emit with_ctx with_module trace cbCtx].
  all: try discriminate.
  all: intros _; repeat rewrite <- app_assoc; eexists;
    (split; [reflexivity|]); reflexivity.
Qed.

Lemma walkRow_views (bs : list VarBind) (s : LoopState M) :
  snd (over_row bs s) = None ->
  exists evs,
    trace (fst (fst (over_row bs s))) = trace (fst s) ++ evs
    /\ map seen_oid (format_calls evs) = map fst bs.
Proof.
  revert s. induction bs as [|vb bs IH]; intros s; cbn [walkRow map].
  - intros _. exists []. rewrite app_nil_r. auto.
  - pose proof (body_views vb s) as Hb.
    destruct (body vb s) as [s1 [e|]]; cbn [fst snd] in *; [discriminate|].
    intros Hrest.
    destruct (Hb eq_refl) as (e1 & T1 & V1).
    destruct (IH s1 Hrest) as (e2 & T2 & V2).
    exists (e1 ++ e2).
    rewrite T2, T1, app_assoc, format_calls_app, map_app, V1, V2. auto.
Qed.

(** What the formatter saw during a clean response, and the answer. *)
Lemma successPath_views (w : World M) (rsp : Response) :
  flags_follow stopOID false
               (format_calls (new_events w (fst (clean w rsp))))
  /\ forall answer,
       snd (clean w rsp) = Return answer ->
       answer
       = Some (negb (carry false
                       (format_calls (new_events w (fst (clean w rsp))))))
       /\ map seen_oid (format_calls (new_events w (fst (clean w rsp))))
          = map fst (concat (varBindTable rsp)).
Proof.
  unfold successPath.
  set (w0 := match last_row_first_oid (varBindTable rsp) with
             | Return _ => _
             | Raise _ => _
             end).
  assert (H0 : trace w0 = trace w).
  { unfold w0. destruct (negb (continueOnErrors =? retries (cbCtx w)));
      destruct (last_row_first_oid (varBindTable rsp)); reflexivity. }
  pose proof (walkTable_flags_rel (varBindTable rsp) (w0, false))
    as (evs & Ht & Hff & Hcarry).
  pose proof (walkRow_views (concat (varBindTable rsp)) (w0, false)) as Hv.
  rewrite <- walkTable_concat in Hv.
  destruct (over_table (varBindTable rsp) (w0, false)) as [[w' flag] [e|]];
    cbn [fst snd trace with_ctx] in *; rewrite H0 in *;
    (erewrite new_events_app by exact Ht); (split; [exact Hff|]).
  - intros answer Hanswer. discriminate.
  - intros answer Hanswer. injection Hanswer as <-.
    rewrite (Hcarry eq_refl). split; [reflexivity|].
    destruct (Hv eq_refl) as (evs' & Ht' & Hoids).
    rewrite Ht in Ht'. apply app_inv_head in Ht'. subst evs'. exact Hoids.
Qed.

(** C5 (as the code has it). While a clean response is processed, the
[stopFlag] handed to the formatter with a binding is true exactly when that
binding is at or past the configured stop OID or carries a sentinel value,
or an earlier binding of the same response already was or did, or the
formatter raised MoreData on an earlier binding of the same response.  When
the callback returns, the formatter has been called once for every binding
of the response, in order. *)
Theorem stopFlag_seen_by_formatter (w : World M) (rsp : Response)
    (pre post : list FormatView) (v : FormatView) :
  is_failure rsp = false ->
  format_calls (new_events w (fst (callback w rsp))) = pre ++ v :: post ->
  (seen_stopFlag v = true
   <-> own_stop stopOID (seen_oid v) (seen_value v) = true
       \/ exists u,
            In u pre
            /\ (own_stop stopOID (seen_oid u) (seen_value u) = true
                \/ seen_moreData u = true))
  /\ forall answer,
       snd (callback w rsp) = Return answer ->
       map seen_oid (pre ++ v :: post)
       = map fst (concat (varBindTable rsp)).
Proof.
  intros Hf Hviews.
  rewrite cbFun_clean in * by exact Hf.
  destruct (successPath_views w rsp) as [Hff Hanswer].
  rewrite Hviews in Hff, Hanswer. split.
  - rewrite (@flags_follow_iff false pre post v Hff). fold (met stopOID v).
    split; [intros [H|H]; [discriminate | exact H] | auto].
  - intros answer Ha. exact (proj2 (Hanswer answer Ha)).
Qed.

(** ** What the loops write and count *)

Lemma body_books (vb : VarBind) (s : LoopState M) :
  books (fst s) (fst (fst (body vb s))).
Proof.
  destruct vb as [oid [v|]], s as [w stopFlag]; cbn [walkVarBind fst snd];
    [|apply books_nothing].
  destruct (format dataFileHandler _ _ _ _ _) as [m [line|[[p|]| |msg|msg]]];
    cbn [fst snd].
  1: destruct (_ =? 0) eqn:Hmod.
  all: unfold emit, with_ctx, with_module;
    cbn [cbCtx trace moduleContext fst snd];
    repeat rewrite <- app_assoc; eexists; (split; [reflexivity|]);
    unfold moreData_calls; cbn; repeat split; intros; lia || discriminate.
Qed.

Lemma walkTable_books (tbl : list (list VarBind)) (s : LoopState M) :
  books (fst s) (fst (fst (over_table tbl s))).
Proof.
  refine (walkTable_rule (fun s s' _ => books (fst s) (fst s')) _ _ _ tbl s).
  - intros s0. apply books_nothing.
  - intros s1 s2 s3 _ H1 H2. exact (books_then H1 H2).
  - intros vb s0. apply body_books.
Qed.

Lemma walkTable_writes_returned (tbl : list (list VarBind))
    (s : LoopState M) :
  writes_returned s (fst (over_table tbl s)) (snd (over_table tbl s)).
Proof.
  apply walkTable_rule; unfold writes_returned.
  - intros s0. exists []. rewrite app_nil_r. auto.
  - intros s1 s2 s3 r (e1 & H1 & W1) (e2 & H2 & W2).
    exists (e1 ++ e2). rewrite H2, H1, app_assoc. split; [reflexivity|].
    rewrite written_app, returned_app, W1, W2. reflexivity.
  - intros [oid [v|]] [w stopFlag]; cbn [walkVarBind fst snd];
      [|exists []; rewrite app_nil_r; auto].
    destruct (format dataFileHandler _ _ _ _ _) as [m [line|[[p|]| |msg|msg]]];
      cbn [fst snd emit with_ctx with_module trace cbCtx].
    1: destruct (_ =? 0); cbn [fst snd emit with_ctx with_module trace cbCtx].
    all: repeat rewrite <- app_assoc; eexists; (split; [reflexivity|]);
      reflexivity.
Qed.

Lemma successPath_writes_returned (w : World M) (rsp : Response) :
  written (new_events w (fst (clean w rsp)))
  = returned (new_events w (fst (clean w rsp))).
Proof.
  unfold successPath.
  match goal with
  | |- context [over_table ?t ?s] =>
      pose proof (walkTable_writes_returned t s) as (evs & Ht & Hw);
      destruct (over_table t s) as [[w' flag] [e|]]
  end; cbn [fst snd trace with_ctx] in *;
    (rewrite (@new_events_app M w _ evs);
     [exact Hw|]);
    cbn [fst snd trace with_ctx]; rewrite Ht;
    destruct (negb (continueOnErrors =? retries (cbCtx w)));
    destruct (last_row_first_oid (varBindTable rsp)); reflexivity.
Qed.

(** C8 (as the code has it). When the formatter raises MoreData on a
binding, the loop body sets [count] to 0, adds one to [iteration], leaves
[total] alone, writes nothing, hands the engine one request, for the start
OID, and sets [stopFlag].  The flag then stays set over whatever remains of
the response, and the remaining bindings are not abandoned: unless one of
them makes the loops raise, each of them is handed to the formatter, in
order and with [stopFlag] true, and every line the formatter returns for
them is written and counted in [total], and in [count] as long as MoreData
is not raised again.  A callback during which the formatter raised MoreData
does not answer true, so the engine does not continue the walk it was on;
when it returns, it answers false after one formatter call per binding of
the response. *)
Theorem moreData_restarts_iteration (w : World M) (stopFlag : bool)
    (oid : OID) (v : Value) (m' : M) (period : option Q) :
  format dataFileHandler oid (removeEnumeration v)
         (build_context startOID stopOID (cbCtx w) oid (removeEnumeration v)
                        (eom stopOID oid (Some v) stopFlag))
         variationModule (moduleContext w)
  = (m', Raise (MoreDataNotification period)) ->
  (exists w',
      body (oid, Some v) (w, stopFlag) = ((w', true), None)
      /\ count (cbCtx w') = 0
      /\ iteration (cbCtx w') = iteration (cbCtx w) + 1
      /\ total (cbCtx w') = total (cbCtx w)
      /\ polled (new_events w w') = [startOID]
      /\ written (new_events w w') = []
      /\ forall tbl,
           let s' := over_table tbl (w', true) in
           let evs := new_events w' (fst (fst s')) in
           snd (fst s') = true
           /\ Forall (fun u => seen_stopFlag u = true) (format_calls evs)
           /\ (snd s' = None ->
               map seen_oid (format_calls evs) = map fst (concat tbl))
           /\ written evs = returned evs
           /\ total (cbCtx (fst (fst s')))
              = total (cbCtx w') + Z.of_nat (length (returned evs))
           /\ (moreData_calls evs = 0%nat ->
               count (cbCtx (fst (fst s')))
               = Z.of_nat (length (returned evs))))
  /\ forall (w0 : World M) (rsp : Response) (pre post : list FormatView)
            (u : FormatView),
       is_failure rsp = false ->
       format_calls (new_events w0 (fst (callback w0 rsp)))
       = pre ++ u :: post ->
       seen_moreData u = true ->
       snd (callback w0 rsp) <> Return (Some true)
       /\ Forall (fun x => seen_stopFlag x = true) post
       /\ written (new_events w0 (fst (callback w0 rsp)))
          = returned (new_events w0 (fst (callback w0 rsp)))
       /\ forall answer,
            snd (callback w0 rsp) = Return answer ->
            answer = Some false
            /\ map seen_oid (pre ++ u :: post)
               = map fst (concat (varBindTable rsp)).
Proof.
  intros Hfmt. split.
  2:{ intros w0 rsp pre post u Hf Hcalls Hu.
      rewrite cbFun_clean in * by exact Hf.
      destruct (successPath_views w0 rsp) as [Hff Hans].
      rewrite Hcalls in Hff, Hans.
      assert (Hin : In u (pre ++ u :: post))
        by (apply in_or_app; right; left; reflexivity).
      pose proof (flags_follow_carry _ _ _ Hff Hin (or_intror Hu)) as Hcarry.
      split; [|split; [|split]].
      - intros Hanswer. destruct (Hans _ Hanswer) as [Heq _].
        rewrite Hcarry in Heq. discriminate.
      - apply flags_follow_app in Hff as [_ Hpost].
        cbn [flags_follow] in Hpost. destruct Hpost as [_ Hpost].
        rewrite Hu, orb_true_r in Hpost.
        exact (flags_follow_set _ Hpost).
      - apply successPath_writes_returned.
      - intros answer Hanswer. destruct (Hans _ Hanswer) as [Heq Hoids].
        rewrite Hcarry in Heq. split; [exact Heq | exact Hoids]. }
  set (value := removeEnumeration v) in *.
  set (context := build_context startOID stopOID (cbCtx w) oid value
                                (eom stopOID oid (Some v) stopFlag)) in *.
  set (evs := FormatCall oid value context
                         (Raise (MoreDataNotification period))
              :: match period with
                 | Some p => [LogInfo (DumpedWaiting (total (cbCtx w)) p);
                              Sleep p]
                 | None => []
                 end ++ [SendVarBinds getBulkFlag startOID]).
  exists (mkWorld (set_iteration (set_count (cbCtx w) 0)
                                 (iteration (cbCtx w) + 1))
                  m' (trace w ++ evs)).
  split.
  { cbn [walkVarBind]. fold value. fold context. rewrite Hfmt. unfold evs.
    destruct period; unfold emit, with_ctx, with_module;
      cbn [cbCtx trace moduleContext]; repeat rewrite <- app_assoc;
      reflexivity. }
  split; [reflexivity|]. split; [reflexivity|]. split; [reflexivity|].
  split.
  { erewrite new_events_app by reflexivity. unfold evs.
    destruct period; reflexivity. }
  split.
  { erewrite new_events_app by reflexivity. unfold evs.
    destruct period; reflexivity. }
  intros tbl.
  set (w' := mkWorld (set_iteration (set_count (cbCtx w) 0)
                                    (iteration (cbCtx w) + 1))
                     m' (trace w ++ evs)).
  cbn zeta.
  pose proof (walkTable_flags_rel tbl (w', true)) as (evs1 & Ht & Hff & _).
  pose proof (walkTable_writes_returned tbl (w', true))
    as (evs2 & Ht2 & Hwr).
  pose proof (walkTable_books tbl (w', true))
    as (evs3 & Ht3 & Htotal & _ & _ & Hcount).
  pose proof (walkRow_views (concat tbl) (w', true)) as Hviews.
  rewrite <- walkTable_concat in Hviews.
  cbn [fst snd] in Ht, Hff, Ht2, Ht3, Htotal, Hcount, Hviews.
  rewrite Ht in Ht2, Ht3. apply app_inv_head in Ht2, Ht3. subst evs2 evs3.
  rewrite (@new_events_app M w' _ evs1 Ht).
  split; [apply walkTable_flag_stays; reflexivity|].
  split; [apply flags_follow_set; exact Hff|].
  split.
  { intros Hnone. destruct (Hviews Hnone) as (evs' & Ht' & Hoids).
    rewrite Ht in Ht'. apply app_inv_head in Ht'. subst evs'. exact Hoids. }
  split; [exact Hwr|]. rewrite <- Hwr.
  split; [exact Htotal|].
  intros Hmd. rewrite (Hcount Hmd). reflexivity.
Qed.
End RecorderFacts.

(** ** Examples on concrete runs *)

Lemma retries_within_budget_witness :
  0 <= retries
         (cbCtx
            (invocations Python3 false 3 sample_start (Some sample_stop) None
               (sample_recorder unit)
               (initial_world false 3 sample_start tt 0)
               [timeout_response;
                clean_response [[int_binding [1; 3; 6; 1; 2; 1; 1; 0] 7]]]))
  <= 3.
Proof.
  exact (proj1 (proj1 (proj2 (@retries_within_budget unit Python3 false 3
                                sample_start (Some sample_stop) None
                                (sample_recorder unit) tt 0%Q
                                [timeout_response;
                                 clean_response
                                   [[int_binding [1; 3; 6; 1; 2; 1; 1; 0] 7]]]
                                timeout_response))
                      ltac:(lia))).
Defined.

(** C6, the claim as stated fails: [main] takes any integer as the budget.
With --continue-on-errors=-1, [retries] starts at -1, outside the (empty)
interval from 0 to the budget; a timeout is retried all the same and lowers
it to -2, under either interpreter. *)
Lemma negative_budget_leaves_interval :
  retries (cbCtx (initial_world false (-1) sample_start tt 0)) = -1
  /\ retries
       (cbCtx (fst (cbFun Python3 false (-1) sample_start (Some sample_stop)
                      None (sample_recorder unit)
                      (initial_world false (-1) sample_start tt 0)
                      timeout_response)))
     = -2
  /\ polled
       (trace (fst (cbFun Python3 false (-1) sample_start (Some sample_stop)
                      None (sample_recorder unit)
                      (initial_world false (-1) sample_start tt 0)
                      timeout_response)))
     = [sample_start; [1; 3; 6; 1; 2; 2]]
  /\ retries
       (cbCtx (fst (cbFun Python2 false (-1) sample_start (Some sample_stop)
                      None (sample_recorder unit)
                      (initial_world false (-1) sample_start tt 0)
                      timeout_response)))
     = -2
  /\ polled
       (trace (fst (cbFun Python2 false (-1) sample_start (Some sample_stop)
                      None (sample_recorder unit)
                      (initial_world false (-1) sample_start tt 0)
                      timeout_response)))
     = [sample_start; [1; 3; 6; 1; 2; 2]].
Proof. vm_compute. repeat split. Qed.

Lemma consumed_ratio_division_is_safe_witness :
  snd (sample_cbFun 3
         (invocations Python3 false 3 sample_start (Some sample_stop) None
            (sample_recorder unit)
            (initial_world false 3 sample_start tt 0) [timeout_response])
         timeout_response)
  <> Raise ZeroDivisionError.
Proof.
  exact (proj1 (@consumed_ratio_division_is_safe unit Python3 false 3
                  sample_start (Some sample_stop) None (sample_recorder unit)
                  tt 0%Q [timeout_response] timeout_response)).
Defined.

(** C9, the last clause of the claim as stated fails: the budget is not at
least 1 where the expression is evaluated.  With --continue-on-errors=-1 the
first timeout finds [retries] at -1, which is nonzero, and the callback
evaluates the ratio with the divisor -1: it is 0, the last sub-identifier of
the start OID is incremented, and the request for the result goes out. *)
Lemma negative_budget_is_the_divisor :
  retries (cbCtx (initial_world false (-1) sample_start tt 0)) = -1
  /\ floor_div ((-1 - -1) * 10) (-1) = Return (inject_Z 0)
  /\ (exists ratio,
        true_div ((-1 - -1) * 10) (-1) = Return ratio /\ (ratio == 0)%Q)
  /\ fuzzyNextOID Python3 (-1) (-1) sample_start = Return [1; 3; 6; 1; 2; 2]
  /\ fuzzyNextOID Python2 (-1) (-1) sample_start = Return [1; 3; 6; 1; 2; 2]
  /\ polled
       (new_events (initial_world false (-1) sample_start tt 0)
          (fst (sample_cbFun (-1) (initial_world false (-1) sample_start tt 0)
                  timeout_response)))
     = [[1; 3; 6; 1; 2; 2]]
  /\ ~ 1 <= -1.
Proof.
  split; [reflexivity|]. split; [reflexivity|]. split.
  - eexists. split; [vm_compute; reflexivity | reflexivity].
  - split; [vm_compute; reflexivity|]. split; [vm_compute; reflexivity|].
    split; [vm_compute; reflexivity | lia].
Qed.

Lemma exhausted_budget_ends_chain_witness :
  polled (new_events (initial_world false 0 sample_start tt 0)
            (fst (sample_cbFun 0 (initial_world false 0 sample_start tt 0)
                    timeout_response)))
  = [].
Proof.
  apply (@exhausted_budget_ends_chain unit Python3 false 0 sample_start
           (Some sample_stop) None (sample_recorder unit)
           (initial_world false 0 sample_start tt 0) timeout_response);
    reflexivity.
Defined.

(** C3, the claim as stated fails: with the budget at zero (the default) a
timed-out request is counted and logged, but no request follows it, from the
last good OID or any other; the callback answers [None], and the run ends
with the one request [main] issued, whatever the agent would have answered. *)
Lemma exhausted_budget_issues_no_poll :
  retries (cbCtx (initial_world false 0 sample_start tt 0)) = 0
  /\ snd (sample_cbFun 0 (initial_world false 0 sample_start tt 0)
            timeout_response) = Return None
  /\ polled (new_events (initial_world false 0 sample_start tt 0)
               (fst (sample_cbFun 0 (initial_world false 0 sample_start tt 0)
                       timeout_response))) = []
  /\ errors (cbCtx (fst (sample_cbFun 0
                           (initial_world false 0 sample_start tt 0)
                           timeout_response))) = 1
  /\ polled (trace (main Python3 false 0 sample_start (Some sample_stop) None
                      (sample_recorder unit) tt 0
                      [timeout_response;
                       clean_response
                         [[int_binding [1; 3; 6; 1; 2; 1; 1; 0] 7]]]))
     = [sample_start]
  /\ written (trace (main Python3 false 0 sample_start (Some sample_stop) None
                       (sample_recorder unit) tt 0
                       [timeout_response;
                        clean_response
                          [[int_binding [1; 3; 6; 1; 2; 1; 1; 0] 7]]]))
     = [].
Proof. vm_compute. repeat split. Qed.

Lemma noSuchName_is_clean_witness :
  errors (cbCtx (fst (sample_cbFun 3 (initial_world false 3 sample_start tt 0)
                        (mkResponse None 2 1
                           [[int_binding [1; 3; 6; 1; 2; 1; 1; 0] 7]] 1))))
  = errors (cbCtx (initial_world false 3 sample_start tt 0)).
Proof.
  apply (@noSuchName_is_clean unit Python3 false 3 sample_start (Some
      sample_stop)
           None (sample_recorder unit)
           (initial_world false 3 sample_start tt 0)
           (mkResponse None 2 1 [[int_binding [1; 3; 6; 1; 2; 1; 1; 0] 7]] 1));
    reflexivity.
Defined.

(** C5, the claim as stated fails: the flag is set once per response and
never cleared.  In a GETBULK response whose first binding lies past the stop
OID and whose second lies before it, and in one whose first binding drew
MoreData from the variation module, the second binding is formatted with
[stopFlag] true although it is neither past the stop OID nor a sentinel. *)
Lemma stopFlag_sticks_within_response :
  map (fun v => (seen_oid v, seen_stopFlag v,
                 own_stop (Some sample_stop) (seen_oid v) (seen_value v)))
      (format_calls
         (new_events (initial_world false 0 sample_start tt 0)
            (fst (sample_cbFun 0 (initial_world false 0 sample_start tt 0)
                    (clean_response
                       [[int_binding [1; 3; 6; 1; 2; 2; 1; 0] 1];
                        [int_binding [1; 3; 6; 1; 2; 1; 9; 0] 2]])))))
  = [([1; 3; 6; 1; 2; 2; 1; 0], true, true);
     ([1; 3; 6; 1; 2; 1; 9; 0], true, false)]
  /\ map (fun v => (seen_oid v, seen_stopFlag v,
                    own_stop (Some sample_stop) (seen_oid v) (seen_value v)))
         (format_calls
            (new_events (initial_world true 0 sample_start 0%nat 0)
               (fst (sample_cbFun_restart
                       (initial_world true 0 sample_start 0%nat 0)
                       (clean_response
                          [[int_binding [1; 3; 6; 1; 2; 1; 1; 0] 5];
                           [int_binding [1; 3; 6; 1; 2; 1; 2; 0] 6]])))))
     = [([1; 3; 6; 1; 2; 1; 1; 0], false, false);
        ([1; 3; 6; 1; 2; 1; 2; 0], true, false)].
Proof. vm_compute. split; reflexivity. Qed.

Lemma stopFlag_seen_by_formatter_witness :
  seen_stopFlag
    (mkFormatView true [1; 3; 6; 1; 2; 1; 9; 0]
                  (mkValue Integer32 (PInt 2)) false) = true
  <-> own_stop (Some sample_stop) [1; 3; 6; 1; 2; 1; 9; 0]
               (mkValue Integer32 (PInt 2)) = true
      \/ exists u,
           In u [mkFormatView true [1; 3; 6; 1; 2; 2; 1; 0]
                              (mkValue Integer32 (PInt 1)) false]
           /\ (own_stop (Some sample_stop) (seen_oid u) (seen_value u) = true
               \/ seen_moreData u = true).
Proof.
  refine (proj1 (@stopFlag_seen_by_formatter unit Python3 false 0 sample_start
           (Some sample_stop) None (sample_recorder unit)
           (initial_world false 0 sample_start tt 0)
           (clean_response
              [[int_binding [1; 3; 6; 1; 2; 2; 1; 0] 1];
               [int_binding [1; 3; 6; 1; 2; 1; 9; 0] 2]])
           [mkFormatView true [1; 3; 6; 1; 2; 2; 1; 0]
                         (mkValue Integer32 (PInt 1)) false]
           []
           (mkFormatView true [1; 3; 6; 1; 2; 1; 9; 0]
                         (mkValue Integer32 (PInt 2)) false) eq_refl eq_refl)).
Defined.

(** C8, the claim as stated fails: the rest of the batch is not abandoned.
The module draws MoreData on the first binding of a response; the second
binding is formatted all the same and written, so that the callback ends
with [count] at 1, not 0. *)
Lemma moreData_batch_not_abandoned :
  map seen_moreData
      (format_calls
         (new_events (initial_world true 0 sample_start 0%nat 0)
            (fst (sample_cbFun_restart
                    (initial_world true 0 sample_start 0%nat 0)
                    (clean_response
                       [[int_binding [1; 3; 6; 1; 2; 1; 1; 0] 5];
                        [int_binding [1; 3; 6; 1; 2; 1; 2; 0] 6]])))))
  = [true; false]
  /\ written
       (new_events (initial_world true 0 sample_start 0%nat 0)
          (fst (sample_cbFun_restart
                  (initial_world true 0 sample_start 0%nat 0)
                  (clean_response
                     [[int_binding [1; 3; 6; 1; 2; 1; 1; 0] 5];
                      [int_binding [1; 3; 6; 1; 2; 1; 2; 0] 6]]))))
     = ["1.3.6.1.2.1.2.0|2|6"%string]
  /\ count (cbCtx (fst (sample_cbFun_restart
                          (initial_world true 0 sample_start 0%nat 0)
                          (clean_response
                             [[int_binding [1; 3; 6; 1; 2; 1; 1; 0] 5];
                              [int_binding [1; 3; 6; 1; 2; 1; 2; 0] 6]]))))
     = 1.
Proof. vm_compute. repeat split. Qed.

Lemma moreData_restarts_iteration_witness :
  exists w',
    walkVarBind true sample_start (Some sample_stop) (Some restart_once)
                (sample_recorder nat)
                (int_binding [1; 3; 6; 1; 2; 1; 1; 0] 5)
                (mkWorld (mkCbCtx 49 49 0 0 0 0 sample_start) 0%nat [], false)
    = ((w', true), None)
    /\ count (cbCtx w') = 0
    /\ iteration (cbCtx w') = 1
    /\ polled (trace w') = [sample_start].
Proof.
  destruct (proj1 (@moreData_restarts_iteration nat Python3 true 0 sample_start
                     (Some sample_stop) (Some restart_once)
                     (sample_recorder nat)
                     (mkWorld (mkCbCtx 49 49 0 0 0 0 sample_start) 0%nat [])
                     false [1; 3; 6; 1; 2; 1; 1; 0]
                     (mkValue Integer32 (PInt 5))
                     1%nat (Some (inject_Z 2)) eq_refl))
    as (w' & Hbody & Hcount & Hiter & _ & Hpolled & _).
  exists w'. split; [exact Hbody|]. split; [exact Hcount|].
  split; [exact Hiter|]. exact Hpolled.
Defined.

(** ** The snmprec record types *)

Section SnmprecFacts.
Variable M : Type.
Variable interpreter : Interpreter.
Variable base_formatValue : OID -> Value -> bool -> Triple.
Variable build : string -> string -> string -> string.
Variable getBulkFlag : bool.
Variable continueOnErrors : Z.
Variable startOID : OID.
Variable stopOID : option OID.

Local Abbreviation recorder := (SnmprecRecord M base_formatValue build).

Lemma format_without_module (oid : OID) (value : Value) (context : Context)
    (m : M) :
  format recorder oid value context None m
  = (m, if ctx_stopFlag context then Raise NoDataNotification
        else Return (let '(textOid, textTag, textValue) :=
                       base_formatValue oid value false in
                     build textOid textTag textValue)).
Proof.
  cbn [format SnmprecRecord]. unfold SnmprecRecord_format, formatValue.
  destruct (base_formatValue oid value false) as [[textOid textTag] textValue].
  destruct (ctx_stopFlag context); reflexivity.
Qed.

(** C10. For the snmprec record types, a binding whose [stopFlag] is true
(it or an earlier binding of the response met the stop test) is dropped when
no variation module is configured: [formatValue] raises NoDataNotification,
nothing is written, [cbCtx] and the module state stay as they were.  With a
variation module the binding goes through the module's record handler
instead, which sees the same [stopFlag]; when the handler returns a triple,
the line built from it is written and counted. *)
Theorem snmprec_stopped_binding (w : World M) (stopFlag : bool) (oid : OID)
    (v : Value) :
  eom stopOID oid (Some v) stopFlag = true ->
  walkVarBind getBulkFlag startOID stopOID None recorder (oid, Some v)
              (w, stopFlag)
  = ((emit w (FormatCall oid (removeEnumeration v)
                (build_context startOID stopOID (cbCtx w) oid
                               (removeEnumeration v) true)
                (Raise NoDataNotification)),
      true), None)
  /\ forall module : VariationModule M,
       (exists textOid textTag textValue context,
           ctx_stopFlag context = true
           /\ formatValue base_formatValue oid (removeEnumeration v)
                (build_context startOID stopOID (cbCtx w) oid
                               (removeEnumeration v) true)
                (Some module) (moduleContext w)
              = record module textOid textTag textValue context
                       (moduleContext w))
       /\ forall m' textOid textTag textValue,
            formatValue base_formatValue oid (removeEnumeration v)
              (build_context startOID stopOID (cbCtx w) oid
                             (removeEnumeration v) true)
              (Some module) (moduleContext w)
            = (m', Return (textOid, textTag, textValue)) ->
            exists w',
              walkVarBind getBulkFlag startOID stopOID (Some module) recorder
                          (oid, Some v) (w, stopFlag)
              = ((w', true), None)
              /\ written (new_events w w') = [build textOid textTag textValue]
              /\ count (cbCtx w') = count (cbCtx w) + 1
              /\ total (cbCtx w') = total (cbCtx w) + 1
              /\ moduleContext w' = m'.
Proof.
  intros Hflag. split.
  - cbn [walkVarBind]. rewrite Hflag, format_without_module.
    cbn [ctx_stopFlag build_context]. destruct w; reflexivity.
  - intros module. split.
    + unfold formatValue.
      destruct (base_formatValue oid (removeEnumeration v) false)
        as [[textOid textTag] textValue].
      destruct (base_formatValue oid (removeEnumeration v) true)
        as [[plainOid plainTag] plainValue].
      destruct (negb (String.eqb plainTag textTag));
        do 4 eexists; (split; [|reflexivity]); reflexivity.
    + intros m' textOid textTag textValue Hfmt.
      set (context := build_context startOID stopOID (cbCtx w) oid
                                    (removeEnumeration v) true) in *.
      set (line := build textOid textTag textValue).
      set (c1 := set_total (set_count (cbCtx w) (count (cbCtx w) + 1))
                           (total (cbCtx w) + 1)).
      set (evs := FormatCall oid (removeEnumeration v) context (Return line)
                  :: OutputWrite line
                  :: if count c1 mod 100 =? 0
                     then [LogInfo (OIDsDumped (iteration c1) (count c1))]
                     else []).
      exists (mkWorld c1 m' (trace w ++ evs)).
      split; [|split; [|split; [|split]]]; try reflexivity.
      * cbn [walkVarBind]. rewrite Hflag. fold context.
        cbn [format SnmprecRecord]. unfold SnmprecRecord_format.
        rewrite Hfmt. fold line.
        unfold emit, with_ctx, with_module. cbn [cbCtx trace moduleContext].
        unfold evs, c1.
        cbn [count total set_count set_total].
        destruct ((count (cbCtx w) + 1) mod 100 =? 0);
          cbn [cbCtx trace moduleContext];
          repeat rewrite <- app_assoc; reflexivity.
      * erewrite new_events_app by reflexivity. unfold evs.
        destruct (count c1 mod 100 =? 0); reflexivity.
Qed.

(** ** A clean walk with the snmprec types and no variation module *)

Local Abbreviation body :=
  (walkVarBind getBulkFlag startOID stopOID None recorder).
Local Abbreviation over_row :=
  (walkRow getBulkFlag startOID stopOID None recorder).
Local Abbreviation over_table :=
  (walkTable getBulkFlag startOID stopOID None recorder).
Local Abbreviation callback :=
  (cbFun interpreter getBulkFlag continueOnErrors startOID stopOID None
      recorder).

Lemma recorded_nothing (w : World M) : recorded [] w w.
Proof.
  exists []. rewrite app_nil_r. cbn. repeat split; lia.
Qed.

Lemma recorded_then (l1 l2 : list string) (w1 w2 w3 : World M) :
  recorded l1 w1 w2 -> recorded l2 w2 w3 -> recorded (l1 ++ l2) w1 w3.
Proof.
  intros (e1 & T1 & W1 & R1 & C1 & A1 & E1 & F1)
         (e2 & T2 & W2 & R2 & C2 & A2 & E2 & F2).
  exists (e1 ++ e2). rewrite T2, T1, app_assoc, written_app, requests_app.
  rewrite length_app, Nat2Z.inj_add.
  repeat split; try congruence; lia.
Qed.

Lemma body_data (vb : VarBind) (w : World M) :
  data_binding stopOID vb = true ->
  exists w', body vb (w, false) = ((w', false), None)
             /\ recorded [line_of base_formatValue build vb] w w'.
Proof.
  destruct vb as [oid [v|]]; cbn [data_binding line_of]; [|discriminate].
  intros Hdata. apply negb_true_iff in Hdata.
  assert (Hflag : eom stopOID oid (Some v) false = false)
    by (rewrite eom_own_stop, Hdata; reflexivity).
  set (line := snmprec_line base_formatValue build oid v).
  set (c1 := set_total (set_count (cbCtx w) (count (cbCtx w) + 1))
                       (total (cbCtx w) + 1)).
  set (evs := FormatCall oid (removeEnumeration v)
                (build_context startOID stopOID (cbCtx w) oid
                               (removeEnumeration v) false) (Return line)
              :: OutputWrite line
              :: if (count (cbCtx w) + 1) mod 100 =? 0
                 then [LogInfo (OIDsDumped (iteration c1) (count c1))]
                 else []).
  exists (mkWorld c1 (moduleContext w) (trace w ++ evs)). split.
  - cbn [walkVarBind]. rewrite Hflag, format_without_module.
    cbn [ctx_stopFlag build_context].
    fold (snmprec_line base_formatValue build oid v). fold line.
    unfold emit, with_ctx, with_module. cbn [cbCtx trace moduleContext].
    unfold evs, c1. cbn [count total set_count set_total].
    destruct ((count (cbCtx w) + 1) mod 100 =? 0);
      cbn [cbCtx trace moduleContext];
      repeat rewrite <- app_assoc; reflexivity.
  - exists evs. split; [reflexivity|]. unfold evs.
    destruct ((count (cbCtx w) + 1) mod 100 =? 0); cbn;
      repeat split; lia.
Qed.

Lemma body_stop (vb : VarBind) (w : World M) (stopFlag : bool) :
  stop_binding stopOID vb = true ->
  exists w', body vb (w, stopFlag) = ((w', true), None) /\ recorded [] w w'.
Proof.
  destruct vb as [oid [v|]]; cbn [stop_binding]; [|discriminate].
  intros Hstop.
  assert (Hflag : eom stopOID oid (Some v) stopFlag = true)
    by (rewrite eom_own_stop, Hstop; reflexivity).
  eexists. split.
  - cbn [walkVarBind]. rewrite Hflag, format_without_module.
    cbn [ctx_stopFlag build_context]. reflexivity.
  - eexists. split; [reflexivity|]. cbn. repeat split; lia.
Qed.

Lemma walkRow_data (bs : list VarBind) (w : World M) :
  forallb (data_binding stopOID) bs = true ->
  exists w', over_row bs (w, false) = ((w', false), None)
             /\ recorded (map (line_of base_formatValue build) bs) w w'.
Proof.
  revert w. induction bs as [|vb bs IH]; intros w; cbn [forallb map walkRow].
  - intros _. exists w. split; [reflexivity | apply recorded_nothing].
  - intros H. apply andb_true_iff in H as [Hvb Hbs].
    destruct (@body_data vb w Hvb) as (w1 & -> & R1).
    destruct (IH w1 Hbs) as (w2 & -> & R2).
    exists w2. split; [reflexivity|].
    exact (@recorded_then [line_of base_formatValue build vb]
                          (map (line_of base_formatValue build) bs)
                          w w1 w2 R1 R2).
Qed.

Lemma walkRow_data_then_stop (bs : list VarBind) (sb : VarBind)
    (w : World M) :
  forallb (data_binding stopOID) bs = true -> stop_binding stopOID sb = true ->
  exists w', over_row (bs ++ [sb]) (w, false) = ((w', true), None)
             /\ recorded (map (line_of base_formatValue build) bs) w w'.
Proof.
  intros Hbs Hsb. rewrite walkRow_app.
  destruct (@walkRow_data bs w Hbs) as (w1 & -> & R1).
  cbn [walkRow].
  destruct (@body_stop sb w1 false Hsb) as (w2 & -> & R2).
  exists w2. split; [reflexivity|].
  rewrite <- (app_nil_r (map (line_of base_formatValue build) bs)).
  exact (@recorded_then (map (line_of base_formatValue build) bs) []
                        w w1 w2 R1 R2).
Qed.

Lemma recorded_with_ctx (w : World M) (c : CbCtx) :
  count c = count (cbCtx w) -> total c = total (cbCtx w) ->
  errors c = errors (cbCtx w) -> retries c = retries (cbCtx w) ->
  recorded [] w (with_ctx w c).
Proof.
  intros Hc Ht He Hr. exists []. cbn [with_ctx trace cbCtx].
  rewrite app_nil_r. cbn. repeat split; lia.
Qed.

(** A clean response: the walk up to the answer of the callback. *)
Lemma callback_clean (w : World M) (rsp : Response) (lines : list string)
    (flag : bool) :
  is_failure rsp = false -> retries (cbCtx w) = continueOnErrors ->
  (forall w0, exists w1,
      over_row (bindings rsp) (w0, false) = ((w1, flag), None)
      /\ recorded lines w0 w1) ->
  exists w', callback w rsp = (w', Return (Some (negb flag)))
             /\ recorded lines w w'.
Proof.
  intros Hf Hr Hwalk. rewrite cbFun_clean by exact Hf.
  unfold successPath. rewrite Hr, Z.eqb_refl. cbn [negb].
  set (w0 := match last_row_first_oid (varBindTable rsp) with
             | Return oid => with_ctx w (set_lastOID (cbCtx w) oid)
             | Raise _ => w
             end).
  assert (R0 : recorded [] w w0).
  { unfold w0. destruct (last_row_first_oid (varBindTable rsp)).
    - apply recorded_with_ctx; reflexivity.
    - apply recorded_nothing. }
  rewrite walkTable_concat. fold (bindings rsp).
  destruct (Hwalk w0) as (w1 & -> & R1).
  eexists. split; [reflexivity|].
  rewrite <- (app_nil_r lines).
  refine (@recorded_then lines [] w w1 _ _ _).
  - exact (@recorded_then [] lines w w0 w1 R0 R1).
  - apply recorded_with_ctx; reflexivity.
Qed.

Lemma recorded_requests (lines : list string) (w w' : World M) :
  recorded lines w w' ->
  (requests (trace w') - requests (trace w))%nat = 0%nat.
Proof.
  intros (evs & Ht & _ & Hr & _). rewrite Ht, requests_app, Hr. lia.
Qed.

Lemma runDispatcher_data (before rest : list Response) (w : World M) :
  retries (cbCtx w) = continueOnErrors ->
  Forall (data_response stopOID) before ->
  exists w1,
    runDispatcher interpreter getBulkFlag continueOnErrors startOID stopOID
        None recorder
                  1 w (before ++ rest)
    = runDispatcher interpreter getBulkFlag continueOnErrors startOID stopOID
        None
                    recorder 1 w1 rest
    /\ recorded (map (line_of base_formatValue build)
                     (flat_map bindings before)) w w1
    /\ retries (cbCtx w1) = continueOnErrors.
Proof.
  revert w. induction before as [|rsp before IH]; intros w Hr Hall.
  - exists w. split; [reflexivity|]. split; [apply recorded_nothing | exact Hr].
  - apply Forall_cons_iff in Hall as [[Hf Hdata] Hall'].
    destruct (@callback_clean w rsp
                (map (line_of base_formatValue build) (bindings rsp))
                false Hf Hr)
      as (w1 & Hcb & R1).
    { intros w0. apply walkRow_data. exact Hdata. }
    assert (Hr1 : retries (cbCtx w1) = continueOnErrors).
    { destruct R1 as (evs & _ & _ & _ & _ & _ & _ & H). congruence. }
    destruct (IH w1 Hr1 Hall') as (w2 & Hrun & R2 & Hr2).
    exists w2. split; [|split; [|exact Hr2]].
    + cbn [app runDispatcher]. rewrite Hcb.
      rewrite (recorded_requests R1). cbn [negb Nat.add]. exact Hrun.
    + cbn [flat_map]. rewrite map_app.
      exact (@recorded_then _ _ w w1 w2 R1 R2).
Qed.

(** C4 (what the code does). A clean walk with an snmprec record type and
no variation module: the agent's responses hold [data] bindings below the
stop test, in any batching, and then the sentinel binding that meets it.
Every data binding is written, once and in order, with no error counted, and
the walk ends at the sentinel whatever else the agent might send; but the
closing summary reports twice the number of records written, since [total]
was raised with every record and the [finally] block adds [count] to it once
more.  In the scenario of the claim: five records, summary 10. *)
Theorem clean_walk_summary (m : M) (now : Q) (before after : list Response)
    (final : Response) (final_data : list VarBind) (sentinel : VarBind) :
  Forall (data_response stopOID) before ->
  is_failure final = false ->
  bindings final = final_data ++ [sentinel] ->
  forallb (data_binding stopOID) final_data = true ->
  stop_binding stopOID sentinel = true ->
  let data := flat_map bindings before ++ final_data in
  let w := main interpreter getBulkFlag continueOnErrors startOID stopOID None
      recorder
                m now (before ++ final :: after) in
  written (trace w) = map (line_of base_formatValue build) data
  /\ polled (trace w) = [startOID]
  /\ count (cbCtx w) = Z.of_nat (length data)
  /\ total (cbCtx w) = 2 * Z.of_nat (length data)
  /\ errors (cbCtx w) = 0
  /\ exists t,
       trace w = t ++ [LogInfo (Summary (2 * Z.of_nat (length data)) 0)].
Proof.
  intros Hbefore Hf Hfinal Hdata Hstop data w.
  set (w0 := initial_world getBulkFlag continueOnErrors startOID m now).
  destruct (@runDispatcher_data before (final :: after) w0 eq_refl Hbefore)
    as (w1 & Hrun & R1 & Hr1).
  destruct (@callback_clean w1 final
              (map (line_of base_formatValue build) final_data) true Hf Hr1)
    as (w2 & Hcb & R2).
  { intros w'. rewrite Hfinal. apply walkRow_data_then_stop; assumption. }
  pose proof (@recorded_then _ _ w0 w1 w2 R1 R2) as R.
  rewrite <- map_app in R. fold data in R.
  assert (Hw : w = main_finally w2).
  { unfold w, main. fold w0. rewrite Hrun. cbn [runDispatcher].
    rewrite Hcb. rewrite (recorded_requests R2). cbn [negb Nat.add].
    destruct after; reflexivity. }
  destruct R as (evs & Ht & Hwr & Hrq & Hc & Htot & He & _).
  cbn [w0 initial_world initial_cbCtx cbCtx trace count total errors] in *.
  rewrite length_map in Hc, Htot.
  rewrite Hw. unfold main_finally, emit, with_ctx.
  cbn [cbCtx trace set_total count total errors].
  rewrite Ht, Hc, Htot, He.
  split; [|split; [|split; [|split; [|split]]]].
  - rewrite !written_app, Hwr. cbn. apply app_nil_r.
  - rewrite !polled_app. cbn.
    assert (Hp : polled evs = []).
    { rewrite requests_polled in Hrq. destruct (polled evs); [reflexivity|].
      discriminate. }
    rewrite Hp. reflexivity.
  - reflexivity.
  - lia.
  - reflexivity.
  - eexists. f_equal. f_equal. f_equal. f_equal. lia.
Qed.
End SnmprecFacts.

Lemma snmprec_stopped_binding_witness :
  walkVarBind false sample_start (Some sample_stop) None
              (sample_recorder unit) scenario1_sentinel
              (initial_world false 0 sample_start tt 0, false)
  = ((emit (initial_world false 0 sample_start tt 0)
           (FormatCall sample_stop (mkValue EndOfMibView PEmpty)
              (build_context sample_start (Some sample_stop)
                 (initial_cbCtx 0 sample_start 0) sample_stop
                 (mkValue EndOfMibView PEmpty) true)
              (Raise NoDataNotification)),
      true), None)
  /\ exists w',
       walkVarBind true sample_start (Some sample_stop) (Some restart_once)
                   (sample_recorder nat) scenario1_sentinel
                   (initial_world true 0 sample_start 1%nat 0, false)
       = ((w', true), None)
       /\ written (new_events (initial_world true 0 sample_start 1%nat 0) w')
          = ["1.3.6.1.2.2|130|"%string].
Proof.
  split.
  - apply (proj1 (@snmprec_stopped_binding unit sample_formatValue
                    sample_build false sample_start (Some sample_stop)
                    (initial_world false 0 sample_start tt 0) false
                    sample_stop (mkValue EndOfMibView PEmpty) eq_refl)).
  - destruct (proj2 (proj2 (@snmprec_stopped_binding nat sample_formatValue
                 sample_build true sample_start (Some sample_stop)
                 (initial_world true 0 sample_start 1%nat 0) false
                 sample_stop (mkValue EndOfMibView PEmpty) eq_refl)
                restart_once)
              2%nat "1.3.6.1.2.2"%string "130"%string EmptyString eq_refl)
      as (w' & Hbody & Hwritten & _).
    exists w'. split; [exact Hbody | exact Hwritten].
Defined.

Lemma clean_walk_summary_witness :
  length (written (trace scenario1_main)) = 5%nat
  /\ total (cbCtx scenario1_main) = 10
  /\ errors (cbCtx scenario1_main) = 0.
Proof.
  destruct (@clean_walk_summary unit Python3 sample_formatValue sample_build
      false 0
              sample_start (Some sample_stop) tt 0%Q scenario1_data []
              (clean_response [[scenario1_sentinel]]) [] scenario1_sentinel)
    as (Hwritten & _ & _ & Htotal & Herrors & _).
  - repeat constructor.
  - reflexivity.
  - reflexivity.
  - reflexivity.
  - reflexivity.
  - split; [|split].
    + unfold scenario1_main, sample_recorder. rewrite Hwritten. reflexivity.
    + unfold scenario1_main, sample_recorder. rewrite Htotal. reflexivity.
    + exact Herrors.
Defined.

(** Scenario 1 run through the model: five lines, and "OIDs dumped: 10" in
the closing summary. *)
Example scenario1_computed :
  written (trace scenario1_main)
  = ["1.3.6.1.2.1.1.1.0|2|1"; "1.3.6.1.2.1.1.2.0|2|2";
     "1.3.6.1.2.1.1.3.0|2|3"; "1.3.6.1.2.1.1.4.0|2|4";
     "1.3.6.1.2.1.1.5.0|2|5"]%string
  /\ last (trace scenario1_main) (Sleep 0) = LogInfo (Summary 10 0)
  /\ count (cbCtx scenario1_main) = 5.
Proof. vm_compute. repeat split. Qed.

(** * Further properties of the walk *)

Section WalkFacts.
Variable M : Type.
Variable interpreter : Interpreter.
Variable getBulkFlag : bool.
Variable continueOnErrors : Z.
Variable startOID : OID.
Variable stopOID : option OID.
Variable variationModule : option (VariationModule M).
Variable dataFileHandler : RecordType M.

Local Abbreviation body :=
  (walkVarBind getBulkFlag startOID stopOID variationModule dataFileHandler).
Local Abbreviation over_table :=
  (walkTable getBulkFlag startOID stopOID variationModule dataFileHandler).
Local Abbreviation callback :=
  (cbFun interpreter getBulkFlag continueOnErrors startOID stopOID
      variationModule
         dataFileHandler).
Local Abbreviation clean :=
  (successPath getBulkFlag continueOnErrors startOID stopOID variationModule
               dataFileHandler).
Local Abbreviation run :=
  (invocations interpreter getBulkFlag continueOnErrors startOID stopOID
      variationModule
               dataFileHandler).
Local Abbreviation start :=
  (initial_world (M:=M) getBulkFlag continueOnErrors startOID).

Lemma errorPath_books (w : World M) (rsp : Response) :
  books w (fst (errorPath interpreter getBulkFlag continueOnErrors w rsp)).
Proof.
  unfold errorPath. cbn [emit cbCtx].
  destruct (negb (retries (cbCtx w) =? 0)).
  - destruct (last_row_first_oid (varBindTable rsp)) as [oid|e];
      cbn [emit cbCtx];
      destruct (fuzzyNextOID _ _ _) as [next|e'];
      unfold emit, with_ctx; cbn [fst cbCtx trace moduleContext];
      (eapply books_quiet;
       [cbn [trace]; repeat rewrite <- app_assoc; reflexivity
       | reflexivity ..]).
  - unfold emit, with_ctx; cbn [fst cbCtx trace moduleContext].
    eapply books_quiet; [cbn [trace]; reflexivity | reflexivity ..].
Qed.

Lemma successPath_books (w : World M) (rsp : Response) :
  books w (fst (clean w rsp)).
Proof.
  unfold successPath.
  set (w0 := match last_row_first_oid (varBindTable rsp) with
             | Return _ => _
             | Raise _ => _
             end).
  assert (B0 : books w w0).
  { apply (@books_quiet M w w0 []); unfold w0;
      destruct (negb (continueOnErrors =? retries (cbCtx w)));
      destruct (last_row_first_oid (varBindTable rsp));
      cbn [with_ctx trace cbCtx]; rewrite ?app_nil_r; reflexivity. }
  pose proof (@walkTable_books M getBulkFlag startOID stopOID variationModule
                dataFileHandler (varBindTable rsp) (w0, false)) as B1.
  destruct (over_table (varBindTable rsp) (w0, false)) as [[w1 flag] [e|]];
    cbn [fst snd] in *.
  - exact (books_then B0 B1).
  - refine (books_then (books_then B0 B1) _).
    apply (@books_quiet M w1 _ []); cbn [with_ctx trace cbCtx];
      rewrite ?app_nil_r; reflexivity.
Qed.

Lemma cbFun_books (w : World M) (rsp : Response) :
  books w (fst (callback w rsp)).
Proof.
  unfold cbFun.
  assert (Hgen : books w (fst (if is_failure rsp
                               then errorPath interpreter getBulkFlag
                                   continueOnErrors
                                              w rsp
                               else clean w rsp))).
  { destruct (is_failure rsp);
      [apply errorPath_books | apply successPath_books]. }
  destruct (errorIndication rsp) as [indication|]; [|exact Hgen].
  destruct (retries (cbCtx w) =? 0); [|exact Hgen].
  unfold emit, with_ctx; cbn [fst cbCtx trace moduleContext].
  eapply books_quiet; [cbn [trace]; reflexivity | reflexivity ..].
Qed.

(** The books of a whole run, started by [main]. *)
Lemma run_books (m : M) (now : Q) (rsps : list Response) :
  let w := run (start m now) rsps in
  total (cbCtx w) = Z.of_nat (length (written (trace w)))
  /\ iteration (cbCtx w) = Z.of_nat (moreData_calls (trace w))
  /\ 0 <= count (cbCtx w) <= total (cbCtx w).
Proof.
  induction rsps as [|rsp rsps IH] using rev_ind.
  - cbn. unfold moreData_calls. cbn. lia.
  - cbn zeta in *. rewrite invocations_snoc.
    set (w := run (start m now) rsps) in *.
    destruct IH as (Ht & Hi & Hc).
    destruct (cbFun_books w rsp) as (evs & T & A & I & C & _).
    rewrite T, written_app, moreData_calls_app, length_app, !Nat2Z.inj_add.
    specialize (C (proj1 Hc)). lia.
Qed.

(** The dispatcher hands the callback a prefix of the responses. *)
Lemma runDispatcher_prefix (rsps : list Response) (pending : nat)
    (w : World M) :
  exists n,
    runDispatcher interpreter getBulkFlag continueOnErrors startOID stopOID
                  variationModule dataFileHandler pending w rsps
    = run w (firstn n rsps).
Proof.
  revert pending w. induction rsps as [|rsp rsps IH]; intros pending w.
  - exists 0%nat. reflexivity.
  - destruct pending as [|pending']; [exists 0%nat; reflexivity|].
    cbn [runDispatcher].
    destruct (callback w rsp) as [w' [answer|e]] eqn:Hcb.
    + destruct (IH (pending'
                    + (requests (trace w') - requests (trace w))
                    + match answer with
                      | Some true => 1
                      | _ => 0
                      end)%nat w') as [n Hn].
      exists (S n). rewrite Hn. cbn [firstn invocations fold_left].
      rewrite Hcb. reflexivity.
    + exists 1%nat. cbn [firstn invocations fold_left]. rewrite Hcb.
      reflexivity.
Qed.

(** X1. Whatever the agent answered, the total in the closing summary of
[main] is the number of records written plus the per-iteration count still
standing at the end of the walk, and that count lies between 0 and the number
of records written: the summary is exact only when no record was written
since the last MoreData restart. *)
Theorem summary_total_is_written_plus_count (m : M) (now : Q)
    (rsps : list Response) :
  let w := main interpreter getBulkFlag continueOnErrors startOID stopOID
      variationModule
                dataFileHandler m now rsps in
  total (cbCtx w) = Z.of_nat (length (written (trace w))) + count (cbCtx w)
  /\ 0 <= count (cbCtx w) <= Z.of_nat (length (written (trace w)))
  /\ exists t,
       trace w
       = t ++ [LogInfo (Summary (total (cbCtx w)) (errors (cbCtx w)))].
Proof.
  unfold main.
  destruct (runDispatcher_prefix rsps 1 (start m now)) as [n ->].
  destruct (run_books m now (firstn n rsps)) as (Ht & _ & Hc).
  cbn zeta in *. set (w0 := run (start m now) (firstn n rsps)) in *.
  unfold main_finally, emit, with_ctx.
  cbn [cbCtx trace set_total total count errors].
  rewrite written_app, length_app. cbn [written length].
  split; [lia|]. split; [lia|]. eexists. reflexivity.
Qed.

Lemma within_doubles_le (n n' : nat) :
  (n <= n')%nat ->
  within_doubles interpreter continueOnErrors n' ->
  within_doubles interpreter continueOnErrors n.
Proof.
  unfold within_doubles. intros Hle [H|[H|H]]; auto. right. right. lia.
Qed.

(** In a run in range, the division of the ratio test returns wherever the
    callback gets to it. *)
Lemma run_divides (m : M) (now : Q) (rsps : list Response) :
  within_doubles interpreter continueOnErrors (length rsps) ->
  retries (cbCtx (run (start m now) rsps)) <> 0 ->
  exists ratio,
    div interpreter
        ((continueOnErrors - retries (cbCtx (run (start m now) rsps))) * 10)
        continueOnErrors = Return ratio.
Proof.
  intros Hrange Hnz.
  apply (@retrying_divides interpreter continueOnErrors
           (cbCtx (run (start m now) rsps)) (length rsps)).
  - apply (@invocations_retry_invariant M interpreter getBulkFlag
             continueOnErrors startOID stopOID variationModule
             dataFileHandler m now rsps).
  - exact Hnz.
  - pose proof (@invocations_retries_floor M interpreter getBulkFlag
                  continueOnErrors startOID stopOID variationModule
                  dataFileHandler (start m now) rsps) as Hfloor.
    cbn [initial_world initial_cbCtx cbCtx retries] in Hfloor.
    exact Hfloor.
  - exact Hrange.
Qed.

Lemma cbFun_errors (w : World M) (rsp : Response) :
  (retries (cbCtx w) <> 0 ->
   exists ratio,
     div interpreter ((continueOnErrors - retries (cbCtx w)) * 10)
         continueOnErrors = Return ratio) ->
  errors (cbCtx (fst (callback w rsp)))
  = errors (cbCtx w) + (if is_failure rsp then 1 else 0).
Proof.
  intros Hdiv. unfold cbFun.
  assert (Hgen :
    errors (cbCtx (fst (if is_failure rsp
                        then errorPath interpreter getBulkFlag
                                       continueOnErrors w rsp
                        else clean w rsp)))
    = errors (cbCtx w) + (if is_failure rsp then 1 else 0)).
  { destruct (is_failure rsp).
    - unfold errorPath. cbn [emit cbCtx].
      destruct (Z.eqb_spec (retries (cbCtx w)) 0) as [Hz|Hnz]; cbn [negb];
        [reflexivity|].
      specialize (Hdiv Hnz).
      destruct (last_row_first_oid (varBindTable rsp)) as [oid|e];
        cbn [emit cbCtx].
      + destruct (@fuzzyNextOID_returns interpreter continueOnErrors
                    (retries (cbCtx w)) oid Hdiv) as [next ->].
        reflexivity.
      + destruct (@fuzzyNextOID_returns interpreter continueOnErrors
                    (retries (cbCtx w)) (lastOID (cbCtx w)) Hdiv)
          as [next ->].
        reflexivity.
    - rewrite successPath_keeps_errors. lia. }
  destruct (errorIndication rsp) as [indication|] eqn:Hind; [|exact Hgen].
  destruct (retries (cbCtx w) =? 0); [|exact Hgen].
  unfold is_failure. rewrite Hind, orb_true_r. reflexivity.
Qed.

Lemma failures_snoc (rsps : list Response) (rsp : Response) :
  Z.of_nat (failures (rsps ++ [rsp]))
  = Z.of_nat (failures rsps) + (if is_failure rsp then 1 else 0).
Proof.
  unfold failures. rewrite filter_app, length_app. cbn [filter].
  destruct (is_failure rsp); cbn [length]; lia.
Qed.

(** X2. After any sequence of callback invocations on the [cbCtx] that
[main] creates, [errors] is exactly the number of failed responses among
them (engine error, or an error status other than 0 and 2): every failure is
counted once, whether it was retried or not, and a clean response never
counts.  This holds of every run in range of the doubles: under Python 2,
with a budget that is not negative, or with fewer than [2 ^ 1000 / 10]
invocations. *)
Theorem errors_counts_failed_responses (m : M) (now : Q)
    (rsps : list Response) :
  within_doubles interpreter continueOnErrors (length rsps) ->
  errors (cbCtx (run (start m now) rsps)) = Z.of_nat (failures rsps).
Proof.
  induction rsps as [|rsp rsps IH] using rev_ind; [reflexivity|].
  intros Hrange. rewrite length_app in Hrange.
  assert (Hprefix : within_doubles interpreter continueOnErrors
                                   (length rsps))
    by (apply (@within_doubles_le (length rsps) (length rsps + length [rsp])
                 ltac:(lia) Hrange)).
  rewrite invocations_snoc, failures_snoc, <- (IH Hprefix).
  apply cbFun_errors. apply run_divides. exact Hprefix.
Qed.

(** X3. After any sequence of callback invocations, [iteration] is the
number of times the formatter has raised MoreData so far, and neither
[iteration] nor [total] ever goes down from one invocation to the next. *)
Theorem iteration_counts_moreData (m : M) (now : Q) (rsps : list Response)
    (rsp : Response) :
  let w := run (start m now) rsps in
  let w' := fst (callback w rsp) in
  iteration (cbCtx w) = Z.of_nat (moreData_calls (trace w))
  /\ iteration (cbCtx w) <= iteration (cbCtx w')
  /\ total (cbCtx w) <= total (cbCtx w').
Proof.
  intros w w'.
  destruct (run_books m now rsps) as (_ & Hi & _). fold w in Hi.
  destruct (cbFun_books w rsp) as (evs & _ & A & I & _). fold w' in A, I.
  split; [exact Hi | lia].
Qed.

Lemma loop_event_request_mode (e : Event) :
  loop_event getBulkFlag startOID e -> request_mode getBulkFlag e.
Proof.
  destruct e as [r|r|b o|p|line|oid v c res]; cbn; try tauto.
Qed.

Lemma cbFun_request_mode (w : World M) (rsp : Response) :
  exists evs,
    trace (fst (callback w rsp)) = trace w ++ evs
    /\ Forall (request_mode getBulkFlag) evs.
Proof.
  unfold cbFun.
  assert (Hgen : exists evs,
    trace (fst (if is_failure rsp
                then errorPath interpreter getBulkFlag continueOnErrors w rsp
                else clean w rsp)) = trace w ++ evs
    /\ Forall (request_mode getBulkFlag) evs).
  { destruct (is_failure rsp).
    - unfold errorPath. cbn [emit cbCtx].
      destruct (negb (retries (cbCtx w) =? 0)).
      + destruct (last_row_first_oid (varBindTable rsp)) as [oid|e];
          cbn [emit cbCtx];
          destruct (fuzzyNextOID _ _ _) as [next|e'];
          unfold emit, with_ctx; cbn [fst cbCtx trace moduleContext];
          repeat rewrite <- app_assoc; eexists; (split; [reflexivity|]);
          repeat constructor.
      + unfold emit, with_ctx; cbn [fst cbCtx trace moduleContext].
        eexists; (split; [reflexivity|]); repeat constructor.
    - destruct (@successPath_appends_loop_events M getBulkFlag continueOnErrors
        startOID stopOID
                 variationModule dataFileHandler w rsp)
        as (evs & Ht & Hf).
      exists evs. split; [exact Ht|].
      eapply Forall_impl; [|exact Hf]. apply loop_event_request_mode. }
  destruct (errorIndication rsp) as [indication|]; [|exact Hgen].
  destruct (retries (cbCtx w) =? 0); [|exact Hgen].
  unfold emit, with_ctx; cbn [fst cbCtx trace moduleContext].
  eexists; (split; [reflexivity|]); repeat constructor.
Qed.

Lemma run_request_mode (m : M) (now : Q) (rsps : list Response) :
  Forall (request_mode getBulkFlag) (trace (run (start m now) rsps)).
Proof.
  induction rsps as [|rsp rsps IH] using rev_ind.
  - repeat constructor.
  - rewrite invocations_snoc.
    destruct (cbFun_request_mode (run (start m now) rsps) rsp)
      as (evs & -> & Hf).
    apply Forall_app. auto.
Qed.

Lemma cbFun_retry_step (w : World M) (rsp : Response) :
  (exists ratio,
     div interpreter ((continueOnErrors - retries (cbCtx w)) * 10)
         continueOnErrors = Return ratio) ->
  is_failure rsp = true -> retries (cbCtx w) <> 0 ->
  exists next,
    fuzzyNextOID interpreter continueOnErrors (retries (cbCtx w))
                 match last_row_first_oid (varBindTable rsp) with
                 | Return oid => oid
                 | Raise _ => lastOID (cbCtx w)
                 end
    = Return next
    /\ snd (callback w rsp) = Return None
    /\ cbCtx (fst (callback w rsp))
       = set_errors
           (set_lastOID (set_retries (cbCtx w) (retries (cbCtx w) - 1)) next)
           (errors (cbCtx w) + 1)
    /\ moduleContext (fst (callback w rsp)) = moduleContext w
    /\ polled (new_events w (fst (callback w rsp))) = [next]
    /\ written (new_events w (fst (callback w rsp))) = [].
Proof.
  intros Hdiv Hf Hnz.
  destruct (@fuzzyNextOID_returns interpreter continueOnErrors
              (retries (cbCtx w))
              match last_row_first_oid (varBindTable rsp) with
              | Return oid => oid
              | Raise _ => lastOID (cbCtx w)
              end Hdiv)
    as [next Hnext].
  exists next. split; [exact Hnext|].
  assert (Hcb : callback w rsp
                = errorPath interpreter getBulkFlag continueOnErrors w rsp).
  { unfold cbFun. rewrite Hf.
    destruct (Z.eqb_spec (retries (cbCtx w)) 0); [contradiction|].
    destruct (errorIndication rsp); reflexivity. }
  rewrite Hcb. unfold errorPath. cbn [emit cbCtx].
  destruct (Z.eqb_spec (retries (cbCtx w)) 0); [contradiction|]. cbn [negb].
  destruct (last_row_first_oid (varBindTable rsp)) as [oid|e];
    cbn [emit cbCtx]; rewrite Hnext;
    unfold emit, with_ctx; cbn [fst snd cbCtx trace moduleContext];
    repeat rewrite <- app_assoc;
    (split; [reflexivity|]); (split; [reflexivity|]);
    (split; [reflexivity|]);
    (erewrite new_events_app by reflexivity); split; reflexivity.
Qed.

(** X5. When a failed response arrives while retries are left, after any
sequence of earlier invocations in range of the doubles (Python 2, or a
budget that is not negative, or fewer than [2 ^ 1000 / 10] invocations), the
callback computes the resume OID with the retry heuristic from the first OID
of the last row of the response -- or from [lastOID] when the response has
no such row -- and it does so without raising; it stores that OID as
[lastOID], lowers [retries] by one, counts one error, hands the engine
exactly one request, for that OID, writes nothing and answers [None]. *)
Theorem retry_resumes_from_computed_oid (m : M) (now : Q)
    (rsps : list Response) (rsp : Response) :
  let w := run (start m now) rsps in
  within_doubles interpreter continueOnErrors (length rsps) ->
  is_failure rsp = true -> retries (cbCtx w) <> 0 ->
  exists next,
    fuzzyNextOID interpreter continueOnErrors (retries (cbCtx w))
                 match last_row_first_oid (varBindTable rsp) with
                 | Return oid => oid
                 | Raise _ => lastOID (cbCtx w)
                 end
    = Return next
    /\ snd (callback w rsp) = Return None
    /\ cbCtx (fst (callback w rsp))
       = set_errors
           (set_lastOID (set_retries (cbCtx w) (retries (cbCtx w) - 1)) next)
           (errors (cbCtx w) + 1)
    /\ moduleContext (fst (callback w rsp)) = moduleContext w
    /\ polled (new_events w (fst (callback w rsp))) = [next]
    /\ written (new_events w (fst (callback w rsp))) = [].
Proof.
  intros w Hrange Hf Hnz. apply cbFun_retry_step; [|exact Hf | exact Hnz].
  apply run_divides; assumption.
Qed.

(** X6. Clean responses heal the retry budget one step at a time: after [n]
clean responses in a row, [retries] stands at the smaller of the budget and
its earlier value plus [n], whatever the bindings were and even if a
callback raised while formatting them. *)
Theorem clean_responses_heal_retries (w : World M) (rsps : list Response) :
  retries (cbCtx w) <= continueOnErrors ->
  Forall (fun rsp => is_failure rsp = false) rsps ->
  retries (cbCtx (run w rsps))
  = Z.min continueOnErrors (retries (cbCtx w) + Z.of_nat (length rsps)).
Proof.
  revert w. induction rsps as [|rsp rsps IH]; intros w Hle Hall.
  - cbn. lia.
  - apply Forall_cons_iff in Hall as [Hf Hall].
    cbn [invocations fold_left length].
    change (fold_left _ rsps ?x) with (run x rsps).
    rewrite (@cbFun_clean M interpreter getBulkFlag continueOnErrors startOID
        stopOID
                 variationModule dataFileHandler w rsp Hf) in *.
    destruct (@successPath_retries M getBulkFlag continueOnErrors startOID
        stopOID
                 variationModule dataFileHandler w rsp) as [[He H]|[Hne H]];
      cbn zeta in H.
    + rewrite IH by (rewrite ?H; (lia || assumption)). rewrite H. lia.
    + rewrite IH by (rewrite ?H; (lia || assumption)). rewrite H. lia.
Qed.

Lemma successPath_lastOID (w : World M) (rsp : Response) :
  lastOID (cbCtx (fst (clean w rsp)))
  = match last_row_first_oid (varBindTable rsp) with
    | Return oid => oid
    | Raise _ => lastOID (cbCtx w)
    end.
Proof.
  unfold successPath.
  match goal with
  | |- context [over_table ?t ?s] =>
      pose proof (@walkTable_keeps_retry_state M getBulkFlag startOID stopOID
                    variationModule dataFileHandler t s) as (_ & _ & Hl & _);
      destruct (over_table t s) as [[w' flag] [e|]]
  end; cbn [fst snd cbCtx with_ctx set_reqTime lastOID] in *; rewrite Hl;
    destruct (negb (continueOnErrors =? retries (cbCtx w)));
    destruct (last_row_first_oid (varBindTable rsp)); reflexivity.
Qed.

(** X11. A failure that brings no bindings (a timeout) right after a clean
response is retried from behind that response: while retries are left, in a
run in range of the doubles, the one request the callback issues is for the
OID the retry heuristic computes from the first OID of the last row of the
clean response, whether or not formatting that response went through. *)
Theorem timeout_after_clean_response_resumes_behind_it (m : M) (now : Q)
    (rsps : list Response) (answered failed : Response) (oid : OID) :
  let w := fst (callback (run (start m now) rsps) answered) in
  within_doubles interpreter continueOnErrors (S (length rsps)) ->
  is_failure answered = false ->
  last_row_first_oid (varBindTable answered) = Return oid ->
  is_failure failed = true -> varBindTable failed = [] ->
  retries (cbCtx w) <> 0 ->
  exists next,
    fuzzyNextOID interpreter continueOnErrors (retries (cbCtx w)) oid
    = Return next
    /\ polled (new_events w (fst (callback w failed))) = [next]
    /\ lastOID (cbCtx (fst (callback w failed))) = next.
Proof.
  intros w Hrange Hclean Hoid Hf Hempty Hnz.
  assert (Hdiv : exists ratio,
             div interpreter ((continueOnErrors - retries (cbCtx w)) * 10)
                 continueOnErrors = Return ratio).
  { unfold w in *. rewrite <- invocations_snoc in *.
    apply run_divides; [|exact Hnz].
    rewrite length_app, Nat.add_1_r. exact Hrange. }
  assert (Hlast : lastOID (cbCtx w) = oid).
  { unfold w.
    rewrite (@cbFun_clean M interpreter getBulkFlag continueOnErrors startOID
               stopOID variationModule dataFileHandler _ answered Hclean).
    rewrite successPath_lastOID, Hoid. reflexivity. }
  destruct (cbFun_retry_step w failed Hdiv Hf Hnz)
    as (next & Hnext & _ & Hctx & _ & Hpolled & _).
  rewrite Hempty in Hnext. cbn [last_row_first_oid rev] in Hnext.
  rewrite Hlast in Hnext.
  exists next. split; [exact Hnext|]. split; [exact Hpolled|].
  rewrite Hctx. reflexivity.
Qed.

Lemma carry_false_iff (carried : bool) (views : list FormatView) :
  flags_follow stopOID carried views ->
  (carry carried views = false
   <-> carried = false
       /\ Forall (fun u => met stopOID u = false /\ seen_moreData u = false)
                 views).
Proof.
  revert carried. induction views as [|v views IH]; intros carried;
    cbn [flags_follow].
  - intros _. unfold carry. cbn. split; [auto | tauto].
  - intros [Hv Hrest]. unfold carry in *. cbn [fold_left].
    rewrite (IH _ Hrest). rewrite Hv, !orb_false_iff, Forall_cons_iff.
    tauto.
Qed.

(** X7. After a clean response the callback answers true (the engine may
go on with the walk) exactly when none of the bindings it formatted was at or
past the stop OID or carried a sentinel value, and the formatter raised
MoreData on none of them; it never answers [None] there, and it made one
formatter call per binding of the response, in order. *)
Theorem callback_continues_iff (w : World M) (rsp : Response)
    (answer : option bool) :
  is_failure rsp = false ->
  snd (callback w rsp) = Return answer ->
  map seen_oid (format_calls (new_events w (fst (callback w rsp))))
  = map fst (concat (varBindTable rsp))
  /\ exists continue,
       answer = Some continue
       /\ (continue = true
           <-> Forall (fun u =>
                         own_stop stopOID (seen_oid u) (seen_value u) = false
                         /\ seen_moreData u = false)
                      (format_calls
                         (new_events w (fst (callback w rsp))))).
Proof.
  intros Hf Hanswer.
  rewrite (@cbFun_clean M interpreter getBulkFlag continueOnErrors startOID
      stopOID
             variationModule dataFileHandler w rsp Hf) in *.
  destruct (@successPath_views M getBulkFlag continueOnErrors startOID
              stopOID variationModule dataFileHandler w rsp) as [Hff Hans].
  destruct (Hans answer Hanswer) as [-> Hoids].
  split; [exact Hoids|]. eexists. split; [reflexivity|].
  rewrite negb_true_iff, (@carry_false_iff false _ Hff). unfold met. tauto.
Qed.

Local Abbreviation over_row :=
  (walkRow getBulkFlag startOID stopOID variationModule dataFileHandler).

Lemma walkRow_missing_value (bs : list VarBind) (s : LoopState M)
    (oid : OID) :
  In (oid, None) bs ->
  exists e,
    snd (over_row bs s) = Some e
    /\ (e = AttributeError
        \/ exists o v c m0 m msg,
             format dataFileHandler o v c variationModule m0
             = (m, Raise (ForeignError msg))
             /\ e = FormatterFailure msg).
Proof.
  revert s. induction bs as [|vb bs IH]; intros s; [intros []|].
  intros Hin. cbn [walkRow].
  destruct vb as [o [v|]], s as [w stopFlag]; cbn [walkVarBind].
  - destruct Hin as [Heq|Hin]; [discriminate|].
    destruct (format dataFileHandler o (removeEnumeration v) _ _ _)
      as [m res] eqn:Hfmt.
    destruct res as [line|[[p|]| |msg|msg]].
    6:{ eexists. split; [reflexivity|]. right.
        eexists _, _, _, _, _, _. split; [exact Hfmt | reflexivity]. }
    1: destruct (_ =? 0).
    all: apply IH; exact Hin.
  - eexists. split; [reflexivity|]. left. reflexivity.
Qed.

(** X8. A clean response in which some binding has no value ([None]) makes
the callback raise instead of answering: [AttributeError], unless the
formatter itself let an exception of its own through on an earlier binding
of the response; [reqTime] is then left as it was. *)
Theorem missing_value_raises (w : World M) (rsp : Response) (oid : OID) :
  is_failure rsp = false ->
  In (oid, None) (concat (varBindTable rsp)) ->
  exists e,
    snd (callback w rsp) = Raise e
    /\ (e = AttributeError \/ exists msg, e = FormatterFailure msg)
    /\ ((forall o v c m,
            match snd (format dataFileHandler o v c variationModule m) with
            | Raise (ForeignError _) => False
            | _ => True
            end) ->
        e = AttributeError)
    /\ reqTime (cbCtx (fst (callback w rsp))) = reqTime (cbCtx w).
Proof.
  intros Hf Hin.
  rewrite (@cbFun_clean M interpreter getBulkFlag continueOnErrors startOID
      stopOID
             variationModule dataFileHandler w rsp Hf).
  unfold successPath.
  set (w0 := match last_row_first_oid (varBindTable rsp) with
             | Return _ => _
             | Raise _ => _
             end).
  assert (H0 : reqTime (cbCtx w0) = reqTime (cbCtx w)).
  { unfold w0. destruct (negb (continueOnErrors =? retries (cbCtx w)));
      destruct (last_row_first_oid (varBindTable rsp)); reflexivity. }
  pose proof (@walkTable_keeps_retry_state M getBulkFlag startOID stopOID
                variationModule dataFileHandler (varBindTable rsp)
                (w0, false)) as (_ & _ & _ & Hreq).
  destruct (walkRow_missing_value (concat (varBindTable rsp)) (w0, false)
              oid Hin) as (e & He & Hwhy).
  rewrite <- (@walkTable_concat M getBulkFlag startOID stopOID
                variationModule dataFileHandler) in He.
  destruct (over_table (varBindTable rsp) (w0, false)) as [[w1 flag] r].
  cbn [fst snd] in *. subst r.
  exists e. split; [reflexivity|]. split; [|split].
  - destruct Hwhy as [->|(o & v & c & m0 & m & msg & _ & ->)]; eauto.
  - intros Hnever.
    destruct Hwhy as [->|(o & v & c & m0 & m & msg & Hfmt & _)];
      [reflexivity|].
    specialize (Hnever o v c m0). rewrite Hfmt in Hnever. contradiction.
  - cbn [fst cbCtx]. rewrite Hreq. exact H0.
Qed.
End WalkFacts.

(** X4. Every request of a run, the first one and every retry and restart
after it, is sent in one and the same mode: GETBULK if --use-getbulk was
given and the protocol version is not SNMPv1, GETNEXT otherwise.  With
SNMPv1 no GETBULK is ever sent, whatever was asked for. *)
Theorem requests_keep_one_mode (M : Type) (interpreter : Interpreter)
    (requested : bool) (snmpVersion continueOnErrors : Z) (startOID : OID)
    (stopOID : option OID) (variationModule : option (VariationModule M))
    (dataFileHandler : RecordType M) (m : M) (now : Q)
    (rsps : list Response) :
  let bulk := getBulkFlag_in_effect requested snmpVersion in
  let w := main interpreter bulk continueOnErrors startOID stopOID
                variationModule dataFileHandler m now rsps in
  Forall (request_mode bulk) (trace w)
  /\ hd_error (trace w) = Some (SendVarBinds bulk startOID)
  /\ (snmpVersion = 0 -> bulk = false)
  /\ (snmpVersion <> 0 -> bulk = requested).
Proof.
  intros bulk w. split; [|split; [|split]].
  - unfold w, main.
    destruct (@runDispatcher_prefix M interpreter bulk continueOnErrors startOID
                stopOID variationModule dataFileHandler rsps 1
                (initial_world bulk continueOnErrors startOID m now))
      as [n ->].
    unfold main_finally, emit, with_ctx. cbn [trace].
    apply Forall_app. split; [apply run_request_mode|].
    repeat constructor.
  - unfold w, main.
    destruct (@runDispatcher_prefix M interpreter bulk continueOnErrors startOID
                stopOID variationModule dataFileHandler rsps 1
                (initial_world bulk continueOnErrors startOID m now))
      as [n ->].
    unfold main_finally, emit, with_ctx. cbn [trace].
    generalize (firstn n rsps). intros l.
    induction l as [|rsp l IH] using rev_ind; [reflexivity|].
    rewrite invocations_snoc.
    destruct (@cbFun_request_mode M interpreter bulk continueOnErrors startOID
                stopOID variationModule dataFileHandler
                (invocations interpreter bulk continueOnErrors startOID stopOID
                   variationModule dataFileHandler
                   (initial_world bulk continueOnErrors startOID m now) l)
                rsp) as (evs & -> & _).
    destruct (trace (invocations interpreter bulk continueOnErrors startOID
        stopOID
                       variationModule dataFileHandler
                       (initial_world bulk continueOnErrors startOID m now)
                       l)) as [|e t]; [discriminate|].
    exact IH.
  - intros ->. unfold bulk, getBulkFlag_in_effect.
    destruct requested; reflexivity.
  - intros Hv. unfold bulk, getBulkFlag_in_effect.
    destruct (Z.eqb_spec snmpVersion 0); [contradiction|].
    rewrite andb_false_r. reflexivity.
Qed.

(** X9. On an OID of four or more sub-identifiers the retry heuristic,
whenever it returns, answers an OID that keeps all but the last two
sub-identifiers of its input, is as long as its input or one sub-identifier
shorter, never longer, and has no negative sub-identifier if the input had
none.  With a nonzero budget it returns under Python 2, and under Python 3
when the quotient of the ratio test is within the doubles; with a budget of
zero it raises [ZeroDivisionError]; and it raises nothing else but the
[OverflowError] of Python 3's division. *)
Theorem fuzzyNextOID_stays_in_subtree (interpreter : Interpreter) (c r : Z)
    (oid : OID) :
  (4 <= length oid)%nat ->
  (forall next,
      fuzzyNextOID interpreter c r oid = Return next ->
      firstn (length oid - 2) next = firstn (length oid - 2) oid
      /\ (length oid - 1 <= length next <= length oid)%nat
      /\ (Forall (fun x => 0 <= x) oid -> Forall (fun x => 0 <= x) next))
  /\ (c <> 0 ->
      interpreter = Python2 \/ Z.abs ((c - r) * 10) < 2 ^ 1000 * Z.abs c ->
      exists next, fuzzyNextOID interpreter c r oid = Return next)
  /\ (c = 0 -> fuzzyNextOID interpreter c r oid = Raise ZeroDivisionError)
  /\ (forall e,
        fuzzyNextOID interpreter c r oid = Raise e ->
        (e = ZeroDivisionError /\ c = 0)
        \/ (e = OverflowError /\ interpreter = Python3 /\ c <> 0)).
Proof.
  intros Hlen. split; [|split; [|split]].
  - intros next.
    destruct (two_trailing_items oid) as (front & a & b & ->); [lia|].
    rewrite fuzzyNextOID_long by exact Hlen.
    destruct (div interpreter ((c - r) * 10) c) as [ratio|e]; cbn [bind];
      [|discriminate].
    assert (Hfirst : forall tail,
              firstn (length (front ++ [a; b]) - 2) (front ++ tail)
              = firstn (length (front ++ [a; b]) - 2) (front ++ [a; b])).
    { intros tail. rewrite length_app. cbn [length].
      replace (length front + 2 - 2)%nat with (length front) by lia.
      rewrite !firstn_app, Nat.sub_diag, !firstn_all. reflexivity. }
    assert (Hnn : Forall (fun x => 0 <= x) (front ++ [a; b]) ->
                  Forall (fun x => 0 <= x) front /\ 0 <= a /\ 0 <= b).
    { intros H. apply Forall_app in H as [Hfr Hab].
      inversion Hab as [|? ? Ha Hb']; subst.
      inversion Hb' as [|? ? Hb _]; subst. auto. }
    destruct (Qgt_bool _ _); [|destruct (negb (b =? 0))];
      intros [= <-].
    + split; [apply Hfirst|]. rewrite !length_app. cbn [length].
      split; [lia|]. intros H. apply Hnn in H as (Hfr & Ha & Hb).
      apply Forall_app. split; [exact Hfr|]. repeat constructor. lia.
    + split; [apply Hfirst|]. rewrite !length_app. cbn [length].
      split; [lia|]. intros H. apply Hnn in H as (Hfr & Ha & Hb).
      apply Forall_app. split; [exact Hfr|]. repeat constructor; lia.
    + split; [apply Hfirst|]. rewrite !length_app. cbn [length].
      split; [lia|]. intros H. apply Hnn in H as (Hfr & Ha & Hb).
      apply Forall_app. split; [exact Hfr|]. repeat constructor; lia.
  - intros Hc Hfit. apply fuzzyNextOID_returns.
    apply div_returns; assumption.
  - intros ->. unfold fuzzyNextOID.
    destruct (Nat.ltb_spec (length oid) 4) as [H|_]; [lia|].
    destruct interpreter; reflexivity.
  - intros e. apply fuzzyNextOID_raises.
Qed.

(** X10. With a positive budget and [retries] within it, on an OID of four
or more sub-identifiers, the heuristic takes the coarse skip (its answer is
one sub-identifier shorter) exactly when the ratio exceeds 5 as the running
interpreter divides: under Python 2 when [5 * retries <= 2 * budget] (six
tenths of the budget spent), under Python 3 when the exact ratio exceeds
[5 + 2 ^ -51], which for a budget below [5 * 2 ^ 51] is when
[2 * retries < budget].  Otherwise its answer is as long as the input and
differs from it in the last one or two sub-identifiers only. *)
Theorem coarse_skip_as_interpreter_divides (interpreter : Interpreter)
    (c r : Z) (oid : OID) :
  0 < c -> 0 <= r <= c -> (4 <= length oid)%nat ->
  exists next,
    fuzzyNextOID interpreter c r oid = Return next
    /\ (length next = (length oid - 1)%nat
        <-> ratioExceeds5 interpreter c r = true)
    /\ (interpreter = Python2 ->
        (length next = (length oid - 1)%nat <-> 5 * r <= 2 * c))
    /\ (interpreter = Python3 ->
        (length next = (length oid - 1)%nat
         <-> (5 * 2 ^ 51 + 1) * c < (c - r) * 10 * 2 ^ 51))
    /\ (interpreter = Python3 -> c < 5 * 2 ^ 51 ->
        (length next = (length oid - 1)%nat <-> 2 * r < c))
    /\ (length next <> (length oid - 1)%nat ->
        length next = length oid
        /\ firstn (length oid - 2) next = firstn (length oid - 2) oid
        /\ next <> oid).
Proof.
  intros Hc Hr Hlen.
  destruct (two_trailing_items oid) as (front & a & b & ->); [lia|].
  destruct (@div_ratio interpreter c r Hc Hr) as (ratio & Hdiv & Hgt).
  rewrite fuzzyNextOID_long, Hdiv by exact Hlen. cbn [bind].
  rewrite Hgt. eexists. split; [reflexivity|].
  assert (Hfirst : forall tail,
            firstn (length front + 2 - 2) (front ++ tail) = front).
  { intros tail.
    replace (length front + 2 - 2)%nat with (length front) by lia.
    rewrite firstn_app, Nat.sub_diag, firstn_all. apply app_nil_r. }
  assert (Hcoarse :
    length (if ratioExceeds5 interpreter c r then front ++ [a + 1]
            else if negb (b =? 0) then front ++ [a; b + 1]
                 else front ++ [a + 1; 0])
    = (length (front ++ [a; b]) - 1)%nat
    <-> ratioExceeds5 interpreter c r = true).
  { destruct (ratioExceeds5 interpreter c r);
      [|destruct (negb (b =? 0))];
      rewrite !length_app; cbn [length]; split; (lia || discriminate || auto). }
  split; [exact Hcoarse|]. split; [|split; [|split]].
  - intros ->. rewrite Hcoarse. cbn [ratioExceeds5]. apply Z.leb_le.
  - intros ->. rewrite Hcoarse. cbn [ratioExceeds5]. apply Z.ltb_lt.
  - intros -> Hsmall. rewrite Hcoarse, ratioExceeds5_exact by lia.
    apply Z.ltb_lt.
  - rewrite Hcoarse.
    destruct (ratioExceeds5 interpreter c r); [congruence|]. intros _.
    destruct (Z.eqb_spec b 0); cbn [negb]; rewrite !length_app;
      cbn [length];
      (split; [reflexivity|]); (split; [rewrite !Hfirst; reflexivity|]);
      intros Heq; apply app_inv_head in Heq; injection Heq; lia.
Qed.

Section SnmprecWalkFacts.
Variable M : Type.
Variable interpreter : Interpreter.
Variable base_formatValue : OID -> Value -> bool -> Triple.
Variable build : string -> string -> string -> string.
Variable getBulkFlag : bool.
Variable continueOnErrors : Z.
Variable startOID : OID.
Variable stopOID : option OID.

Local Abbreviation recorder := (SnmprecRecord M base_formatValue build).
Local Abbreviation callback :=
  (cbFun interpreter getBulkFlag continueOnErrors startOID stopOID None
      recorder).
Local Abbreviation run :=
  (invocations interpreter getBulkFlag continueOnErrors startOID stopOID None
      recorder).
Local Abbreviation start :=
  (initial_world (M:=M) getBulkFlag continueOnErrors startOID).

(** Without a variation module the snmprec formatter never raises
MoreData. *)
Lemma snmprec_walkTable_no_moreData (tbl : list (list VarBind))
    (s : LoopState M) :
  exists evs,
    trace (fst (fst (walkTable getBulkFlag startOID stopOID None recorder
                               tbl s)))
    = trace (fst s) ++ evs
    /\ moreData_calls evs = 0%nat.
Proof.
  refine (@walkTable_rule M getBulkFlag startOID stopOID None recorder
            (fun s s' _ => exists evs,
                 trace (fst s') = trace (fst s) ++ evs
                 /\ moreData_calls evs = 0%nat) _ _ _ tbl s).
  - intros s0. exists []. rewrite app_nil_r. auto.
  - intros s1 s2 s3 _ (e1 & T1 & H1) (e2 & T2 & H2).
    exists (e1 ++ e2). rewrite T2, T1, app_assoc, moreData_calls_app.
    split; [reflexivity | lia].
  - intros [oid [v|]] [w stopFlag]; cbn [walkVarBind fst snd];
      [|exists []; rewrite app_nil_r; auto].
    rewrite format_without_module.
    destruct (ctx_stopFlag _); [|destruct (_ =? 0)];
      unfold emit, with_ctx, with_module;
      cbn [fst snd cbCtx trace moduleContext];
      repeat rewrite <- app_assoc; eexists; (split; [reflexivity|]);
      reflexivity.
Qed.

Lemma snmprec_cbFun_no_moreData (w : World M) (rsp : Response) :
  exists evs,
    trace (fst (callback w rsp)) = trace w ++ evs
    /\ moreData_calls evs = 0%nat.
Proof.
  unfold cbFun.
  assert (Hgen : exists evs,
    trace (fst (if is_failure rsp
                then errorPath interpreter getBulkFlag continueOnErrors w rsp
                else successPath getBulkFlag continueOnErrors startOID
                                 stopOID None recorder w rsp))
    = trace w ++ evs
    /\ moreData_calls evs = 0%nat).
  { destruct (is_failure rsp).
    - unfold errorPath. cbn [emit cbCtx].
      destruct (negb (retries (cbCtx w) =? 0)).
      + destruct (last_row_first_oid (varBindTable rsp)) as [oid|e];
          cbn [emit cbCtx];
          destruct (fuzzyNextOID _ _ _) as [next|e'];
          unfold emit, with_ctx; cbn [fst cbCtx trace moduleContext];
          repeat rewrite <- app_assoc; eexists; (split; [reflexivity|]);
          reflexivity.
      + unfold emit, with_ctx; cbn [fst cbCtx trace moduleContext].
        eexists; (split; [reflexivity|]); reflexivity.
    - unfold successPath.
      match goal with
      | |- context [walkTable _ _ _ _ _ ?t ?s] =>
          destruct (snmprec_walkTable_no_moreData t s) as (evs & Ht & Hmd);
          destruct (walkTable getBulkFlag startOID stopOID None recorder t s)
            as [[w' flag] [e|]]
      end; cbn [fst snd trace with_ctx] in *; exists evs;
        (split; [|exact Hmd]); rewrite Ht;
        destruct (negb (continueOnErrors =? retries (cbCtx w)));
        destruct (last_row_first_oid (varBindTable rsp)); reflexivity. }
  destruct (errorIndication rsp) as [indication|]; [|exact Hgen].
  destruct (retries (cbCtx w) =? 0); [|exact Hgen].
  unfold emit, with_ctx; cbn [fst cbCtx trace moduleContext].
  eexists; (split; [reflexivity|]); reflexivity.
Qed.

Lemma snmprec_run_single_pass (m : M) (now : Q) (rsps : list Response) :
  moreData_calls (trace (run (start m now) rsps)) = 0%nat
  /\ count (cbCtx (run (start m now) rsps))
     = total (cbCtx (run (start m now) rsps)).
Proof.
  induction rsps as [|rsp rsps IH] using rev_ind; [split; reflexivity|].
  rewrite invocations_snoc.
  set (w := run (start m now) rsps) in *. destruct IH as [Hmd Hct].
  destruct (snmprec_cbFun_no_moreData w rsp) as (evs & T & Hevs).
  destruct (@cbFun_books M interpreter getBulkFlag continueOnErrors startOID
      stopOID
              None recorder w rsp) as (evs' & T' & A & _ & _ & D).
  rewrite T in T'. apply app_inv_head in T'. subst evs'.
  rewrite T, moreData_calls_app, Hmd, Hevs. split; [reflexivity|].
  rewrite (D Hevs), A. lia.
Qed.

(** X12. With an snmprec record type and no variation module a run is a
single pass, whatever the agent answers and however often requests fail:
[iteration] stays 0, the per-iteration count equals the number of records
written, and the closing summary therefore reports exactly twice that
number. *)
Theorem snmprec_without_module_is_single_pass (m : M) (now : Q)
    (rsps : list Response) :
  let w := main interpreter getBulkFlag continueOnErrors startOID stopOID None
      recorder
                m now rsps in
  iteration (cbCtx w) = 0
  /\ moreData_calls (trace w) = 0%nat
  /\ count (cbCtx w) = Z.of_nat (length (written (trace w)))
  /\ total (cbCtx w) = 2 * Z.of_nat (length (written (trace w))).
Proof.
  unfold main.
  destruct (@runDispatcher_prefix M interpreter getBulkFlag continueOnErrors
      startOID
              stopOID None recorder rsps 1 (start m now)) as [n ->].
  destruct (snmprec_run_single_pass m now (firstn n rsps)) as [Hmd Hct].
  destruct (@run_books M interpreter getBulkFlag continueOnErrors startOID
      stopOID None
              recorder m now (firstn n rsps)) as (Ht & Hi & _).
  cbn zeta in *. set (w0 := run (start m now) (firstn n rsps)) in *.
  unfold main_finally, emit, with_ctx.
  cbn [cbCtx trace set_total total count iteration].
  rewrite moreData_calls_app, written_app, length_app, Hmd.
  cbn [written length].
  match goal with
  | |- context [moreData_calls [?e]] => change (moreData_calls [e]) with 0%nat
  end.
  rewrite Hmd in Hi. repeat split; lia.
Qed.
End SnmprecWalkFacts.

(** ** Examples for the further properties *)

Lemma errors_counts_failed_responses_witness :
  errors
    (cbCtx
       (invocations Python2 false (-1) sample_start (Some sample_stop) None
          (sample_recorder unit) (initial_world false (-1) sample_start tt 0)
          [timeout_response; clean_response []; timeout_response]))
  = 2.
Proof.
  exact (@errors_counts_failed_responses unit Python2 false (-1) sample_start
           (Some sample_stop) None (sample_recorder unit) tt 0%Q
           [timeout_response; clean_response []; timeout_response]
           ltac:(unfold within_doubles; left; reflexivity)).
Defined.

Lemma retry_resumes_from_computed_oid_witness :
  polled
    (new_events (initial_world false 3 sample_start tt 0)
       (fst (sample_cbFun 3 (initial_world false 3 sample_start tt 0)
               (mkResponse None 5 1
                  [[int_binding [1; 3; 6; 1; 2; 1; 2; 2; 1; 7] 0]] 1))))
  = [[1; 3; 6; 1; 2; 1; 2; 2; 1; 8]].
Proof.
  destruct (@retry_resumes_from_computed_oid unit Python3 false 3 sample_start
              (Some sample_stop) None (sample_recorder unit) tt 0%Q []
              (mkResponse None 5 1
                 [[int_binding [1; 3; 6; 1; 2; 1; 2; 2; 1; 7] 0]] 1)
              ltac:(unfold within_doubles; right; left; lia) eq_refl
              ltac:(discriminate))
    as (next & Hnext & _ & _ & _ & Hpolled & _).
  vm_compute in Hnext. injection Hnext as <-. exact Hpolled.
Defined.

Lemma clean_responses_heal_retries_witness :
  retries
    (cbCtx
       (invocations Python3 false 3 sample_start (Some sample_stop) None
          (sample_recorder unit)
          (mkWorld (mkCbCtx 0 0 2 0 0 1 sample_start) tt [])
          [clean_response []; clean_response []; clean_response []]))
  = 3.
Proof.
  rewrite (@clean_responses_heal_retries unit Python3 false 3 sample_start
             (Some sample_stop) None (sample_recorder unit)
             (mkWorld (mkCbCtx 0 0 2 0 0 1 sample_start) tt [])
             [clean_response []; clean_response []; clean_response []]).
  - reflexivity.
  - cbn. lia.
  - repeat constructor.
Defined.

Lemma callback_continues_iff_witness :
  map seen_oid
      (format_calls
         (new_events (initial_world false 0 sample_start tt 0)
            (fst (sample_cbFun 0 (initial_world false 0 sample_start tt 0)
                    (clean_response
                       [[int_binding [1; 3; 6; 1; 2; 1; 1; 1; 0] 7]])))))
  = [[1; 3; 6; 1; 2; 1; 1; 1; 0]].
Proof.
  apply (proj1 (@callback_continues_iff unit Python3 false 0 sample_start
                  (Some sample_stop) None (sample_recorder unit)
                  (initial_world false 0 sample_start tt 0)
                  (clean_response
                     [[int_binding [1; 3; 6; 1; 2; 1; 1; 1; 0] 7]])
                  (Some true) eq_refl eq_refl)).
Defined.

Lemma missing_value_raises_witness :
  exists e,
    snd (sample_cbFun 0 (initial_world false 0 sample_start tt 0)
           (clean_response
              [[int_binding [1; 3; 6; 1; 2; 1; 1; 1; 0] 7];
               [([1; 3; 6; 1; 2; 1; 1; 2; 0], None)]]))
    = Raise e
    /\ (e = AttributeError \/ exists msg, e = FormatterFailure msg).
Proof.
  destruct (@missing_value_raises unit Python3 false 0 sample_start
              (Some sample_stop) None (sample_recorder unit)
              (initial_world false 0 sample_start tt 0)
              (clean_response
                 [[int_binding [1; 3; 6; 1; 2; 1; 1; 1; 0] 7];
                  [([1; 3; 6; 1; 2; 1; 1; 2; 0], None)]])
              [1; 3; 6; 1; 2; 1; 1; 2; 0] eq_refl
              (or_intror (or_introl eq_refl)))
    as (e & Hraise & Hwhich & _).
  exists e. split; [exact Hraise | exact Hwhich].
Defined.

Lemma fuzzyNextOID_stays_in_subtree_witness :
  exists next,
    fuzzyNextOID Python3 3 1 [1; 3; 6; 1; 2; 1; 7; 0] = Return next
    /\ firstn 6 next = [1; 3; 6; 1; 2; 1].
Proof.
  destruct (@fuzzyNextOID_stays_in_subtree Python3 3 1
              [1; 3; 6; 1; 2; 1; 7; 0] ltac:(cbn; lia))
    as (Hkeeps & Hreturns & _).
  destruct (Hreturns ltac:(discriminate)
                     ltac:(right; vm_compute; reflexivity))
    as [next Hnext].
  exists next. split; [exact Hnext|].
  exact (proj1 (Hkeeps next Hnext)).
Defined.

Lemma coarse_skip_as_interpreter_divides_witness :
  exists next,
    fuzzyNextOID Python2 9 4 [1; 3; 6; 1; 2; 1; 7; 0] = Return next
    /\ (length next = 7%nat <-> 5 * 4 <= 2 * 9).
Proof.
  destruct (@coarse_skip_as_interpreter_divides Python2 9 4
              [1; 3; 6; 1; 2; 1; 7; 0] ltac:(lia) ltac:(lia)
              ltac:(cbn; lia))
    as (next & Hnext & _ & Hiff & _).
  exists next. split; [exact Hnext | exact (Hiff eq_refl)].
Defined.

Lemma timeout_after_clean_response_resumes_behind_it_witness :
  polled
    (new_events
       (fst (sample_cbFun 3 (initial_world false 3 sample_start tt 0)
               (clean_response
                  [[int_binding [1; 3; 6; 1; 2; 1; 1; 3; 0] 1]])))
       (fst (sample_cbFun 3
               (fst (sample_cbFun 3 (initial_world false 3 sample_start tt 0)
                       (clean_response
                          [[int_binding [1; 3; 6; 1; 2; 1; 1; 3; 0] 1]])))
               timeout_response)))
  = [[1; 3; 6; 1; 2; 1; 1; 4; 0]].
Proof.
  destruct (@timeout_after_clean_response_resumes_behind_it unit Python3 false 3
              sample_start (Some sample_stop) None (sample_recorder unit)
              tt 0%Q []
              (clean_response [[int_binding [1; 3; 6; 1; 2; 1; 1; 3; 0] 1]])
              timeout_response [1; 3; 6; 1; 2; 1; 1; 3; 0]
              ltac:(unfold within_doubles; right; left; lia)
              eq_refl eq_refl eq_refl eq_refl ltac:(discriminate))
    as (next & Hnext & Hpolled & _).
  vm_compute in Hnext. injection Hnext as <-. exact Hpolled.
Defined.

(** * Properties of the preparations in [main] *)

(** ** The SNMPv3 parameters *)

Lemma dict_contains_getitem {V : Type} (d : list (string * V))
    (key : string) :
  dict_contains d key = true -> exists v, dict_getitem d key = Return v.
Proof.
  induction d as [|[k v] d IH]; cbn; [discriminate|].
  destruct (String.eqb k key); cbn; [intros _; now exists v | exact IH].
Qed.

Lemma v3_option_valid_names (upper : string -> string)
    (opt : string * string) (p p' : V3Params) :
  valid_names p -> v3_option upper opt p = Return p' -> valid_names p'.
Proof.
  intros [Ha Hb]. destruct opt as [name value]. unfold v3_option.
  repeat match goal with
         | |- context [if ?c then _ else _] => destruct c eqn:?
         end;
    try discriminate;
    try (intros [= <-]; split; assumption).
  - unfold opt_v3_auth_proto.
    destruct (dict_contains AUTH_PROTOCOLS (upper value)) eqn:Hin;
      cbn [negb]; [|discriminate].
    intros [= <-]. split; [exact Hin | exact Hb].
  - unfold opt_v3_priv_proto.
    destruct (dict_contains PRIV_PROTOCOLS (upper value)) eqn:Hin;
      cbn [negb]; [|discriminate].
    intros [= <-]. split; [exact Ha | exact Hin].
Qed.

Lemma v3_options_valid_names (upper : string -> string)
    (opts : list (string * string)) :
  forall p p', valid_names p -> v3_options upper opts p = Return p' ->
               valid_names p'.
Proof.
  induction opts as [|opt opts IH]; intros p p' Hp; cbn [v3_options].
  - intros [= <-]. exact Hp.
  - destruct (v3_option upper opt p) as [q|e] eqn:Hq; cbn [bind];
      [|discriminate].
    apply IH. exact (@v3_option_valid_names upper opt p q Hp Hq).
Qed.

Lemma check_v3_no_KeyError (p : V3Params) (key : string) :
  valid_names p -> check_v3 p <> Raise (KeyError key).
Proof.
  intros [Ha Hb].
  destruct (@dict_contains_getitem _ _ _ Ha) as [a Hga].
  destruct (@dict_contains_getitem _ _ _ Hb) as [b Hgb].
  unfold check_v3.
  destruct (snmpVersion p =? 3); [|discriminate].
  destruct (is_None (v3User p)); [discriminate|].
  destruct (truthy (v3PrivKey p) && negb (truthy (v3AuthKey p)));
    [discriminate|].
  rewrite Hga. cbn [bind].
  destruct (is_usmNoAuthProtocol a).
  - cbn [bind].
    destruct (negb (is_None (v3AuthKey p)));
      cbn [set_v3AuthProto v3PrivProto v3PrivKey]; rewrite Hgb; cbn [bind];
      destruct (is_usmNoPrivProtocol b); try discriminate;
      destruct (is_None (v3PrivKey p)); discriminate.
  - destruct (is_None (v3AuthKey p)); cbn [bind]; [discriminate|].
    rewrite Hgb. cbn [bind].
    destruct (is_usmNoPrivProtocol b); try discriminate.
    destruct (is_None (v3PrivKey p)); discriminate.
Qed.

(** X13.  When the SNMPv3 checks of [main] let a configuration through, the
    user is set, the keys are as given, and the protocols later handed to
    [addV3User] fit the keys: the authentication protocol is
    [usmNoAuthProtocol] exactly when no authentication key was given, and
    the privacy protocol is [usmNoPrivProtocol] exactly when no privacy
    key was given.  The security level is "noAuthNoPriv" exactly when both
    protocols are the "no" ones, "authNoPriv" exactly when only the
    privacy protocol is, and "authPriv" exactly when a privacy protocol is
    set.  A non-empty privacy key comes with a non-empty authentication
    key; the level is "authPriv" without an authentication protocol
    exactly when the privacy key is the empty string and there is no
    authentication key. *)
Theorem v3_parameters_are_consistent (p p' : V3Params) :
  snmpVersion p = 3 ->
  check_v3 p = Return p' ->
  exists a b,
    dict_getitem AUTH_PROTOCOLS (v3AuthProto p') = Return a
    /\ dict_getitem PRIV_PROTOCOLS (v3PrivProto p') = Return b
    /\ snmpVersion p' = 3
    /\ v3User p' = v3User p /\ v3User p' <> None
    /\ v3AuthKey p' = v3AuthKey p /\ v3PrivKey p' = v3PrivKey p
    /\ (a = usmNoAuthProtocol <-> v3AuthKey p' = None)
    /\ (b = usmNoPrivProtocol <-> v3PrivKey p' = None)
    /\ (truthy (v3PrivKey p') = true -> truthy (v3AuthKey p') = true)
    /\ (secLevel p' = "noAuthNoPriv"%string
        <-> a = usmNoAuthProtocol /\ b = usmNoPrivProtocol)
    /\ (secLevel p' = "authNoPriv"%string
        <-> a <> usmNoAuthProtocol /\ b = usmNoPrivProtocol)
    /\ (secLevel p' = "authPriv"%string <-> b <> usmNoPrivProtocol)
    /\ (secLevel p' = "authPriv"%string /\ a = usmNoAuthProtocol
        <-> v3PrivKey p' = Some ""%string /\ v3AuthKey p' = None).
Proof.
  intros Hv Hc. destruct p as [ver user ak pk ap pp].
  cbn [snmpVersion] in Hv. subst ver. unfold check_v3 in Hc.
  cbn [snmpVersion v3User v3AuthKey v3PrivKey v3AuthProto v3PrivProto
       Z.eqb Pos.eqb] in Hc.
  destruct user as [user|]; cbn [is_None] in Hc; [|discriminate].
  destruct (dict_getitem AUTH_PROTOCOLS ap) as [a|e] eqn:Ha.
  2: { destruct (truthy pk && negb (truthy ak)); discriminate. }
  destruct (dict_getitem PRIV_PROTOCOLS pp) as [b|e] eqn:Hb.
  2: { destruct (truthy pk && negb (truthy ak)); [discriminate|].
       cbn [bind] in Hc.
       destruct (is_usmNoAuthProtocol a), ak;
         cbn [is_None negb bind set_v3AuthProto v3PrivProto v3AuthKey
              v3PrivKey] in Hc;
         try rewrite Hb in Hc; discriminate. }
  destruct ak as [[|c1 ak]|], pk as [[|c2 pk]|];
    cbn [truthy andb negb bind is_None] in Hc; try discriminate;
    destruct a; cbn [is_usmNoAuthProtocol bind is_None negb] in Hc;
    try discriminate;
    cbn [set_v3AuthProto snmpVersion v3User v3AuthKey v3PrivKey
         v3AuthProto v3PrivProto] in Hc;
    rewrite Hb in Hc; cbn [bind] in Hc;
    destruct b; cbn [is_usmNoPrivProtocol is_None negb] in Hc;
    try discriminate;
    injection Hc as <-;
    cbn [set_v3AuthProto set_v3PrivProto snmpVersion v3User v3AuthKey
         v3PrivKey v3AuthProto v3PrivProto secLevel Z.eqb Pos.eqb is_None
         andb truthy];
    (eexists; eexists;
     split; [first [exact Ha | reflexivity]|];
     split; [first [exact Hb | reflexivity]|]);
    repeat split; intros; try discriminate; try congruence;
    try tauto;
    repeat match goal with
           | H : _ /\ _ |- _ => destruct H
           end;
    try discriminate; try congruence.
Qed.

(** X14.  Whatever options were given, the dictionary lookups of the
    SNMPv3 checks never raise [KeyError]: every protocol name that the
    option loop lets through is a key of its table, and so are the names
    the checks themselves fill in. *)
Theorem v3_lookups_never_fail (upper : string -> string)
    (opts : list (string * string)) (p : V3Params) (key : string) :
  v3_options upper opts default_V3Params = Return p ->
  check_v3 p <> Raise (KeyError key)
  /\ forall p', check_v3 p = Return p' -> valid_names p'.
Proof.
  intros Hopts.
  assert (Hp : valid_names p).
  { apply (@v3_options_valid_names upper opts default_V3Params p);
      [split; reflexivity | exact Hopts]. }
  split; [exact (@check_v3_no_KeyError p key Hp)|].
  intros p' Hc. destruct Hp as [Ha Hb]. unfold check_v3 in Hc.
  destruct (snmpVersion p =? 3).
  2: { injection Hc as <-. split; assumption. }
  destruct (is_None (v3User p)); [discriminate|].
  destruct (truthy (v3PrivKey p) && negb (truthy (v3AuthKey p)));
    [discriminate|].
  destruct (dict_getitem AUTH_PROTOCOLS (v3AuthProto p)) as [a|e];
    cbn [bind] in Hc; [|discriminate].
  assert (Hstep : forall q : V3Params,
             valid_names q ->
             (b <- dict_getitem PRIV_PROTOCOLS (v3PrivProto q) ;;
              if is_usmNoPrivProtocol b then
                Return (if negb (is_None (v3PrivKey q))
                        then set_v3PrivProto q "DES" else q)
              else if is_None (v3PrivKey q)
                   then Raise (ReturnStatus 1 MissingV3PrivKey)
                   else Return q) = Return p' ->
             valid_names p').
  { intros q [Hqa Hqb] Hq.
    destruct (dict_getitem PRIV_PROTOCOLS (v3PrivProto q)) as [b|e];
      cbn [bind] in Hq; [|discriminate].
    destruct (is_usmNoPrivProtocol b).
    - injection Hq as <-.
      destruct (negb (is_None (v3PrivKey q)));
        split; try assumption; reflexivity.
    - destruct (is_None (v3PrivKey q)); [discriminate|].
      injection Hq as <-. split; assumption. }
  destruct (is_usmNoAuthProtocol a); cbn [bind] in Hc.
  - destruct (negb (is_None (v3AuthKey p))).
    + apply (Hstep (set_v3AuthProto p "MD5")); [|exact Hc].
      split; [reflexivity | exact Hb].
    + apply (Hstep p (conj Ha Hb) Hc).
  - destruct (is_None (v3AuthKey p)); cbn [bind] in Hc; [discriminate|].
    apply (Hstep p (conj Ha Hb) Hc).
Qed.

(** ** The name of the output file *)

Lemma endswith_refl (s : string) : endswith s s = true.
Proof. destruct s; cbn [endswith]; now rewrite String.eqb_refl. Qed.

Lemma endswith_append (s e : string) : endswith (s ++ e) e = true.
Proof.
  induction s as [|c s IH]; cbn [append].
  - apply endswith_refl.
  - cbn [endswith]. rewrite IH.
    now destruct (String.eqb (String c (s ++ e)) e).
Qed.

Lemma endswith_nonempty (s ext : string) :
  endswith s ("." ++ ext) = true -> truthy (Some s) = true.
Proof. destruct s; cbn; [discriminate | reflexivity]. Qed.

(** X15.  [main] writes to standard output exactly when no output file or
    an empty name was given.  Otherwise the name of the file it opens ends
    with the extension of the record type, is the given name or the given
    name followed by that extension, and is left as it is when it is given
    as the output file again: the extension is never added twice. *)
Theorem output_file_name_is_stable (outputFile : option string)
    (ext : string) :
  match output_file_name outputFile ext with
  | None => outputFile = None \/ outputFile = Some ""%string
  | Some f =>
      endswith f ("." ++ ext) = true
      /\ output_file_name (Some f) ext = Some f
      /\ exists name,
           outputFile = Some name /\ name <> ""%string
           /\ (f = name \/ f = (name ++ "." ++ ext)%string)
  end.
Proof.
  destruct outputFile as [[|c name]|]; cbn [output_file_name truthy];
    [now right | | now left].
  set (n := String c name).
  assert (Hgoal : forall f : string,
             endswith f ("." ++ ext) = true ->
             (f = n \/ f = (n ++ "." ++ ext)%string) ->
             endswith f ("." ++ ext) = true
             /\ output_file_name (Some f) ext = Some f
             /\ exists name0,
                  Some n = Some name0 /\ name0 <> ""%string
                  /\ (f = name0 \/ f = (name0 ++ "." ++ ext)%string)).
  { intros f Hf Hor. split; [exact Hf|]. split.
    - unfold output_file_name.
      rewrite (@endswith_nonempty f ext Hf), Hf. reflexivity.
    - exists n. split; [reflexivity|]. split; [discriminate | exact Hor]. }
  destruct (endswith n ("." ++ ext)) eqn:He; cbn [negb].
  - apply Hgoal; [exact He | now left].
  - apply Hgoal; [apply endswith_append | now right].
Qed.

(** ** Finding the variation module *)

(** X16.  The variation module is taken from the first directory of the
    search path that exists and holds a file of the module's name: [main]
    goes on with that file's path and namespace if the file executes, and
    returns 1 if it raises, without trying the directories after it; it
    returns 1 as well if no directory holds the file.  Directories given
    with --variation-modules-dir come before the built-in ones, the one
    given last first. *)
Theorem variation_module_comes_from_first_match
    (path_exists : string -> bool) (path_join : string -> string -> string)
    (Namespace : Type) (exec_file : string -> Raises string Namespace)
    (variationModuleName : string) (given variation : list string) :
  let file := fun dir => path_join dir (variationModuleName ++ ".py")%string in
  let holds := fun dir => path_exists dir && path_exists (file dir) in
  load_variation_module path_exists path_join exec_file variationModuleName
                        variation
  = match find holds variation with
    | None => Raise (ReturnStatus 1 (ModuleNotFound variationModuleName))
    | Some dir =>
        match exec_file (file dir) with
        | Return ctx => Return (file dir, ctx)
        | Raise exc =>
            Raise (ReturnStatus 1 (ModuleExecutionFailure (file dir) exc))
        end
    end
  /\ fold_left (fun dirs dir => opt_variation_modules_dir dir dirs) given
               variation
     = rev given ++ variation.
Proof.
  intros file holds. split.
  - induction variation as [|dir rest IH]; [reflexivity|].
    cbn [load_variation_module find]. unfold holds at 1.
    destruct (path_exists dir); cbn [negb andb]; [|exact IH].
    fold (file dir).
    destruct (path_exists (file dir)); cbn [negb]; [|exact IH].
    now destruct (exec_file (file dir)).
  - revert variation.
    induction given as [|dir given IH]; intros variation; [reflexivity|].
    cbn [fold_left rev]. rewrite IH. unfold opt_variation_modules_dir.
    now rewrite <- app_assoc.
Qed.

(** ** Examples for the preparations *)

Lemma v3_parameters_are_consistent_witness :
  exists a b,
    dict_getitem AUTH_PROTOCOLS "MD5"%string = Return a
    /\ dict_getitem PRIV_PROTOCOLS "DES"%string = Return b
    /\ a <> usmNoAuthProtocol /\ b <> usmNoPrivProtocol.
Proof.
  destruct (@v3_parameters_are_consistent
              (mkV3Params 3 (Some "operator") (Some "authkey1")
                          (Some "privkey1") "NONE" "NONE")%string
              (mkV3Params 3 (Some "operator") (Some "authkey1")
                          (Some "privkey1") "MD5" "DES")%string
              eq_refl eq_refl)
    as (a & b & Ha & Hb & _ & _ & _ & _ & _ & Hia & Hib & _).
  exists a, b. split; [exact Ha|]. split; [exact Hb|].
  split; intros H.
  - apply Hia in H. discriminate H.
  - apply Hib in H. discriminate H.
Defined.

Lemma v3_lookups_never_fail_witness :
  check_v3 (mkV3Params 3 (Some "operator") (Some "authkey1") None "SHA"
                       "NONE")%string
  <> Raise (KeyError "SHA"%string).
Proof.
  exact (proj1 (@v3_lookups_never_fail (fun value => value)
                  [("--v3", ""); ("--v3-user", "operator");
                   ("--v3-auth-key", "authkey1");
                   ("--v3-auth-proto", "SHA")]%string
                  (mkV3Params 3 (Some "operator") (Some "authkey1") None
                              "SHA" "NONE")%string
                  "SHA"%string eq_refl)).
Defined.
